(** * murdance: a shallow embedding of the booking core

    The development follows the layout of the Python package:
    [py] (the few pieces of Python's data model the code relies on),
    [models] (app/models.py and integrations/impulse/models.py),
    [fsm] (app/core/fsm.py), [config] (app/config.py), [circuit_breaker]
    (the breaker of integrations/impulse/client.py), [eff] (the world the
    coroutines act on: Redis, the CRM network, the clock), [redis]
    (app/storage/redis.py), [conversation], [idempotency], [budget_guard],
    [client], [cache], [error_handler], [fallback], [adapter] and
    [booking_flow].  [spec] holds the vocabulary of the properties; the
    modules named [*_facts] hold the properties themselves.

    Conventions.  A Python [str] is a Rocq [string] holding its UTF-8
    encoding; where the code depends on code points ([len], slicing) the
    text is decoded first.  [hashlib.sha256] and [str.lower] are parameters
    ([Sha256], [py.Lower]): the code is modelled, and every property
    proved, for whatever these two library functions compute.  A Python
    [int] is a [Z], a [float]
    a binary64 [float].  [None] is [None].  Coroutines are functions in the
    state-and-exception monad [eff.M]: a raised exception keeps the effects
    performed before it, as in Python.  The wall clock is a [Z] counting
    seconds. *)

From Stdlib Require Import ZArith NArith Lia Floats DecimalString DecimalZ Ascii String.
From stdpp Require Import gmap strings list fin_maps.

Open Scope string_scope.
Open Scope list_scope.
Open Scope Z_scope.

(* ===================================================================== *)
(** ** Python data model *)
(* ===================================================================== *)

Module py.

(** [str(n)] for an int. *)
Definition str_of_Z (z : Z) : string := NilZero.string_of_int (Z.to_int z).

(** [int(s)] on the decimal numerals Redis keeps for counters; [None] is
    [ValueError]. *)
Definition int_of_str (s : string) : option Z :=
  Z.of_int <$> NilZero.int_of_string s.

(** Truthiness of a [str | None] value: [None] and the empty string are
    falsy. *)
Definition truthy (o : option string) : bool :=
  match o with
  | Some s => negb (String.eqb s "")
  | None => false
  end.

(** Truthiness of an [int | None] value. *)
Definition truthy_int (o : option Z) : bool :=
  match o with
  | Some z => negb (z =? 0)%Z
  | None => false
  end.

(** [s or d] *)
Definition or_else (o : option string) (d : string) : string :=
  if truthy o then default d o else d.

(** [float(n)] for an int: the nearest binary64 value. *)
Definition float_of_Z (z : Z) : float := SF2Prim (binary_normalize 53 1024 z 0 false).

(** [int(x)] for a float: truncation towards zero; [None] when [x] is a NaN
    or an infinity. *)
Definition int_of_float (x : float) : option Z :=
  match Prim2SF x with
  | S754_zero _ => Some 0%Z
  | S754_finite sign m e =>
      let magnitude :=
        if (0 <=? e)%Z then (Z.pos m * 2 ^ e)%Z else (Z.pos m / 2 ^ (- e))%Z in
      Some (if sign then (- magnitude)%Z else magnitude)
  | S754_infinity _ | S754_nan => None
  end.

(** [x > y] and [x >= y] on floats. *)
Definition float_gt (x y : float) : bool := PrimFloat.ltb y x.
Definition float_ge (x y : float) : bool := PrimFloat.leb y x.

(** *** Code points *)

Definition bytes_of (s : string) : list N := map N_of_ascii (list_ascii_of_string s).
Definition of_bytes (l : list N) : string := string_of_list_ascii (map ascii_of_N l).

Definition cont (b : N) : N := N.land b 63.

Fixpoint decode_bytes (l : list N) : list N :=
  match l with
  | [] => []
  | b :: r =>
      if (b <? 128)%N then b :: decode_bytes r
      else if (b <? 224)%N then
        match r with
        | c1 :: r1 => N.lor (N.shiftl (N.land b 31) 6) (cont c1) :: decode_bytes r1
        | [] => [b]
        end
      else if (b <? 240)%N then
        match r with
        | c1 :: c2 :: r2 =>
            N.lor (N.shiftl (N.land b 15) 12)
                  (N.lor (N.shiftl (cont c1) 6) (cont c2)) :: decode_bytes r2
        | _ => [b]
        end
      else
        match r with
        | c1 :: c2 :: c3 :: r3 =>
            N.lor (N.shiftl (N.land b 7) 18)
                  (N.lor (N.shiftl (cont c1) 12)
                         (N.lor (N.shiftl (cont c2) 6) (cont c3))) :: decode_bytes r3
        | _ => [b]
        end
  end.

Definition encode_cp (c : N) : list N :=
  if (c <? 128)%N then [c]
  else if (c <? 2048)%N then
    [N.lor 192 (N.shiftr c 6); N.lor 128 (cont c)]
  else if (c <? 65536)%N then
    [N.lor 224 (N.shiftr c 12); N.lor 128 (cont (N.shiftr c 6)); N.lor 128 (cont c)]
  else
    [N.lor 240 (N.shiftr c 18); N.lor 128 (cont (N.shiftr c 12));
     N.lor 128 (cont (N.shiftr c 6)); N.lor 128 (cont c)].

(** The text of a [str], one number per code point. *)
Definition text := list N.

Definition decode (s : string) : text := decode_bytes (bytes_of s).
Definition encode (t : text) : string := of_bytes (flat_map encode_cp t).

(** [len(s)] *)
Definition len (s : string) : Z := Z.of_nat (length (decode s)).

(** [s.lower()]: the lower-casing of a string by the Unicode tables of the
    interpreter, a function of the string.  The code is modelled over any
    such function. *)
Class Lower := lower : string → string.

(** A lower-casing of code points for sample data: the letters A to Z,
    А to Я and Ё go to their small forms and every other character is left
    as it is.  It is not the model of [s.lower()], which is [Lower]; on
    texts made of ASCII and the letters of the Russian alphabet the two
    agree. *)
Definition lower_cp (c : N) : N :=
  if ((65 <=? c) && (c <=? 90))%N then (c + 32)%N
  else if ((1040 <=? c) && (c <=? 1071))%N then (c + 32)%N
  else if (c =? 1025)%N then 1105%N
  else c.

(** [old in s] on texts. *)
Fixpoint starts_with (p s : text) : bool :=
  match p, s with
  | [], _ => true
  | _ :: _, [] => false
  | a :: p', b :: s' => (a =? b)%N && starts_with p' s'
  end.

Fixpoint contains (s p : text) : bool :=
  starts_with p s ||
  match s with
  | [] => false
  | _ :: s' => contains s' p
  end.

(** [sub in s] on strings. *)
Definition str_in (sub s : string) : bool := contains (decode s) (decode sub).

(** [s[:n]] for [n >= 0]. *)
Definition slice_to (n : Z) (t : text) : text := take (Z.to_nat n) t.

(** [s.replace(old, new)]: the non-overlapping occurrences of [old], found
    from the left, are all replaced.  [skip] counts the characters of the
    occurrence just replaced that are still to be passed over. *)
Fixpoint replace_from (old new : text) (skip : nat) (s : text) : text :=
  match s with
  | [] => []
  | c :: s' =>
      match skip with
      | S k => replace_from old new k s'
      | O =>
          if starts_with old s
          then new ++ replace_from old new (length old - 1) s'
          else c :: replace_from old new 0 s'
      end
  end.

Definition replace (s old new : text) : text :=
  match old with
  | [] => new ++ flat_map (fun c => c :: new) s
  | _ :: _ => replace_from old new 0 s
  end.

(** *** Dates and times *)

Definition pad (width : nat) (z : Z) : string :=
  let s := str_of_Z z in
  string_of_list_ascii (repeat "0"%char (width - String.length s)) +:+ s.

(** A [date] and a [datetime] as their calendar fields; the time zone does
    not enter any formatting the code performs. *)
Record date := { d_year : Z; d_month : Z; d_day : Z }.

Record datetime := {
  year : Z; month : Z; day : Z; hour : Z; minute : Z; second : Z
}.

(** [dt.date()] *)
Definition date_of (d : datetime) : date :=
  {| d_year := year d; d_month := month d; d_day := day d |}.

(** [d.isoformat()], [str(d)] for a date *)
Definition date_isoformat (d : date) : string :=
  pad 4 (d_year d) +:+ "-" +:+ pad 2 (d_month d) +:+ "-" +:+ pad 2 (d_day d).

(** [d.strftime("%H:%M")] *)
Definition strftime_HM (d : datetime) : string :=
  pad 2 (hour d) +:+ ":" +:+ pad 2 (minute d).

(** [d.strftime("%d.%m.%Y %H:%M")] *)
Definition strftime_dmY_HM (d : datetime) : string :=
  pad 2 (day d) +:+ "." +:+ pad 2 (month d) +:+ "." +:+ pad 4 (year d) +:+ " " +:+ strftime_HM d.

(** [datetime.fromtimestamp(t, timezone.utc)] for a clock reading in whole
    seconds (the proleptic Gregorian calendar). *)
Definition utc_of_timestamp (t : Z) : datetime :=
  let days := t / 86400 in
  let secs := t mod 86400 in
  let z := days + 719468 in
  let era := z / 146097 in
  let doe := z - era * 146097 in
  let yoe := (doe - doe / 1460 + doe / 36524 - doe / 146096) / 365 in
  let doy := doe - (365 * yoe + yoe / 4 - yoe / 100) in
  let mp := (5 * doy + 2) / 153 in
  let d := doy - (153 * mp + 2) / 5 + 1 in
  let m := if mp <? 10 then mp + 3 else mp - 9 in
  let y := yoe + era * 400 + (if m <=? 2 then 1 else 0) in
  {| year := y; month := m; day := d;
     hour := secs / 3600; minute := (secs mod 3600) / 60; second := secs mod 60 |}.

(** [d.isoformat()] of an aware UTC datetime without microseconds. *)
Definition datetime_isoformat (d : datetime) : string :=
  date_isoformat (date_of d) +:+ "T" +:+ pad 2 (hour d) +:+ ":" +:+ pad 2 (minute d) +:+ ":"
    +:+ pad 2 (second d) +:+ "+00:00".

(** [str(x)] for [x : date | None] and [x : int | None] *)
Definition str_opt_date (o : option date) : string :=
  match o with Some d => date_isoformat d | None => "None" end.
Definition str_opt_int (o : option Z) : string :=
  match o with Some z => str_of_Z z | None => "None" end.
Definition str_opt (o : option string) : string :=
  match o with Some s => s | None => "None" end.

(** [sep.join(parts)] *)
Fixpoint join (sep : string) (parts : list string) : string :=
  match parts with
  | [] => ""
  | [p] => p
  | p :: rest => p +:+ sep +:+ join sep rest
  end.

(** The line feed. *)
Definition nl : string := String (ascii_of_nat 10) "".

End py.

(* ===================================================================== *)
(** ** app/models.py, app/integrations/impulse/models.py *)
(* ===================================================================== *)

Module models.

Inductive ConversationState :=
| IDLE
| COLLECTING_INTENT
| BROWSING_SCHEDULE
| COLLECTING_GROUP
| COLLECTING_DATETIME
| COLLECTING_CONTACT
| CONFIRM_BOOKING
| BOOKING_IN_PROGRESS
| BOOKING_DONE
| CANCEL_FLOW
| SERIAL_BOOKING
| HANDOFF_TO_ADMIN
| ADMIN_RESPONDING.

#[global] Instance ConversationState_eq_dec : EqDecision ConversationState.
Proof. solve_decision. Defined.

Definition all_states : list ConversationState :=
  [IDLE; COLLECTING_INTENT; BROWSING_SCHEDULE; COLLECTING_GROUP;
   COLLECTING_DATETIME; COLLECTING_CONTACT; CONFIRM_BOOKING;
   BOOKING_IN_PROGRESS; BOOKING_DONE; CANCEL_FLOW; SERIAL_BOOKING;
   HANDOFF_TO_ADMIN; ADMIN_RESPONDING].

Record SlotValues := {
  group : option string;
  datetime_raw : option string;
  datetime_resolved : option py.datetime;
  client_name : option string;
  client_phone : option string;
  schedule_id : option string;
  messages : list (string * string)
}.

(** [SlotValues()] *)
Definition empty_slots : SlotValues :=
  {| group := None; datetime_raw := None; datetime_resolved := None;
     client_name := None; client_phone := None; schedule_id := None;
     messages := [] |}.

Record Session := {
  trace_id : string;
  channel : string;
  chat_id : string;
  state : ConversationState;
  slots : SlotValues;
  created_at : Z;
  updated_at : Z;
  expires_at : Z
}.

Definition with_state (s : Session) (st : ConversationState) : Session :=
  {| trace_id := trace_id s; channel := channel s; chat_id := chat_id s;
     state := st; slots := slots s; created_at := created_at s;
     updated_at := updated_at s; expires_at := expires_at s |}.

Definition with_times (s : Session) (upd exp : Z) : Session :=
  {| trace_id := trace_id s; channel := channel s; chat_id := chat_id s;
     state := state s; slots := slots s; created_at := created_at s;
     updated_at := upd; expires_at := exp |}.

(** [session.slots = slots] and [session.trace_id = trace_id] *)
Definition with_slots (s : Session) (sl : SlotValues) : Session :=
  {| trace_id := trace_id s; channel := channel s; chat_id := chat_id s;
     state := state s; slots := sl; created_at := created_at s;
     updated_at := updated_at s; expires_at := expires_at s |}.

Definition with_trace_id (s : Session) (t : string) : Session :=
  {| trace_id := t; channel := channel s; chat_id := chat_id s;
     state := state s; slots := slots s; created_at := created_at s;
     updated_at := updated_at s; expires_at := expires_at s |}.

Inductive MessageType :=
| TEXT
| VOICE
| STICKER
| IMAGE.

(** An inbound message (its raw payload left out). *)
Record UnifiedMessage := {
  msg_channel : string;
  msg_chat_id : string;
  msg_message_id : string;
  msg_timestamp : Z;
  msg_text : string;
  msg_message_type : MessageType;
  msg_sender_phone : option string;
  msg_sender_name : option string;
  msg_trace_id : string
}.

Record Schedule := {
  sch_id : Z;
  sch_group_id : option Z;
  sch_teacher_id : option Z;
  sch_hall_id : option Z;
  sch_date : string;
  sch_time : string;
  sch_duration_minutes : option Z;
  sch_max_students : option Z;
  sch_current_students : option Z;
  sch_is_active : option bool;
  sch_created_at : option string;
  sch_updated_at : option string
}.

Record Group := {
  grp_id : Z;
  grp_name : string;
  grp_style_id : option Z;
  grp_teacher_id : option Z;
  grp_description : option string;
  grp_is_active : option bool
}.

Record Client := {
  cl_id : Z;
  cl_name : string;
  cl_phone : string;
  cl_email : option string;
  cl_informer_id : option Z;
  cl_created_at : option string;
  cl_updated_at : option string
}.

Record Reservation := {
  res_id : Z;
  res_client_id : Z;
  res_schedule_id : Z;
  res_status_id : option Z;
  res_created_at : option string;
  res_updated_at : option string;
  res_notes : option string
}.

End models.

(* ===================================================================== *)
(** ** app/core/fsm.py *)
(* ===================================================================== *)

Module fsm.
Import models.

(** The [transitions] dictionary of [can_transition]. *)
Definition transitions (from_state : ConversationState) : list ConversationState :=
  match from_state with
  | IDLE => [COLLECTING_INTENT; CANCEL_FLOW; HANDOFF_TO_ADMIN]
  | COLLECTING_INTENT =>
      [BROWSING_SCHEDULE; COLLECTING_GROUP; COLLECTING_DATETIME;
       COLLECTING_CONTACT; IDLE; CANCEL_FLOW; HANDOFF_TO_ADMIN]
  | BROWSING_SCHEDULE => [COLLECTING_GROUP; IDLE; CANCEL_FLOW; HANDOFF_TO_ADMIN]
  | COLLECTING_GROUP => [COLLECTING_DATETIME; IDLE; CANCEL_FLOW; HANDOFF_TO_ADMIN]
  | COLLECTING_DATETIME => [COLLECTING_CONTACT; IDLE; CANCEL_FLOW; HANDOFF_TO_ADMIN]
  | COLLECTING_CONTACT => [CONFIRM_BOOKING; IDLE; CANCEL_FLOW; HANDOFF_TO_ADMIN]
  | CONFIRM_BOOKING => [BOOKING_IN_PROGRESS; IDLE; CANCEL_FLOW; HANDOFF_TO_ADMIN]
  | BOOKING_IN_PROGRESS => [BOOKING_DONE; IDLE; HANDOFF_TO_ADMIN]
  | BOOKING_DONE => [IDLE; SERIAL_BOOKING]
  | CANCEL_FLOW => [IDLE; HANDOFF_TO_ADMIN]
  | SERIAL_BOOKING => [COLLECTING_GROUP; IDLE; HANDOFF_TO_ADMIN]
  | HANDOFF_TO_ADMIN => [ADMIN_RESPONDING; IDLE]
  | ADMIN_RESPONDING => [IDLE]
  end.

Definition can_transition (from_state to_state : ConversationState) : bool :=
  bool_decide (to_state ∈ transitions from_state).

Definition get_timeout_seconds (st : ConversationState) : option Z :=
  match st with
  | CONFIRM_BOOKING => Some (3 * 3600)
  | BOOKING_IN_PROGRESS => Some 30
  | ADMIN_RESPONDING => Some (4 * 3600)
  | _ => None
  end.

Definition is_terminal_state (st : ConversationState) : bool :=
  bool_decide (st = BOOKING_DONE).

Definition is_persistent_state (st : ConversationState) : bool :=
  bool_decide (st ∈ [HANDOFF_TO_ADMIN; ADMIN_RESPONDING]).

(** The transition table as section 4.2 of the specification prints it,
    one pair per listed edge, written from the specification's text and
    independently of [transitions]. *)
Definition spec_table : list (ConversationState * ConversationState) :=
  [ (IDLE, COLLECTING_INTENT); (IDLE, CANCEL_FLOW); (IDLE, HANDOFF_TO_ADMIN);
    (COLLECTING_INTENT, BROWSING_SCHEDULE); (COLLECTING_INTENT, COLLECTING_GROUP);
    (COLLECTING_INTENT, COLLECTING_DATETIME); (COLLECTING_INTENT, COLLECTING_CONTACT);
    (COLLECTING_INTENT, IDLE); (COLLECTING_INTENT, CANCEL_FLOW);
    (COLLECTING_INTENT, HANDOFF_TO_ADMIN);
    (BROWSING_SCHEDULE, COLLECTING_GROUP); (BROWSING_SCHEDULE, IDLE);
    (BROWSING_SCHEDULE, CANCEL_FLOW); (BROWSING_SCHEDULE, HANDOFF_TO_ADMIN);
    (COLLECTING_GROUP, COLLECTING_DATETIME); (COLLECTING_GROUP, IDLE);
    (COLLECTING_GROUP, CANCEL_FLOW); (COLLECTING_GROUP, HANDOFF_TO_ADMIN);
    (COLLECTING_DATETIME, COLLECTING_CONTACT); (COLLECTING_DATETIME, IDLE);
    (COLLECTING_DATETIME, CANCEL_FLOW); (COLLECTING_DATETIME, HANDOFF_TO_ADMIN);
    (COLLECTING_CONTACT, CONFIRM_BOOKING); (COLLECTING_CONTACT, IDLE);
    (COLLECTING_CONTACT, CANCEL_FLOW); (COLLECTING_CONTACT, HANDOFF_TO_ADMIN);
    (CONFIRM_BOOKING, BOOKING_IN_PROGRESS); (CONFIRM_BOOKING, IDLE);
    (CONFIRM_BOOKING, CANCEL_FLOW); (CONFIRM_BOOKING, HANDOFF_TO_ADMIN);
    (BOOKING_IN_PROGRESS, BOOKING_DONE); (BOOKING_IN_PROGRESS, IDLE);
    (BOOKING_IN_PROGRESS, HANDOFF_TO_ADMIN);
    (BOOKING_DONE, IDLE); (BOOKING_DONE, SERIAL_BOOKING);
    (CANCEL_FLOW, IDLE); (CANCEL_FLOW, HANDOFF_TO_ADMIN);
    (SERIAL_BOOKING, COLLECTING_GROUP); (SERIAL_BOOKING, IDLE);
    (SERIAL_BOOKING, HANDOFF_TO_ADMIN);
    (HANDOFF_TO_ADMIN, ADMIN_RESPONDING); (HANDOFF_TO_ADMIN, IDLE);
    (ADMIN_RESPONDING, IDLE) ].

Definition spec_allows (s t : ConversationState) : bool :=
  bool_decide ((s, t) ∈ spec_table).

End fsm.

(* ===================================================================== *)
(** ** app/config.py *)
(* ===================================================================== *)

Module config.

Record Settings := {
  max_tokens_per_hour : Z;
  max_cost_per_day_usd : float;
  max_requests_per_minute : Z;
  max_errors_per_hour : Z;
  session_ttl_hours : Z
}.

(** The field defaults of [Settings]. *)
Definition defaults : Settings :=
  {| max_tokens_per_hour := 100000;
     max_cost_per_day_usd := 10%float;
     max_requests_per_minute := 30;
     max_errors_per_hour := 50;
     session_ttl_hours := 24 |}.

End config.

(* ===================================================================== *)
(** ** class CircuitBreaker (app/integrations/impulse/client.py) *)
(* ===================================================================== *)

Module circuit_breaker.

Record CircuitBreaker := {
  failure_threshold : Z;
  timeout_seconds : Z;
  failure_count : Z;
  last_failure_time : option Z;
  is_open : bool
}.

(** [CircuitBreaker(failure_threshold=5, timeout_seconds=60)] *)
Definition init (threshold timeout : Z) : CircuitBreaker :=
  {| failure_threshold := threshold; timeout_seconds := timeout;
     failure_count := 0; last_failure_time := None; is_open := false |}.

Definition new : CircuitBreaker := init 5 60.

Definition record_success (cb : CircuitBreaker) : CircuitBreaker :=
  {| failure_threshold := failure_threshold cb;
     timeout_seconds := timeout_seconds cb;
     failure_count := 0; last_failure_time := None; is_open := false |}.

(** [time_now] is the reading of [time.time()]. *)
Definition record_failure (time_now : Z) (cb : CircuitBreaker) : bool * CircuitBreaker :=
  let count := failure_count cb + 1 in
  if failure_threshold cb <=? count then
    (true,
     {| failure_threshold := failure_threshold cb;
        timeout_seconds := timeout_seconds cb;
        failure_count := count; last_failure_time := Some time_now;
        is_open := true |})
  else
    (false,
     {| failure_threshold := failure_threshold cb;
        timeout_seconds := timeout_seconds cb;
        failure_count := count; last_failure_time := Some time_now;
        is_open := is_open cb |}).

Definition should_attempt (time_now : Z) (cb : CircuitBreaker) : bool * CircuitBreaker :=
  if negb (is_open cb) then (true, cb)
  else
    match last_failure_time cb with
    | None => (true, cb)
    | Some last =>
        if timeout_seconds cb <? time_now - last then
          (true,
           {| failure_threshold := failure_threshold cb;
              timeout_seconds := timeout_seconds cb;
              failure_count := 0; last_failure_time := last_failure_time cb;
              is_open := false |})
        else (false, cb)
    end.

End circuit_breaker.

(* ===================================================================== *)
(** ** The world the coroutines run in *)
(* ===================================================================== *)

Module eff.
Import models.

(** The exceptions that travel through the modelled code.  In httpx,
    [HTTPStatusError], [TimeoutException] and the other transport errors
    are all subclasses of [HTTPError]. *)
Inductive exn :=
| HTTPStatusError (status : Z) (msg : string)
| TimeoutException (msg : string)
| TransportError (msg : string)
| RetryError (last : exn)
| RuntimeError (msg : string)
| ValidationError (model : string)
| ValueError
| OverflowError
| ResponseError (msg : string).

Definition is_HTTPError (e : exn) : bool :=
  match e with
  | HTTPStatusError _ _ | TimeoutException _ | TransportError _ => true
  | _ => false
  end.

Definition is_TimeoutException (e : exn) : bool :=
  match e with TimeoutException _ => true | _ => false end.

Definition class_name (e : exn) : string :=
  match e with
  | HTTPStatusError _ _ => "HTTPStatusError"
  | TimeoutException _ => "TimeoutException"
  | TransportError _ => "TransportError"
  | RetryError _ => "RetryError"
  | RuntimeError _ => "RuntimeError"
  | ValidationError _ => "ValidationError"
  | ValueError => "ValueError"
  | OverflowError => "OverflowError"
  | ResponseError _ => "ResponseError"
  end.

(** [str(e)].  A [RetryError] prints the future it wraps (the object's
    address, hexadecimal digits, is left out). *)
Definition str (e : exn) : string :=
  match e with
  | HTTPStatusError _ m | TimeoutException m | TransportError m => m
  | RetryError last =>
      "RetryError[<Future state=finished raised " +:+ class_name last +:+ ">]"
  | RuntimeError m => m
  | ValidationError model => "validation error for " +:+ model
  | ValueError => "invalid literal"
  | OverflowError => "cannot convert float infinity to integer"
  | ResponseError m => m
  end.

(** Request payloads. *)
#[local] Unset Elimination Schemes.
Inductive jv :=
| JNull
| JInt (z : Z)
| JStr (s : string)
| JArr (l : list jv)
| JObj (l : list (string * jv)).
#[local] Set Elimination Schemes.

Record Request := {
  rq_method : string;
  rq_url : string;
  rq_data : list (string * jv)
}.

(** What the CRM answers: the decoded body of a response that passes
    [raise_for_status], or the failure of the call. *)
Inductive Item :=
| ISchedule (s : Schedule)
| IGroup (g : Group)
| IClient (c : Client)
| IReservation (r : Reservation)
| IOther.

Inductive Body :=
| BList (l : list Item)
| BItem (i : Item)
| BOther.

Inductive Outcome :=
| Success (body : Body)
| StatusError (status : Z) (message : string)
| Timeout (message : string)
| NetworkError (message : string).

Record Reply := { took : N; outcome : Outcome }.

(** A fallback queue item (its random identifier left out). *)
Record FallbackItem := {
  fb_trace_id : option string;
  fb_action : string;
  fb_data : list (string * jv);
  fb_error : string;
  fb_created_at : Z
}.

(** Redis values.  [set_json]/[get_json] are modelled on the decoded
    document; plain strings hold flags and decimal counters. *)
Inductive doc :=
| DList (l : list Item)
| DSession (s : Session)
| DOther.

Inductive rvalue :=
| VStr (s : string)
| VJson (d : doc)
| VList (l : list FallbackItem).

(** [deadline] is the instant from which the key is gone; [None] is a key
    without TTL. *)
Record entry := { value : rvalue; deadline : option Z }.

Record BookingAttempt := {
  ba_success : bool;
  ba_schedule_id : option string;
  ba_error : option string
}.

Record World := {
  now : Z;
  store : gmap string entry;
  breaker : circuit_breaker.CircuitBreaker;
  replies : list Reply;
  sent : list Request;
  slept : list Z;
  audit : list BookingAttempt;
  alerts : list FallbackItem
}.

Definition set_store (f : gmap string entry → gmap string entry) (w : World) : World :=
  {| now := now w; store := f (store w); breaker := breaker w;
     replies := replies w; sent := sent w; slept := slept w;
     audit := audit w; alerts := alerts w |}.

Definition set_breaker (cb : circuit_breaker.CircuitBreaker) (w : World) : World :=
  {| now := now w; store := store w; breaker := cb;
     replies := replies w; sent := sent w; slept := slept w;
     audit := audit w; alerts := alerts w |}.

(** The clock moves forward by [d] seconds. *)
Definition advance (d : Z) (w : World) : World :=
  {| now := now w + d; store := store w; breaker := breaker w;
     replies := replies w; sent := sent w; slept := slept w;
     audit := audit w; alerts := alerts w |}.

Inductive Res (A : Type) :=
| Ok (a : A)
| Raise (e : exn).
Arguments Ok {A} a.
Arguments Raise {A} e.

Definition M (A : Type) : Type := World → Res A * World.

#[global] Instance M_ret : MRet M := λ A a w, (Ok a, w).

#[global] Instance M_bind : MBind M := λ A B f m w,
  match m w with
  | (Ok a, w') => f a w'
  | (Raise e, w') => (Raise e, w')
  end.

Definition raise {A} (e : exn) : M A := λ w, (Raise e, w).

(** [try: m except Exception as e: h e] *)
Definition try_except {A} (m : M A) (h : exn → M A) : M A := λ w,
  match m w with
  | (Ok a, w') => (Ok a, w')
  | (Raise e, w') => h e w'
  end.

Definition get_world : M World := λ w, (Ok w, w).
Definition modify (f : World → World) : M unit := λ w, (Ok tt, f w).

(** [time.time()], [datetime.now(timezone.utc)] *)
Definition clock : M Z := λ w, (Ok (now w), w).

(** [await asyncio.sleep(d)] *)
Definition sleep (d : Z) : M unit := λ w,
  (Ok tt,
   {| now := now w + d; store := store w; breaker := breaker w;
      replies := replies w; sent := sent w; slept := d :: slept w;
      audit := audit w; alerts := alerts w |}).

(** One HTTP exchange: the request goes out, the next scripted reply comes
    back after [took] seconds.  A CRM that has nothing more to say does
    not answer. *)
Definition exchange (rq : Request) : M Outcome := λ w,
  match replies w with
  | [] =>
      (Ok (NetworkError "All connection attempts failed"),
       {| now := now w; store := store w; breaker := breaker w;
          replies := []; sent := rq :: sent w; slept := slept w;
          audit := audit w; alerts := alerts w |})
  | r :: rest =>
      (Ok (outcome r),
       {| now := now w + Z.of_N (took r); store := store w; breaker := breaker w;
          replies := rest; sent := rq :: sent w; slept := slept w;
          audit := audit w; alerts := alerts w |})
  end.

(** The audit sink (app/storage/postgres.py), append only. *)
Definition log_booking_attempt (a : BookingAttempt) : M unit := λ w,
  (Ok tt,
   {| now := now w; store := store w; breaker := breaker w;
      replies := replies w; sent := sent w; slept := slept w;
      audit := a :: audit w; alerts := alerts w |}).

(** The admin alert channel, best effort. *)
Definition notify_admin (i : FallbackItem) : M unit := λ w,
  (Ok tt,
   {| now := now w; store := store w; breaker := breaker w;
      replies := replies w; sent := sent w; slept := slept w;
      audit := audit w; alerts := i :: alerts w |}).

End eff.

(* ===================================================================== *)
(** ** app/storage/redis.py over a model of the Redis commands it issues *)
(* ===================================================================== *)

Module redis.
Import eff.

Definition live (time_now : Z) (e : entry) : bool :=
  match deadline e with
  | None => true
  | Some d => time_now <? d
  end.

(** The entry a command sees at [k]: expired keys are absent. *)
Definition peek (w : World) (k : string) : option entry :=
  match store w !! k with
  | Some e => if live (now w) e then Some e else None
  | None => None
  end.

Definition int64_min : Z := - 2 ^ 63.
Definition int64_max : Z := 2 ^ 63 - 1.
Definition in_int64 (z : Z) : bool := (int64_min <=? z) && (z <=? int64_max).

Definition wrongtype : exn :=
  ResponseError "WRONGTYPE Operation against a key holding the wrong kind of value".
Definition not_an_integer : exn :=
  ResponseError "value is not an integer or out of range".
Definition overflow : exn :=
  ResponseError "increment or decrement would overflow".

(** GET *)
Definition get (k : string) : M (option string) := λ w,
  match peek w k with
  | None => (Ok None, w)
  | Some e =>
      match value e with
      | VStr s => (Ok (Some s), w)
      | _ => (Raise wrongtype, w)
      end
  end.

(** SET key value [EX ex] *)
Definition set (k : string) (v : string) (ex : option Z) : M bool := λ w,
  (Ok true,
   set_store (insert k {| value := VStr v; deadline := (λ s, now w + s) <$> ex |}) w).

(** SET key value NX [EX ex]: redis-py answers [True] or [None]. *)
Definition setnx (k : string) (v : string) (ex : option Z) : M bool := λ w,
  match peek w k with
  | Some _ => (Ok false, w)
  | None =>
      (Ok true,
       set_store (insert k {| value := VStr v; deadline := (λ s, now w + s) <$> ex |}) w)
  end.

(** [set_json]: SET of [json.dumps(value)] *)
Definition set_json (k : string) (d : doc) (ex : option Z) : M bool := λ w,
  (Ok true,
   set_store (insert k {| value := VJson d; deadline := (λ s, now w + s) <$> ex |}) w).

(** [get_json]: GET, then [json.loads] *)
Definition get_json (k : string) : M (option doc) := λ w,
  match peek w k with
  | None => (Ok None, w)
  | Some e =>
      match value e with
      | VJson d => (Ok (Some d), w)
      | VStr s =>
          match py.int_of_str s with
          | Some _ => (Ok (Some DOther), w)
          | None => (Raise ValueError, w)
          end
      | VList _ => (Raise wrongtype, w)
      end
  end.

(** DEL key *)
Definition delete (k : string) : M Z := λ w,
  match peek w k with
  | Some _ => (Ok 1, set_store (base.delete k) w)
  | None => (Ok 0, set_store (base.delete k) w)
  end.

(** EXISTS key *)
Definition exists_ (k : string) : M bool := λ w,
  (Ok (bool_decide (is_Some (peek w k))), w).

(** EXPIRE key seconds *)
Definition expire (k : string) (seconds : Z) : M bool := λ w,
  match peek w k with
  | None => (Ok false, w)
  | Some e =>
      if seconds <=? 0 then (Ok true, set_store (base.delete k) w)
      else
        (Ok true,
         set_store (insert k {| value := value e; deadline := Some (now w + seconds) |}) w)
  end.

(** INCRBY key amount: a missing key counts from zero and gets no TTL, an
    existing one keeps its TTL. *)
Definition incr (k : string) (amount : Z) : M Z := λ w,
  if negb (in_int64 amount) then (Raise not_an_integer, w)
  else
    match peek w k with
    | None =>
        (Ok amount,
         set_store (insert k {| value := VStr (py.str_of_Z amount); deadline := None |}) w)
    | Some e =>
        match value e with
        | VStr s =>
            match py.int_of_str s with
            | Some cur =>
                if in_int64 cur && in_int64 (cur + amount) then
                  (Ok (cur + amount),
                   set_store (insert k {| value := VStr (py.str_of_Z (cur + amount));
                                          deadline := deadline e |}) w)
                else if in_int64 cur then (Raise overflow, w)
                else (Raise not_an_integer, w)
            | None => (Raise not_an_integer, w)
            end
        | VJson _ => (Raise not_an_integer, w)
        | VList _ => (Raise wrongtype, w)
        end
    end.

(** LPUSH key item *)
Definition lpush (k : string) (i : FallbackItem) : M Z := λ w,
  match peek w k with
  | None =>
      (Ok 1, set_store (insert k {| value := VList [i]; deadline := None |}) w)
  | Some e =>
      match value e with
      | VList l =>
          (Ok (Z.of_nat (length l) + 1),
           set_store (insert k {| value := VList (i :: l); deadline := deadline e |}) w)
      | _ => (Raise wrongtype, w)
      end
  end.

(** RPOP key, and BRPOP key timeout when [timeout] is positive: with no
    other client at work, a wait on an empty list lasts the whole timeout.
    A list that loses its last item is deleted. *)
Definition rpop (k : string) (timeout : Z) : M (option FallbackItem) := λ w,
  let nothing := if 0 <? timeout then (Ok None, advance timeout w) else (Ok None, w) in
  match peek w k with
  | None => nothing
  | Some e =>
      match value e with
      | VList l =>
          match reverse l with
          | [] => nothing
          | i :: earlier =>
              (Ok (Some i),
               set_store
                 (match earlier with
                  | [] => base.delete k
                  | _ :: _ =>
                      insert k {| value := VList (reverse earlier); deadline := deadline e |}
                  end) w)
          end
      | _ => (Raise wrongtype, w)
      end
  end.

(** LLEN key *)
Definition llen (k : string) : M Z := λ w,
  match peek w k with
  | None => (Ok 0, w)
  | Some e =>
      match value e with
      | VList l => (Ok (Z.of_nat (length l)), w)
      | _ => (Raise wrongtype, w)
      end
  end.

(** Glob matching of SCAN's MATCH option, for patterns built from literal
    characters, [?] and [*]. *)
Fixpoint glob_match (p s : string) : bool :=
  match p with
  | EmptyString => match s with EmptyString => true | _ => false end
  | String c p' =>
      if Ascii.eqb c "*" then
        (fix star (s : string) : bool :=
           glob_match p' s ||
           match s with
           | EmptyString => false
           | String _ s' => star s'
           end) s
      else
        match s with
        | EmptyString => false
        | String d s' => (Ascii.eqb c "?" || Ascii.eqb c d) && glob_match p' s'
        end
  end.

(** [scan_delete]: every key matching [pattern] is deleted; the cursor loop
    of SCAN visits each key of the database. *)
Definition scan_delete (pattern : string) : M Z := λ w,
  let hit (kv : string * entry) := glob_match pattern kv.1 = true in
  (Ok (Z.of_nat (size (filter (λ kv, hit kv ∧ live (now w) kv.2 = true) (store w)))),
   set_store (filter (λ kv, ¬ hit kv)) w).

End redis.

(* ===================================================================== *)
(** ** app/core/conversation.py *)
(* ===================================================================== *)

(** The [uuid] module: [UUID(s)] is the identifier a string spells, printed
    in canonical form, or [None] where the constructor raises [ValueError]. *)
Class Uuid := UUID : string → option string.

Module conversation.
Import models eff.

Definition get_session_key (channel chat_id : string) : string :=
  "session:" +:+ channel +:+ ":" +:+ chat_id.

(** [save_session] mutates the session it is given; the updated session is
    returned with the effect on the store. *)
Definition save_session (cfg : config.Settings) (session : Session) : M Session :=
  let key := get_session_key (channel session) (chat_id session) in
  updated ← clock;
  let ttl_seconds :=
    match fsm.get_timeout_seconds (state session) with
    | Some t => if t =? 0 then config.session_ttl_hours cfg * 3600 else t
    | None => config.session_ttl_hours cfg * 3600
    end in
  t ← clock;
  let session' := with_times session updated (t + ttl_seconds) in
  _ ← redis.set_json key (DSession session') (Some ttl_seconds);
  mret session'.

Definition transition_state (cfg : config.Settings) (session : Session)
    (new_state : ConversationState) : M (bool * Session) :=
  if negb (fsm.can_transition (state session) new_state) then
    mret (false, session)
  else
    session' ← save_session cfg (with_state session new_state);
    mret (true, session').

Definition load_session (channel chat_id : string) : M (option Session) :=
  let key := get_session_key channel chat_id in
  data ← redis.get_json key;
  match data with
  | None => mret None
  | Some (DSession session) => mret (Some session)
  | Some _ => mret None
  end.

Definition check_timeout (session : Session) : M bool :=
  time_now ← clock;
  if expires_at session <? time_now then mret true
  else
    match fsm.get_timeout_seconds (state session) with
    | Some state_timeout =>
        if negb (state_timeout =? 0) then
          let elapsed := time_now - updated_at session in
          if state_timeout <? elapsed then mret true else mret false
        else mret false
    | None => mret false
    end.

Definition reset_session (cfg : config.Settings) (session : Session) : M Session :=
  save_session cfg (with_slots (with_state session IDLE) empty_slots).

Section with_uuid.
Context `{Uuid}.

(** [UUID(trace_id)] for a [str] *)
Definition uuid_of (trace_id : string) : M string :=
  match UUID trace_id with
  | Some u => mret u
  | None => raise ValueError
  end.

(** [fresh] is what [uuid4()] answers when it is asked. *)
Definition create_session (cfg : config.Settings) (fresh : string)
    (trace_id : option string) (channel chat_id : string)
    (initial_state : ConversationState) : M Session :=
  time_now ← clock;
  let expires_at := time_now + config.session_ttl_hours cfg * 3600 in
  trace_id_uuid ← match trace_id with
                  | None => mret fresh
                  | Some t => uuid_of t
                  end;
  if negb (bool_decide (channel ∈ ["telegram"; "whatsapp"])) then
    raise (ValidationError "Session")
  else
    let session :=
      {| trace_id := trace_id_uuid; channel := channel; chat_id := chat_id;
         state := initial_state; slots := empty_slots; created_at := time_now;
         updated_at := time_now; expires_at := expires_at |} in
    save_session cfg session.

Definition get_or_create_session (cfg : config.Settings) (fresh : string)
    (trace_id : option string) (channel chat_id : string) : M Session :=
  session ← load_session channel chat_id;
  match session with
  | None => create_session cfg fresh trace_id channel chat_id IDLE
  | Some session =>
      timed_out ← check_timeout session;
      if timed_out : bool then
        session ← reset_session cfg session;
        match trace_id with
        | Some t =>
            u ← uuid_of t;
            save_session cfg (with_trace_id session u)
        | None => mret session
        end
      else mret session
  end.

End with_uuid.

End conversation.

(* ===================================================================== *)
(** ** app/core/idempotency.py *)
(* ===================================================================== *)

(** [hashlib.sha256(b).hexdigest()], a function of the bytes hashed. *)
Class Sha256 := hexdigest : string → string.

Module idempotency.
Import eff.

(** The schedule identifier is the [str] pinned in the slots or the [int]
    of a schedule entry. *)
Inductive schedule_ref :=
| SidStr (s : string)
| SidInt (z : Z).

(** [f"{schedule_id}"] *)
Definition str_of_ref (r : schedule_ref) : string :=
  match r with
  | SidStr s => s
  | SidInt z => py.str_of_Z z
  end.

Definition already_booked : string := "Вы уже записаны на это занятие ✅".

Section with_hash.
Context `{Sha256}.

Definition compute_fingerprint (phone : string) (schedule_id : schedule_ref) : string :=
  let fingerprint_string := phone +:+ str_of_ref schedule_id in
  hexdigest fingerprint_string.

Definition get_idempotency_key (fingerprint : string) : string :=
  "idempotency:" +:+ fingerprint.

Definition acquire_booking_lock (phone : string) (schedule_id : schedule_ref)
    : M (bool * string) :=
  let fingerprint := compute_fingerprint phone schedule_id in
  let key := get_idempotency_key fingerprint in
  is_new ← redis.setnx key "1" (Some 600);
  if is_new : bool then mret (true, "") else mret (false, already_booked).

Definition release_booking_lock (phone : string) (schedule_id : schedule_ref)
    : M unit :=
  let fingerprint := compute_fingerprint phone schedule_id in
  let key := get_idempotency_key fingerprint in
  _ ← redis.delete key;
  mret tt.

End with_hash.
End idempotency.

(* ===================================================================== *)
(** ** app/channels/dedup.py *)
(* ===================================================================== *)

Module dedup.
Import models eff.

Definition is_duplicate (message : UnifiedMessage) : M bool :=
  let key := "seen:" +:+ msg_channel message +:+ ":" +:+ msg_message_id message in
  is_new ← redis.setnx key "1" (Some 300);
  mret (negb is_new).

End dedup.

(* ===================================================================== *)
(** ** app/ai/budget_guard.py *)
(* ===================================================================== *)

Module budget_guard.
Import eff config.

(** [datetime.now(timezone.utc).replace(minute=0, second=0, microsecond=0)] *)
Definition floor_hour (d : py.datetime) : py.datetime :=
  {| py.year := py.year d; py.month := py.month d; py.day := py.day d;
     py.hour := py.hour d; py.minute := 0; py.second := 0 |}.

(** [datetime.now(timezone.utc).replace(second=0, microsecond=0)] *)
Definition floor_minute (d : py.datetime) : py.datetime :=
  {| py.year := py.year d; py.month := py.month d; py.day := py.day d;
     py.hour := py.hour d; py.minute := py.minute d; py.second := 0 |}.

Definition hour_key_at (t : Z) : string :=
  "budget:tokens:hour:" +:+ py.datetime_isoformat (floor_hour (py.utc_of_timestamp t)).
Definition day_key_at (t : Z) : string :=
  "budget:cost:day:" +:+ py.date_isoformat (py.date_of (py.utc_of_timestamp t)).
Definition minute_key_at (t : Z) : string :=
  "budget:requests:minute:" +:+ py.datetime_isoformat (floor_minute (py.utc_of_timestamp t)).
Definition errors_hour_key_at (t : Z) : string :=
  "budget:errors:hour:" +:+ py.datetime_isoformat (floor_hour (py.utc_of_timestamp t)).

Definition _get_hour_key : M string := t ← clock; mret (hour_key_at t).
Definition _get_day_key : M string := t ← clock; mret (day_key_at t).
Definition _get_minute_key : M string := t ← clock; mret (minute_key_at t).
Definition _get_errors_hour_key : M string := t ← clock; mret (errors_hour_key_at t).

(** [int(s)] *)
Definition int (s : string) : M Z :=
  match py.int_of_str s with
  | Some z => mret z
  | None => raise ValueError
  end.

(** [int(current_str) if current_str else 0] *)
Definition int_if (current_str : option string) : M Z :=
  if py.truthy current_str then int (default "" current_str) else mret 0.

(** [int(x)] for a float *)
Definition int_float (x : float) : M Z :=
  match py.int_of_float x with
  | Some z => mret z
  | None => raise OverflowError
  end.

Definition cents_to_usd (cents : Z) : float :=
  PrimFloat.div (py.float_of_Z cents) 100%float.

Definition check_tokens_per_hour (cfg : Settings) (tokens : Z) : M (bool * Z) :=
  key ← _get_hour_key;
  current_str ← redis.get key;
  current ← int_if current_str;
  if max_tokens_per_hour cfg <? current + tokens then
    _ ← redis.expire key 3600;
    mret (false, current)
  else
    new_count ← redis.incr key tokens;
    _ ← redis.expire key 3600;
    mret (true, new_count).

Definition check_cost_per_day (cfg : Settings) (cost_usd : float) : M (bool * float) :=
  key ← _get_day_key;
  cost_cents ← int_float (PrimFloat.mul cost_usd 100%float);
  current_cents_str ← redis.get key;
  current_cents ← int_if current_cents_str;
  let current_usd := cents_to_usd current_cents in
  if py.float_gt (PrimFloat.add current_usd cost_usd) (max_cost_per_day_usd cfg) then
    _ ← redis.expire key 86400;
    mret (false, current_usd)
  else
    new_cents ← redis.incr key cost_cents;
    _ ← redis.expire key 86400;
    mret (true, cents_to_usd new_cents).

Definition check_requests_per_minute (cfg : Settings) : M (bool * Z) :=
  key ← _get_minute_key;
  current_str ← redis.get key;
  current ← int_if current_str;
  if max_requests_per_minute cfg <? current + 1 then
    _ ← redis.expire key 60;
    mret (false, current)
  else
    new_count ← redis.incr key 1;
    _ ← redis.expire key 60;
    mret (true, new_count).

Definition record_error (cfg : Settings) : M bool :=
  key ← _get_errors_hour_key;
  current ← redis.incr key 1;
  _ ← redis.expire key 3600;
  mret (current <=? max_errors_per_hour cfg).

Definition check_all_limits (cfg : Settings) (tokens : Z) (cost_usd : float)
    : M (bool * string) :=
  '(requests_ok, _) ← check_requests_per_minute cfg;
  if negb requests_ok then mret (false, "MAX_REQUESTS_PER_MINUTE exceeded")
  else
    '(tokens_ok, _) ← check_tokens_per_hour cfg tokens;
    if negb tokens_ok then mret (false, "MAX_TOKENS_PER_HOUR exceeded")
    else
      '(cost_ok, _) ← check_cost_per_day cfg cost_usd;
      if negb cost_ok then mret (false, "MAX_COST_PER_DAY_USD exceeded")
      else mret (true, "").

(** [int(await redis_storage.get(key) or "0")] *)
Definition int_or_zero (k : string) : M Z :=
  v ← redis.get k;
  int (py.or_else v "0").

Definition is_breached (cfg : Settings) : M bool :=
  tokens_key ← _get_hour_key;
  cost_key ← _get_day_key;
  requests_key ← _get_minute_key;
  errors_key ← _get_errors_hour_key;
  tokens_count ← int_or_zero tokens_key;
  cost_cents ← int_or_zero cost_key;
  requests_count ← int_or_zero requests_key;
  errors_count ← int_or_zero errors_key;
  let cost_usd := cents_to_usd cost_cents in
  mret ((max_tokens_per_hour cfg <=? tokens_count)
        || py.float_ge cost_usd (max_cost_per_day_usd cfg)
        || (max_requests_per_minute cfg <=? requests_count)
        || (max_errors_per_hour cfg <=? errors_count)).

End budget_guard.

(* ===================================================================== *)
(** ** class ImpulseClient (app/integrations/impulse/client.py) *)
(* ===================================================================== *)

Module client.
Import models eff.

(** tenacity's [wait_exponential(multiplier=1, min=1, max=10)], the pause
    after attempt [attempt_number]. *)
Definition wait_exponential (attempt_number : Z) : Z :=
  Z.max (Z.max 0 1) (Z.min (1 * 2 ^ (attempt_number - 1)) 10).

(** [stop_after_attempt(3)] *)
Definition stop_after_attempt (attempt_number : Z) : bool := 3 <=? attempt_number.

(** [retry_if_exception_type((httpx.HTTPError, httpx.TimeoutException))] *)
Definition retry_if (e : exn) : bool := is_HTTPError e || is_TimeoutException e.

(** tenacity's [@retry]: the decorated body runs again while it raises an
    exception the predicate accepts; when the stop condition holds the last
    exception leaves wrapped in a [RetryError].  [budget] bounds the number
    of further attempts. *)
Fixpoint retrying {A} (budget : nat) (attempt_number : Z) (body : M A) : M A :=
  try_except body (λ e,
    if negb (retry_if e) then raise e
    else if stop_after_attempt attempt_number then raise (RetryError e)
    else
      match budget with
      | O => raise (RetryError e)
      | S budget' =>
          _ ← sleep (wait_exponential attempt_number);
          retrying budget' (attempt_number + 1) body
      end).

Definition breaker_should_attempt : M bool := λ w,
  let '(ok, cb) := circuit_breaker.should_attempt (now w) (breaker w) in
  (Ok ok, set_breaker cb w).

Definition breaker_record_success : M unit := λ w,
  (Ok tt, set_breaker (circuit_breaker.record_success (breaker w)) w).

Definition breaker_record_failure : M bool := λ w,
  let '(opened, cb) := circuit_breaker.record_failure (now w) (breaker w) in
  (Ok opened, set_breaker cb w).

(** [await client.get/post(...)] followed by [response.raise_for_status()] *)
Definition send (rq : Request) : M Body :=
  out ← exchange rq;
  match out with
  | Success body => mret body
  | StatusError status m => raise (HTTPStatusError status m)
  | Timeout m => raise (TimeoutException m)
  | NetworkError m => raise (TransportError m)
  end.

(** The body of [_request], one attempt. *)
Definition request_once (method entity action : string) (data : list (string * jv))
    : M Body :=
  ok ← breaker_should_attempt;
  if negb ok then raise (RuntimeError "Circuit breaker is open")
  else
    let url := "/" +:+ entity +:+ "/" +:+ action in
    try_except
      (response ← send {| rq_method := method; rq_url := url; rq_data := data |};
       _ ← breaker_record_success;
       mret response)
      (λ e,
        if is_HTTPError e || is_TimeoutException e then
          _ ← breaker_record_failure;
          raise e
        else raise e).

(** [_request] under its [@retry] decorator. *)
Definition _request (method entity action : string) (data : list (string * jv))
    : M Body :=
  retrying 2 1 (request_once method entity action data).

(** [list]: the records of the answer, [[]] when the answer has another
    shape. *)
Definition list_data (fields : list string) (filters : option (list (string * jv)))
    (limit : Z) : list (string * jv) :=
  [("limit", JInt limit); ("page", JInt 1)]
  ++ (match fields with [] => [] | _ => [("fields", JArr (JStr <$> fields))] end)
  ++ (match filters with
      | Some (f :: fs) => [("columns", JObj (f :: fs))]
      | _ => []
      end).

Definition list_ (entity : string) (fields : list string)
    (filters : option (list (string * jv))) (limit : Z) : M (list Item) :=
  let data := list_data fields filters limit in
  response ← _request "POST" entity "list" data;
  match response with
  | BList l => mret l
  | _ => mret []
  end.

Definition create (entity : string) (data : list (string * jv)) : M Body :=
  _request "POST" entity "update" data.

Definition health_check : M bool :=
  try_except (_ ← list_ "group" [] None 1; mret true) (λ _, mret false).

End client.

(* ===================================================================== *)
(** ** app/integrations/impulse/cache.py *)
(* ===================================================================== *)

Module cache.
Import eff.

Definition SCHEDULE_TTL : Z := 15 * 60.
Definition GROUPS_TTL : Z := 60 * 60.
Definition TEACHERS_TTL : Z := 60 * 60.

Definition _get_key (entity : string) (args : list string) : string :=
  py.join ":" (("impulse:cache:" +:+ entity) :: args).

Definition _get_ttl (entity : string) : Z :=
  if String.eqb entity "schedule" then SCHEDULE_TTL
  else if String.eqb entity "group" then GROUPS_TTL
  else if String.eqb entity "groups" then GROUPS_TTL
  else if String.eqb entity "teacher" then TEACHERS_TTL
  else if String.eqb entity "teachers" then TEACHERS_TTL
  else 60 * 60.

Definition get (entity : string) (key_parts : list string) : M (option doc) :=
  redis.get_json (_get_key entity key_parts).

Definition set (entity : string) (value : doc) (key_parts : list string) : M unit :=
  let key := _get_key entity key_parts in
  let ttl := _get_ttl entity in
  _ ← redis.set_json key value (Some ttl);
  mret tt.

Definition delete (entity : string) (key_parts : list string) : M unit :=
  let key := _get_key entity key_parts in
  _ ← redis.delete key;
  mret tt.

Definition clear_entity (entity : string) : M unit :=
  let pattern := "impulse:cache:" +:+ entity +:+ ":*" in
  _ ← redis.scan_delete pattern;
  mret tt.

End cache.

(* ===================================================================== *)
(** ** app/integrations/impulse/error_handler.py *)
(* ===================================================================== *)

Module error_handler.
Import eff.

Section with_lower.
Context {str_lower : py.Lower}.

Definition handle_error (error : exn) : string * bool :=
  let by_text :=
    let error_str := py.lower (str error) in
    if py.str_in "circuit breaker" error_str then
      ("Сервис временно недоступен. Записал заявку — администратор подтвердит.", true)
    else if py.str_in "нет мест" error_str || py.str_in "no seats" error_str
            || py.str_in "full" error_str then
      ("Нет мест на это время. Предлагаю ближайшие доступные варианты.", false)
    else if py.str_in "уже записан" error_str || py.str_in "already booked" error_str
            || py.str_in "duplicate" error_str then
      ("Вы уже записаны на это занятие! Хотите записаться на другое время?", false)
    else if py.str_in "занятие не найдено" error_str || py.str_in "not found" error_str then
      ("Расписание изменилось. Показать актуальное расписание?", false)
    else if py.str_in "в прошлом" error_str || py.str_in "past" error_str
            || py.str_in "expired" error_str then
      ("Это время уже прошло. Предлагаю ближайшее доступное занятие.", false)
    else if py.str_in "группа заполнена" error_str || py.str_in "group full" error_str then
      ("Группа полная. Хотите встать в лист ожидания или выбрать другое время?", false)
    else
      ("Произошла ошибка. Записал заявку — администратор подтвердит.", true) in
  let after_status :=
    if is_TimeoutException error then
      ("Превышено время ожидания. Записал заявку — администратор подтвердит.", true)
    else by_text in
  match error with
  | HTTPStatusError status _ =>
      if 500 <=? status then
        ("Технический сбой. Записал заявку — администратор подтвердит.", true)
      else if status =? 404 then
        ("Расписание изменилось. Показать актуальное расписание?", false)
      else if (status =? 400) || (status =? 401) || (status =? 403) then
        ("Ошибка при обработке запроса. Попробуйте еще раз или обратитесь к администратору.",
         false)
      else after_status
  | _ => after_status
  end.

End with_lower.
End error_handler.

(* ===================================================================== *)
(** ** app/integrations/impulse/fallback.py *)
(* ===================================================================== *)

Module fallback.
Import eff.

Definition QUEUE_KEY : string := "impulse:fallback:queue".

Definition enqueue (action : string) (data : list (string * jv)) (error : string)
    (trace_id : option string) : M unit :=
  t ← clock;
  let item :=
    {| fb_trace_id := trace_id; fb_action := action; fb_data := data;
       fb_error := error; fb_created_at := t |} in
  _ ← redis.lpush QUEUE_KEY item;
  try_except (notify_admin item) (λ _, mret tt).

(** The queue holds the items decoded, so [json.loads] gives back what
    [enqueue] dumped. *)
Definition dequeue (timeout : Z) : M (option FallbackItem) :=
  item_str ← redis.rpop QUEUE_KEY timeout;
  match item_str with
  | None => mret None
  | Some item => mret (Some item)
  end.

Definition size : M Z :=
  try_except (redis.llen QUEUE_KEY) (λ _, mret 0).

End fallback.

(* ===================================================================== *)
(** ** class ImpulseAdapter (app/integrations/impulse/adapter.py) *)
(* ===================================================================== *)

Module adapter.
Import models eff.

(** Building a [Schedule] (and its siblings) from one record: pydantic
    validation. *)
Definition as_schedule (i : Item) : M Schedule :=
  match i with ISchedule s => mret s | _ => raise (ValidationError "Schedule") end.
Definition as_group (i : Item) : M Group :=
  match i with IGroup g => mret g | _ => raise (ValidationError "Group") end.
Definition as_client (i : Item) : M Client :=
  match i with IClient c => mret c | _ => raise (ValidationError "Client") end.
Definition as_reservation (i : Item) : M Reservation :=
  match i with IReservation r => mret r | _ => raise (ValidationError "Reservation") end.

(** [[f(item) for item in data]] *)
Fixpoint for_each {A B} (f : A → M B) (l : list A) : M (list B) :=
  match l with
  | [] => mret []
  | x :: rest =>
      y ← f x;
      ys ← for_each f rest;
      mret (y :: ys)
  end.

(** The records of a cached document, as the comprehension over [cached]
    reads them. *)
Definition items_of (d : doc) (model : string) : M (list Item) :=
  match d with
  | DList l => mret l
  | _ => raise (ValidationError model)
  end.

Definition opt_jv {A} (f : A → jv) (o : option A) : jv :=
  match o with Some a => f a | None => JNull end.

Section with_lower.
Context {str_lower : py.Lower}.

(** The shared [except Exception as e] clause of the adapter's methods. *)
Definition on_error {A} (action : string) (data : list (string * jv))
    (trace_id : option string) (e : exn) : M A :=
  let '(user_msg, should_fallback) := error_handler.handle_error e in
  if should_fallback : bool then
    _ ← fallback.enqueue action data (str e) trace_id;
    raise (RuntimeError user_msg)
  else raise (RuntimeError user_msg).

Definition schedule_fields : list string :=
  ["id"; "group_id"; "teacher_id"; "hall_id"; "date"; "time"; "duration_minutes";
   "max_students"; "current_students"; "is_active"].

Definition schedule_cache_key (date_from date_to : option py.date) (group_id : option Z)
    : string :=
  py.str_opt_date date_from +:+ "_" +:+ py.str_opt_date date_to +:+ "_"
    +:+ py.str_opt_int group_id.

Definition get_schedule (date_from date_to : option py.date) (group_id : option Z)
    : M (list Schedule) :=
  try_except
    (let cache_key := schedule_cache_key date_from date_to group_id in
     cached ← cache.get "schedule" [cache_key];
     match cached with
     | Some d =>
         items ← items_of d "Schedule";
         for_each as_schedule items
     | None =>
         let filters :=
           (match date_from with
            | Some d => [("date", JStr (py.date_isoformat d))]
            | None => []
            end)
           ++ (if py.truthy_int group_id then [("group_id", opt_jv JInt group_id)] else []) in
         data ← client.list_ "schedule" schedule_fields
                  (match filters with [] => None | _ => Some filters end) 1000;
         schedules ← for_each as_schedule data;
         _ ← cache.set "schedule" (DList (ISchedule <$> schedules)) [cache_key];
         mret schedules
     end)
    (on_error "get_schedule"
       [("date_from", opt_jv (λ d, JStr (py.date_isoformat d)) date_from);
        ("date_to", opt_jv (λ d, JStr (py.date_isoformat d)) date_to);
        ("group_id", opt_jv JInt group_id)]
       None).

Definition get_groups : M (list Group) :=
  try_except
    (cached ← cache.get "groups" [];
     match cached with
     | Some d =>
         items ← items_of d "Group";
         for_each as_group items
     | None =>
         data ← client.list_ "group"
                  ["id"; "name"; "style_id"; "teacher_id"; "description"; "is_active"]
                  None 1000;
         groups ← for_each as_group data;
         _ ← cache.set "groups" (DList (IGroup <$> groups)) [];
         mret groups
     end)
    (on_error "get_groups" [] None).

Definition find_client (phone : option string) : M (option Client) :=
  try_except
    (data ← client.list_ "client" ["id"; "name"; "phone"; "email"; "informer_id"]
              (Some [("phone", opt_jv JStr phone)]) 1;
     match data with
     | [] => mret None
     | first :: _ => c ← as_client first; mret (Some c)
     end)
    (on_error "find_client" [("phone", opt_jv JStr phone)] None).

Definition create_client (name : string) (phone : option string)
    (informer_id : option Z) (trace_id : option string) : M Client :=
  try_except
    (let data :=
       [("name", JStr name); ("phone", opt_jv JStr phone)]
       ++ (if py.truthy_int informer_id then [("informer_id", opt_jv JInt informer_id)] else []) in
     result ← client.create "client" data;
     match result with
     | BItem i => as_client i
     | _ => raise (ValidationError "Client")
     end)
    (on_error "create_client"
       [("name", JStr name); ("phone", opt_jv JStr phone);
        ("informer_id", opt_jv JInt informer_id)]
       trace_id).

Definition ref_jv (r : idempotency.schedule_ref) : jv :=
  match r with
  | idempotency.SidStr s => JStr s
  | idempotency.SidInt z => JInt z
  end.

Definition create_booking (client_id : Z) (schedule_id : idempotency.schedule_ref)
    (status_id : option Z) (notes : option string) (trace_id : option string)
    : M Reservation :=
  try_except
    (let data :=
       [("client_id", JInt client_id); ("schedule_id", ref_jv schedule_id)]
       ++ (if py.truthy_int status_id then [("status_id", opt_jv JInt status_id)] else [])
       ++ (if py.truthy notes then [("notes", opt_jv JStr notes)] else []) in
     result ← client.create "reservation" data;
     _ ← cache.clear_entity "schedule";
     match result with
     | BItem i => as_reservation i
     | _ => raise (ValidationError "Reservation")
     end)
    (on_error "create_booking"
       [("client_id", JInt client_id); ("schedule_id", ref_jv schedule_id);
        ("status_id", opt_jv JInt status_id); ("notes", opt_jv JStr notes)]
       trace_id).

Definition list_bookings (client_id : option Z) (date_from : option py.date)
    : M (list Reservation) :=
  try_except
    (let filters :=
       (if py.truthy_int client_id then [("client_id", opt_jv JInt client_id)] else [])
       ++ (match date_from with
           | Some d => [("date", JStr (py.date_isoformat d))]
           | None => []
           end) in
     data ← client.list_ "reservation"
              ["id"; "client_id"; "schedule_id"; "status_id"; "created_at"; "updated_at";
               "notes"]
              (match filters with [] => None | _ => Some filters end) 1000;
     for_each as_reservation data)
    (on_error "list_bookings"
       [("client_id", opt_jv JInt client_id);
        ("date_from", opt_jv (λ d, JStr (py.date_isoformat d)) date_from)]
       None).

End with_lower.

Definition health_check : M bool := client.health_check.

End adapter.

(* ===================================================================== *)
(** ** class BookingFlow (app/core/booking_flow.py) *)
(* ===================================================================== *)

Module booking_flow.
Import models eff.

(** What a [BookingFlow] holds of its collaborators: the settings and the
    studio address of the knowledge base. *)
Record BookingFlow := {
  settings : config.Settings;
  studio_address : string
}.

Definition dots : py.text := py.decode "...".

(** [receipt_template.format(...)] *)
Definition render (group_ datetime_str name phone address reservation_id : string)
    : string :=
  "✅ Запись подтверждена!" +:+ py.nl +:+ py.nl
  +:+ "Направление: " +:+ group_ +:+ py.nl
  +:+ "Дата и время: " +:+ datetime_str +:+ py.nl
  +:+ "Имя: " +:+ name +:+ py.nl
  +:+ "Телефон: " +:+ phone +:+ py.nl
  +:+ "Адрес: " +:+ address +:+ py.nl +:+ py.nl
  +:+ "Номер записи: " +:+ reservation_id +:+ py.nl
  +:+ "Напомню за день до занятия!".

(** The length cap at the end of [_generate_booking_receipt], on the text
    of the rendered receipt and of the address. *)
Definition cap (receipt studio_address : py.text) : py.text :=
  if (300 <? length receipt)%nat then
    let base_length := Z.of_nat (length receipt) - Z.of_nat (length studio_address) in
    let max_address_len := 300 - base_length - 3 in
    if 0 <? max_address_len then
      let truncated_address := py.slice_to max_address_len studio_address ++ dots in
      py.replace receipt studio_address truncated_address
    else py.slice_to 297 receipt ++ dots
  else receipt.

Definition datetime_str_of (slots : SlotValues) : string :=
  match datetime_resolved slots with
  | Some d => py.strftime_dmY_HM d
  | None => py.or_else (datetime_raw slots) "не указано"
  end.

Definition _generate_booking_receipt (self : BookingFlow) (reservation : Reservation)
    (client : Client) (session : Session) : string :=
  let slots := slots session in
  let group_ := py.or_else (group slots) "не указано" in
  let datetime_str := datetime_str_of slots in
  let studio_address := studio_address self in
  let receipt :=
    render group_ datetime_str (cl_name client) (cl_phone client) studio_address
      (py.str_of_Z (res_id reservation)) in
  py.encode (cap (py.decode receipt) (py.decode studio_address)).

Definition not_filled : string :=
  "Не все данные заполнены. Пожалуйста, укажите направление и дату.".
Definition no_datetime : string :=
  "Не удалось определить дату и время. Пожалуйста, уточните.".
Definition no_class_found : string :=
  "Не удалось найти подходящее занятие. Обратитесь к администратору.".
Definition generic_failure : string :=
  "Произошла ошибка при создании записи. Записал заявку — администратор подтвердит.".

Definition _all_slots_filled (session : Session) : bool :=
  bool_decide (is_Some (group (slots session)))
  && bool_decide (is_Some (datetime_resolved (slots session)))
  && bool_decide (is_Some (client_name (slots session)))
  && bool_decide (is_Some (client_phone (slots session))).

Definition _get_missing_slots (session : Session) : list string :=
  (if negb (py.truthy (group (slots session))) then ["направление"] else [])
  ++ (if negb (bool_decide (is_Some (datetime_resolved (slots session))))
      then ["дата и время"] else [])
  ++ (if negb (py.truthy (client_name (slots session))) then ["имя"] else [])
  ++ (if negb (py.truthy (client_phone (slots session))) then ["телефон"] else []).

(** The first group whose lower-cased name is the lower-cased [name]. *)
Definition match_group `{py.Lower} (groups : list Group) (name : string) : option Z :=
  let group_name_lower := py.lower name in
  grp_id <$> List.find (λ g, String.eqb (py.lower (grp_name g)) group_name_lower) groups.

(** The test of the loop over the schedule entries. *)
Definition schedule_matches (target : py.datetime) (group_id : option Z) (s : Schedule)
    : bool :=
  String.eqb (sch_date s) (py.date_isoformat (py.date_of target))
  && String.eqb (sch_time s) (py.strftime_HM target)
  && (negb (py.truthy_int group_id) || bool_decide (sch_group_id s = group_id)).

(** Truthiness of the local [schedule_id]. *)
Definition truthy_ref (r : option idempotency.schedule_ref) : bool :=
  match r with
  | Some (idempotency.SidStr s) => negb (String.eqb s "")
  | Some (idempotency.SidInt z) => negb (z =? 0)
  | None => false
  end.

(** [except RuntimeError as e: ... return str(e)] against
    [except Exception: ... return <generic>] *)
Definition failure_text (e : exn) : string :=
  match e with
  | RuntimeError m => m
  | _ => generic_failure
  end.

Section with_hash.
Context `{Sha256} {str_lower : py.Lower}.

Definition confirm_booking (self : BookingFlow) (session : Session) (trace_id : string)
    : M (string * Session) :=
  let cfg := settings self in
  let sl := slots session in
  if negb (py.truthy (group sl)) || negb (bool_decide (is_Some (datetime_resolved sl))) then
    mret (not_filled, session)
  else
    '(_, session) ← conversation.transition_state cfg session BOOKING_IN_PROGRESS;
    let phone := client_phone sl in
    try_except
      (found ← adapter.find_client phone;
       client ← match found with
                | Some c => mret c
                | None =>
                    adapter.create_client (py.or_else (client_name sl) "Клиент") phone
                      None (Some trace_id)
                end;
       let pinned := idempotency.SidStr <$> schedule_id sl in
       resolved ←
         (if truthy_ref pinned then mret (inl pinned)
          else
            match datetime_resolved sl with
            | None => mret (inr no_datetime)
            | Some target =>
                group_id ←
                  (if py.truthy (group sl) then
                     groups ← adapter.get_groups;
                     mret (match_group groups (default "" (group sl)))
                   else mret None);
                schedules ← adapter.get_schedule (Some (py.date_of target)) None None;
                match List.find (schedule_matches target group_id) schedules with
                | Some s => mret (inl (Some (idempotency.SidInt (sch_id s))))
                | None => mret (inl pinned)
                end
            end);
       match resolved with
       | inr early => mret (early, session)
       | inl schedule_id =>
           if negb (truthy_ref schedule_id) then mret (no_class_found, session)
           else
             let schedule_id := default (idempotency.SidStr "") schedule_id in
             '(is_new, idempotency_msg) ←
               idempotency.acquire_booking_lock (py.str_opt phone) schedule_id;
             if negb is_new then
               '(_, session) ← conversation.transition_state cfg session IDLE;
               mret (idempotency_msg, session)
             else
               try_except
                 (reservation ← adapter.create_booking (cl_id client) schedule_id
                                  None None (Some trace_id);
                  '(_, session) ← conversation.transition_state cfg session BOOKING_DONE;
                  let receipt := _generate_booking_receipt self reservation client session in
                  _ ← log_booking_attempt
                        {| ba_success := true;
                           ba_schedule_id := Some (idempotency.str_of_ref schedule_id);
                           ba_error := None |};
                  mret (receipt, session))
                 (λ e,
                   _ ← idempotency.release_booking_lock (py.str_opt phone) schedule_id;
                   '(_, session) ← conversation.transition_state cfg session IDLE;
                   _ ← log_booking_attempt
                         {| ba_success := false;
                            ba_schedule_id := Some (idempotency.str_of_ref schedule_id);
                            ba_error := Some (str e) |};
                   mret (failure_text e, session))
       end)
      (λ e,
        '(_, session) ← conversation.transition_state cfg session IDLE;
        _ ← log_booking_attempt
              {| ba_success := false; ba_schedule_id := None; ba_error := Some (str e) |};
        mret (failure_text e, session)).

End with_hash.
End booking_flow.

(* ===================================================================== *)
(** * Vocabulary of the properties *)
(* ===================================================================== *)

(** A digest to run the idempotency guard on concrete inputs: the bytes
    themselves, which is enough to tell fingerprints apart. *)
Definition plain_digest : Sha256 := λ s, s.

(** A lower-casing to run the code on sample texts in ASCII and Russian
    letters, where it is what [s.lower()] gives.  No property is proved
    about it: the theorems hold for every [py.Lower]. *)
Definition basic_lower : py.Lower := λ s, py.encode (map py.lower_cp (py.decode s)).

Module spec.
Import models eff.

(** ** Worlds *)

(** A world with an empty store, a fresh breaker and a silent CRM. *)
Definition quiet_world (t : Z) : World :=
  {| now := t; store := ∅; breaker := circuit_breaker.new;
     replies := []; sent := []; slept := []; audit := []; alerts := [] |}.

(** The same world with the clock reading [t]. *)
Definition at_time (t : Z) (w : World) : World :=
  {| now := t; store := store w; breaker := breaker w; replies := replies w;
     sent := sent w; slept := slept w; audit := audit w; alerts := alerts w |}.

(** ** Counters *)

(** The counter at [k] reads [n]: the key is absent and [n] is zero, or it
    holds the decimal numeral of [n]. *)
Definition holds (w : World) (k : string) (n : Z) : Prop :=
  match redis.peek w k with
  | None => n = 0
  | Some e => value e = VStr (py.str_of_Z n)
  end.

(** [w'] differs from [w] at most in what the store holds at [k]. *)
Definition touches (k : string) (w w' : World) : Prop :=
  now w' = now w ∧ ∀ k', k' ≠ k → store w' !! k' = store w !! k'.

(** A counter present at [k] expires [seconds] from now. *)
Definition ttl_is (w : World) (k : string) (seconds : Z) : Prop :=
  ∀ e, redis.peek w k = Some e → deadline e = Some (now w + seconds).

(** The hour of 14 November 2023, 22:13:20 UTC, with the token bucket one
    short of the default limit. *)
Definition bucket_world : World :=
  {| now := 1700000000;
     store := {[ budget_guard.hour_key_at 1700000000 :=
                   {| value := VStr "99999"; deadline := Some 1700001800 |} ]};
     breaker := circuit_breaker.new; replies := []; sent := []; slept := [];
     audit := []; alerts := [] |}.

(** The same moment with nothing counted but the cost of the day, at
    [cents]. *)
Definition spent_world (cents : Z) : World :=
  {| now := 1700000000;
     store := {[ budget_guard.day_key_at 1700000000 :=
                   {| value := VStr (NilZero.string_of_int (Z.to_int cents));
                      deadline := Some 1700050000 |} ]};
     breaker := circuit_breaker.new; replies := []; sent := []; slept := [];
     audit := []; alerts := [] |}.

(** ** The CRM client *)

(** The exception a reply makes [send] raise, if any. *)
Definition failure (o : Outcome) : option exn :=
  match o with
  | Success _ => None
  | StatusError status m => Some (HTTPStatusError status m)
  | Timeout m => Some (TimeoutException m)
  | NetworkError m => Some (TransportError m)
  end.

(** The request [_request] puts on the wire. *)
Definition wire (method entity action : string) (data : list (string * jv)) : Request :=
  {| rq_method := method; rq_url := "/" +:+ entity +:+ "/" +:+ action; rq_data := data |}.

(** The breaker after the failures recorded at [times], oldest first. *)
Definition fail_times (times : list Z) (cb : circuit_breaker.CircuitBreaker)
    : circuit_breaker.CircuitBreaker :=
  fold_left (λ cb t, (circuit_breaker.record_failure t cb).2) times cb.

(** A world whose breaker has just opened: five failures recorded at
    [last], the clock at [t], the CRM about to give [rs]. *)
Definition tripped_world (last t : Z) (rs : list Reply) : World :=
  {| now := t; store := ∅;
     breaker := fail_times [last; last; last; last; last] circuit_breaker.new;
     replies := rs; sent := []; slept := []; audit := []; alerts := [] |}.

(** A world whose breaker is closed with three failures counted at [t],
    the CRM about to give [rs]. *)
Definition strained_world (t : Z) (rs : list Reply) : World :=
  {| now := t; store := ∅;
     breaker := fail_times [t; t; t] circuit_breaker.new;
     replies := rs; sent := []; slept := []; audit := []; alerts := [] |}.

(** The world with the breaker as [should_attempt] leaves it once the
    timeout has passed: closed, with nothing counted. *)
Definition reclosed (w : World) : World :=
  set_breaker
    {| circuit_breaker.failure_threshold := circuit_breaker.failure_threshold (breaker w);
       circuit_breaker.timeout_seconds := circuit_breaker.timeout_seconds (breaker w);
       circuit_breaker.failure_count := 0;
       circuit_breaker.last_failure_time := circuit_breaker.last_failure_time (breaker w);
       circuit_breaker.is_open := false |} w.

(** A world with a fresh breaker and the CRM about to give [rs]. *)
Definition fresh_world (t : Z) (rs : list Reply) : World :=
  {| now := t; store := ∅; breaker := circuit_breaker.new;
     replies := rs; sent := []; slept := []; audit := []; alerts := [] |}.

Definition not_found_reply : Reply :=
  {| took := 0; outcome := StatusError 404 "Client error '404 Not Found'" |}.
Definition refused_reply : Reply :=
  {| took := 0; outcome := NetworkError "All connection attempts failed" |}.
Definition empty_list_reply : Reply :=
  {| took := 0; outcome := Success (BList []) |}.

(** The world once the CRM has answered the request [rq] with the next
    scripted reply and the breaker has recorded the success. *)
Definition delivered (rq : Request) (w : World) : World :=
  match replies w with
  | [] => w
  | r :: rest =>
      {| now := now w + Z.of_N (took r); store := store w;
         breaker :=
           circuit_breaker.record_success
             (circuit_breaker.should_attempt (now w) (breaker w)).2;
         replies := rest; sent := rq :: sent w; slept := slept w;
         audit := audit w; alerts := alerts w |}
  end.

(** The breaker lets the next call through. *)
Definition breaker_lets_through (w : World) : Prop :=
  (circuit_breaker.should_attempt (now w) (breaker w)).1 = true.

(** The Redis key under which [get_schedule] caches the answer for its
    parameters. *)
Definition schedule_key (date_from date_to : option py.date) (group_id : option Z) : string :=
  cache._get_key "schedule" [adapter.schedule_cache_key date_from date_to group_id].

(** The dates a [datetime.date] can hold: years 1 to 9999. *)
Definition valid_date (d : py.date) : Prop :=
  1 ≤ py.d_year d ≤ 9999 ∧ 1 ≤ py.d_month d ≤ 12 ∧ 1 ≤ py.d_day d ≤ 31.

Definition valid_dates (o : option py.date) : Prop := from_option valid_date True o.

(** [z] padded to [width] has that many characters and reads back as
    [z]. *)
Definition pad_fixed (width : nat) (z : Z) : bool :=
  bool_decide (String.length (py.pad width z) = width
               ∧ py.int_of_str (py.pad width z) = Some z).

(** The cached entry [get_schedule] leaves behind at time [t]. *)
Definition cached_schedules (l : list Schedule) (t : Z) : entry :=
  {| value := VJson (DList (ISchedule <$> l)); deadline := Some (t + 900) |}.

(** ** The idempotency lock *)

(** The key of the lock for a (phone, schedule) pair. *)
Definition lock_key `{Sha256} (phone : string) (schedule_id : idempotency.schedule_ref)
    : string :=
  idempotency.get_idempotency_key (idempotency.compute_fingerprint phone schedule_id).

(** One acquisition attempt at each of [times], in turn. *)
Fixpoint acquire_each `{Sha256} (phone : string) (schedule_id : idempotency.schedule_ref)
    (times : list Z) (w : World) : list (Res (bool * string)) * World :=
  match times with
  | [] => ([], w)
  | t :: later =>
      let '(r, w1) := idempotency.acquire_booking_lock phone schedule_id (at_time t w) in
      let '(rs, w2) := acquire_each phone schedule_id later w1 in
      (r :: rs, w2)
  end.

(** The entry [acquire_booking_lock] writes at time [t]. *)
Definition lock_entry (t : Z) : entry := {| value := VStr "1"; deadline := Some (t + 600) |}.

(** ** The booking flow *)

(** Every key outside the adapter's own "impulse:" name space holds in [w']
    what it held in [w]. *)
Definition only_impulse (w w' : World) : Prop :=
  ∀ k, String.prefix "impulse:" k = false → store w' !! k = store w !! k.

(** A computation that writes to the adapter's keys only. *)
Definition confined {A} (m : M A) : Prop := ∀ w, only_impulse w (m w).2.

(** The entry [save_session] writes for [s] at time [t] with TTL [ttl]. *)
Definition session_entry (s : Session) (ttl t : Z) : entry :=
  {| value := VJson (DSession s); deadline := Some (t + ttl) |}.

(** The lifetime [save_session] gives a session in state [st]. *)
Definition session_ttl (cfg : config.Settings) (st : ConversationState) : Z :=
  match fsm.get_timeout_seconds st with
  | Some t => if t =? 0 then config.session_ttl_hours cfg * 3600 else t
  | None => config.session_ttl_hours cfg * 3600
  end.

(** The session [transition_state] saves when it moves [s] to [st] at [t]. *)
Definition moved (cfg : config.Settings) (s : Session) (st : ConversationState) (t : Z)
    : Session :=
  with_times (with_state s st) t (t + session_ttl cfg st).

Definition session_key (s : Session) : string :=
  conversation.get_session_key (channel s) (chat_id s).

(** The client of the booking is found by phone, or created when the CRM
    knows no such phone. *)
Definition client_resolved `{py.Lower} (sl : SlotValues) (trace : string) (w1 : World) (c : Client)
    (w2 : World) : Prop :=
  adapter.find_client (client_phone sl) w1 = (Ok (Some c), w2)
  ∨ ∃ w', adapter.find_client (client_phone sl) w1 = (Ok None, w')
          ∧ adapter.create_client (py.or_else (client_name sl) "Клиент") (client_phone sl)
              None (Some trace) w' = (Ok c, w2).

(** A confirmation of [session], started in [w], gets as far as the lock:
    the client is [c], the schedule entry matched is [s], and [w4] is the
    world in which [acquire_booking_lock] is about to run. *)
Definition reaches_lock `{py.Lower} (self : booking_flow.BookingFlow) (session : Session)
    (trace : string) (w : World) (c : Client) (s : Schedule) (w4 : World) : Prop :=
  state session = CONFIRM_BOOKING
  ∧ py.truthy (schedule_id (slots session)) = false
  ∧ sch_id s ≠ 0
  ∧ ∃ g target w2 groups w3 schedules,
      group (slots session) = Some g ∧ g ≠ ""
      ∧ datetime_resolved (slots session) = Some target
      ∧ client_resolved (slots session) trace
          (conversation.transition_state (booking_flow.settings self) session
             BOOKING_IN_PROGRESS w).2 c w2
      ∧ adapter.get_groups w2 = (Ok groups, w3)
      ∧ adapter.get_schedule (Some (py.date_of target)) None None w3 = (Ok schedules, w4)
      ∧ List.find (booking_flow.schedule_matches target (booking_flow.match_group groups g))
          schedules = Some s.

(** ** Sample data *)

(** Anya books hip-hop for 5 March 2024, 19:00. *)
Definition sample_target : py.datetime :=
  {| py.year := 2024; py.month := 3; py.day := 5;
     py.hour := 19; py.minute := 0; py.second := 0 |}.

Definition sample_slots : SlotValues :=
  {| group := Some "Хип-хоп"; datetime_raw := Some "завтра в 19:00";
     datetime_resolved := Some sample_target; client_name := Some "Аня";
     client_phone := Some "89990001122"; schedule_id := None; messages := [] |}.

Definition sample_session : Session :=
  {| trace_id := "c0ffee"; channel := "telegram"; chat_id := "42";
     state := CONFIRM_BOOKING; slots := sample_slots;
     created_at := 900; updated_at := 990; expires_at := 11790 |}.



Definition sample_schedule (date : string) : Schedule :=
  {| sch_id := 11; sch_group_id := Some 3; sch_teacher_id := None; sch_hall_id := None;
     sch_date := date; sch_time := "19:00"; sch_duration_minutes := Some 60;
     sch_max_students := Some 12; sch_current_students := Some 4;
     sch_is_active := Some true;
     sch_created_at := None; sch_updated_at := None |}.

Definition sample_reservation : Reservation :=
  {| res_id := 501; res_client_id := 7; res_schedule_id := 11;
     res_status_id := None; res_created_at := Some "2024-03-04T09:30:00";
     res_updated_at := None; res_notes := None |}.


(** The CRM answers with [b] after one second. *)
Definition answer (b : Body) : Reply := {| took := 1; outcome := Success b |}.

(** A studio whose address is long, and a client the CRM files under that
    same text. *)
Definition long_address : string :=
  "г. Владивосток, ул. Светланская, д. 12, корпус 3, вход со двора, 4 этаж, студия «Мурданс»".

Definition long_address_flow : booking_flow.BookingFlow :=
  {| booking_flow.settings := config.defaults;
     booking_flow.studio_address := long_address |}.

Definition namesake_client : Client :=
  {| cl_id := 8; cl_name := long_address; cl_phone := "89990001122";
     cl_email := None; cl_informer_id := None;
     cl_created_at := None; cl_updated_at := None |}.


Definition idle_session : Session :=
  {| trace_id := "c0ffee"; channel := "telegram"; chat_id := "42";
     state := IDLE; slots := empty_slots;
     created_at := 0; updated_at := 0; expires_at := 86400 |}.

End spec.

(* ===================================================================== *)
(** * Properties *)
(* ===================================================================== *)

(** ** Running the monad *)

Module monad_facts.
Import eff.

Lemma bind_unfold {A B} (m : M A) (f : A → M B) (w : World) :
  (m ≫= f) w = match m w with (Ok a, w') => f a w' | (Raise e, w') => (Raise e, w') end.
Proof. reflexivity. Qed.

Lemma bind_ok {A B} (m : M A) (f : A → M B) (w w' : World) (a : A) :
  m w = (Ok a, w') → (m ≫= f) w = f a w'.
Proof. intros E. rewrite bind_unfold, E. reflexivity. Qed.

Lemma bind_assoc {A B C} (m : M A) (f : A → M B) (g : B → M C) (w : World) :
  ((m ≫= f) ≫= g) w = (m ≫= (λ a, f a ≫= g)) w.
Proof. rewrite !bind_unfold. by destruct (m w) as [[a|e] w']. Qed.

Lemma ret_bind {A B} (a : A) (f : A → M B) (w : World) : (mret a ≫= f) w = f a w.
Proof. reflexivity. Qed.

Lemma try_ok {A} (m : M A) (h : exn → M A) (w w' : World) (a : A) :
  m w = (Ok a, w') → try_except m h w = (Ok a, w').
Proof. unfold try_except. intros ->. reflexivity. Qed.

End monad_facts.

(** One step of a computation whose next action is known to succeed. *)
Ltac run H :=
  erewrite monad_facts.bind_ok by (exact H || apply H || reflexivity); cbn beta iota.
Ltac run_pure := erewrite monad_facts.bind_ok by reflexivity; cbn beta iota.
Ltac run_by tac := erewrite monad_facts.bind_ok by tac; cbn beta iota.

(** Settle a comparison of integers that the hypotheses decide. *)
Ltac decide_leb :=
  match goal with
  | |- context [?a <=? ?b] => destruct (Z.leb_spec a b); [lia|]
  | |- context [?a <? ?b] => destruct (Z.ltb_spec a b); [lia|]
  end.

(** Replace each comparison of integers by the answer the hypotheses
    give it, the pauses of the first two attempts read off. *)
Ltac settle_one :=
  match goal with
  | |- context [?a <=? ?b] =>
      first [ replace (a <=? b) with true by (symmetry; apply Z.leb_le; lia)
            | replace (a <=? b) with false by (symmetry; apply Z.leb_gt; lia) ]
  | |- context [?a <? ?b] =>
      first [ replace (a <? b) with true by (symmetry; apply Z.ltb_lt; lia)
            | replace (a <? b) with false by (symmetry; apply Z.ltb_ge; lia) ]
  end.
Ltac settle :=
  change (client.wait_exponential 1) with 1 in *;
  change (client.wait_exponential (1 + 1)) with 2 in *;
  repeat (settle_one; cbn beta iota).

(** Unfold [_request] over a world whose fields are known. *)
Ltac run_request :=
  cbv [client._request client.retrying client.request_once eff.try_except mbind eff.M_bind
       mret eff.M_ret client.breaker_should_attempt client.breaker_record_failure
       client.breaker_record_success client.send eff.exchange eff.raise eff.sleep
       circuit_breaker.should_attempt circuit_breaker.record_failure
       circuit_breaker.record_success eff.set_breaker
       eff.breaker eff.now eff.replies eff.sent eff.slept eff.store eff.audit eff.alerts
       circuit_breaker.is_open circuit_breaker.failure_count
       circuit_breaker.failure_threshold circuit_breaker.timeout_seconds
       circuit_breaker.last_failure_time eff.outcome eff.took negb client.retry_if
       eff.is_HTTPError eff.is_TimeoutException orb client.stop_after_attempt];
  simpl.

(** ** Python helpers *)

Module py_facts.

Lemma to_int_not_nil (z : Z) :
  Z.to_int z ≠ Decimal.Pos Decimal.Nil ∧ Z.to_int z ≠ Decimal.Neg Decimal.Nil.
Proof.
  destruct z as [|p|p]; simpl; split; try discriminate;
    intros E; injection E as E; by apply DecimalPos.Unsigned.to_uint_nonnil in E.
Qed.

Lemma int_of_str_of_Z (z : Z) : py.int_of_str (py.str_of_Z z) = Some z.
Proof.
  unfold py.int_of_str, py.str_of_Z.
  destruct (to_int_not_nil z) as [Hp Hn].
  rewrite NilZero.isi by assumption.
  simpl. f_equal. apply DecimalZ.of_to.
Qed.

Lemma string_of_uint_nonempty (d : Decimal.uint) : NilZero.string_of_uint d ≠ "".
Proof. destruct d; simpl; discriminate. Qed.

Lemma str_of_Z_nonempty (z : Z) : py.str_of_Z z ≠ "".
Proof.
  unfold py.str_of_Z, NilZero.string_of_int.
  destruct (Z.to_int z); [apply string_of_uint_nonempty | discriminate].
Qed.

Lemma truthy_str_of_Z (z : Z) : py.truthy (Some (py.str_of_Z z)) = true.
Proof.
  unfold py.truthy. apply negb_true_iff, String.eqb_neq, str_of_Z_nonempty.
Qed.

End py_facts.

(** ** The state machine *)

Module fsm_facts.
Import models eff spec.

Lemma can_transition_spec (S T : ConversationState) :
  fsm.can_transition S T = fsm.spec_allows S T.
Proof. destruct S, T; vm_compute; reflexivity. Qed.

(** C7.  [can_transition] agrees with the transition table of section 4.2
    on every pair of states; [transition_state] on a pair the table does
    not list answers [False] and changes neither the session nor the
    store; [is_terminal_state] holds of booking-done only. *)
Theorem fsm_closure (cfg : config.Settings) (session : Session)
    (T : ConversationState) (w : World) :
  fsm.can_transition (state session) T = fsm.spec_allows (state session) T
  ∧ (fsm.spec_allows (state session) T = false →
     conversation.transition_state cfg session T w = (Ok (false, session), w))
  ∧ (fsm.is_terminal_state T = true ↔ T = BOOKING_DONE).
Proof.
  split; [apply can_transition_spec|]. split.
  - intros Hno. unfold conversation.transition_state.
    rewrite can_transition_spec, Hno. reflexivity.
  - unfold fsm.is_terminal_state. apply bool_decide_eq_true.
Qed.

Lemma fsm_closure_witness :
  fsm.can_transition IDLE BOOKING_DONE = false
  ∧ conversation.transition_state config.defaults idle_session BOOKING_DONE (quiet_world 10)
    = (Ok (false, idle_session), quiet_world 10).
Proof.
  split; [reflexivity|].
  apply (proj1 (proj2 (fsm_closure config.defaults idle_session BOOKING_DONE (quiet_world 10)))).
  reflexivity.
Defined.

End fsm_facts.

(** ** Redis *)

Module redis_facts.
Import models eff spec monad_facts.

Lemma peek_set_store_eq w k e f :
  f (store w) !! k = Some e → redis.live (now w) e = true →
  redis.peek (set_store f w) k = Some e.
Proof. unfold redis.peek. simpl. intros -> ->. reflexivity. Qed.

Lemma touches_refl k w : touches k w w.
Proof. split; auto. Qed.

Lemma touches_trans k w1 w2 w3 : touches k w1 w2 → touches k w2 w3 → touches k w1 w3.
Proof.
  intros [Hn1 Hs1] [Hn2 Hs2]. split; [congruence|].
  intros k' Hk. rewrite Hs2, Hs1; auto.
Qed.

Lemma touches_peek k k' w w' : touches k w w' → k' ≠ k → redis.peek w' k' = redis.peek w k'.
Proof. intros [Hn Hs] Hk. unfold redis.peek. rewrite Hs, Hn; auto. Qed.

Lemma touches_holds k k' w w' n : touches k w w' → k' ≠ k → holds w k' n → holds w' k' n.
Proof. intros Ht Hk. unfold holds. by rewrite (touches_peek _ _ _ _ Ht Hk). Qed.

Lemma expire_holds w k n s :
  0 < s → holds w k n →
  ∃ b w', redis.expire k s w = (Ok b, w') ∧ holds w' k n ∧ touches k w w' ∧ ttl_is w' k s.
Proof.
  intros Hs Hh. unfold redis.expire, holds in *.
  destruct (redis.peek w k) as [e|] eqn:Hp.
  - destruct (Z.leb_spec s 0); [lia|].
    eexists _, _. split; [reflexivity|].
    assert (Hnew : redis.peek (set_store (insert k {| value := value e; deadline := Some (now w + s) |}) w) k
                   = Some {| value := value e; deadline := Some (now w + s) |}).
    { apply peek_set_store_eq; [apply lookup_insert_eq|].
      unfold redis.live; simpl. apply Z.ltb_lt. lia. }
    split; [by rewrite Hnew|]. split.
    + split; [reflexivity|]. intros k' Hk. simpl. by rewrite lookup_insert_ne.
    + intros e'. rewrite Hnew. intros [= <-]. reflexivity.
  - eexists _, _. split; [reflexivity|]. rewrite Hp. split; [assumption|].
    split; [apply touches_refl|]. intros e'. rewrite Hp. discriminate.
Qed.

Lemma incr_holds w k n a :
  holds w k n → redis.in_int64 a = true → redis.in_int64 n = true →
  redis.in_int64 (n + a) = true →
  ∃ w', redis.incr k a w = (Ok (n + a), w') ∧ holds w' k (n + a) ∧ touches k w w'.
Proof.
  intros Hh Ha Hn Hna. unfold redis.incr, holds in *. rewrite Ha. simpl.
  destruct (redis.peek w k) as [e|] eqn:Hp.
  - rewrite Hh, py_facts.int_of_str_of_Z, Hn, Hna. simpl.
    eexists. split; [reflexivity|]. split.
    + erewrite peek_set_store_eq; [| apply lookup_insert_eq |]; [reflexivity|].
      unfold redis.peek in Hp. destruct (store w !! k) as [e0|]; [|discriminate].
      destruct (redis.live (now w) e0) eqn:Hl; [|discriminate].
      injection Hp as ->. exact Hl.
    + split; [reflexivity|]. intros k' Hk. simpl. by rewrite lookup_insert_ne.
  - subst n. rewrite Z.add_0_l. eexists. split; [reflexivity|]. split.
    + erewrite peek_set_store_eq; [| apply lookup_insert_eq |]; reflexivity.
    + split; [reflexivity|]. intros k' Hk. simpl. by rewrite lookup_insert_ne.
Qed.

Lemma expire_total k s w : ∃ b w', redis.expire k s w = (Ok b, w').
Proof.
  unfold redis.expire. destruct (redis.peek w k); [destruct (s <=? 0)|]; eauto.
Qed.

Lemma touches_other k k' w w' : touches k w w' → k' ≠ k → store w' !! k' = store w !! k'.
Proof. intros [_ Hs]. auto. Qed.

Lemma peek_absent (w : World) (k : string) : store w !! k = None → redis.peek w k = None.
Proof. unfold redis.peek. by intros ->. Qed.

Lemma get_json_miss (k : string) (w : World) :
  redis.peek w k = None → redis.get_json k w = (Ok None, w).
Proof. unfold redis.get_json. intros ->. reflexivity. Qed.

Lemma get_json_hit (k : string) (w : World) (e : entry) (d : doc) :
  redis.peek w k = Some e → value e = VJson d → redis.get_json k w = (Ok (Some d), w).
Proof. unfold redis.get_json. intros -> ->. reflexivity. Qed.

Lemma glob_star_all (s : string) :
  (fix star (s : string) : bool :=
     redis.glob_match "" s ||
     match s with
     | EmptyString => false
     | String _ s' => star s'
     end) s = true.
Proof.
  induction s as [|c s IH]; [reflexivity|]. simpl in *. exact IH.
Qed.

Lemma literal_prefix_of_match (lit rest k : string) :
  Forall (λ c, c ≠ "*"%char ∧ c ≠ "?"%char) (list_ascii_of_string lit) →
  redis.glob_match (lit +:+ rest) k = true → String.prefix lit k = true.
Proof.
  revert k. induction lit as [|c lit IH]; intros k Hlit Hm; [by destruct k|].
  simpl in Hlit. apply Forall_cons in Hlit as [[Hs Hq] Hlit].
  simpl in Hm. destruct (Ascii.eqb_spec c "*"); [done|].
  destruct k as [|d k]; [done|].
  destruct (Ascii.eqb_spec c "?"); [done|]. simpl in Hm.
  apply andb_true_iff in Hm as [Hcd Hm].
  simpl. destruct (Ascii.eqb_spec c d) as [->|]; [|done].
  destruct (ascii_dec d d) as [_|]; [|done]. by apply IH.
Qed.

End redis_facts.

(** ** The budget guard *)

Module budget_facts.
Import models eff spec config monad_facts redis_facts.

Lemma get_holds w k n :
  holds w k n →
  ∃ s, redis.get k w = (Ok s, w) ∧ ∀ w', budget_guard.int_if s w' = (Ok n, w').
Proof.
  unfold holds, redis.get.
  destruct (redis.peek w k) as [e|].
  - intros ->. eexists. split; [reflexivity|]. intros w'.
    unfold budget_guard.int_if. rewrite py_facts.truthy_str_of_Z. simpl.
    unfold budget_guard.int. rewrite py_facts.int_of_str_of_Z. reflexivity.
  - intros ->. eexists. split; reflexivity.
Qed.

Lemma check_tokens_rejects cfg tokens w cur :
  holds w (budget_guard.hour_key_at (now w)) cur →
  config.max_tokens_per_hour cfg < cur + tokens →
  ∃ w', budget_guard.check_tokens_per_hour cfg tokens w = (Ok (false, cur), w')
        ∧ holds w' (budget_guard.hour_key_at (now w)) cur
        ∧ touches (budget_guard.hour_key_at (now w)) w w'
        ∧ ttl_is w' (budget_guard.hour_key_at (now w)) 3600.
Proof.
  intros Hh Hlim.
  destruct (get_holds _ _ _ Hh) as (s & Hget & Hint).
  destruct (expire_holds w _ cur 3600 ltac:(lia) Hh) as (b & w' & Hex & Hh' & Ht & Httl).
  exists w'. split; [|auto].
  unfold budget_guard.check_tokens_per_hour.
  run_pure. run Hget. run Hint.
  destruct (Z.ltb_spec (config.max_tokens_per_hour cfg) (cur + tokens)); [|lia].
  run Hex. reflexivity.
Qed.

Lemma check_tokens_accepts cfg tokens w cur :
  holds w (budget_guard.hour_key_at (now w)) cur →
  cur + tokens ≤ config.max_tokens_per_hour cfg →
  redis.in_int64 tokens = true → redis.in_int64 cur = true →
  redis.in_int64 (cur + tokens) = true →
  ∃ w', budget_guard.check_tokens_per_hour cfg tokens w = (Ok (true, cur + tokens), w')
        ∧ holds w' (budget_guard.hour_key_at (now w)) (cur + tokens)
        ∧ touches (budget_guard.hour_key_at (now w)) w w'
        ∧ ttl_is w' (budget_guard.hour_key_at (now w)) 3600.
Proof.
  intros Hh Hlim Ht Hc Hct.
  destruct (get_holds _ _ _ Hh) as (s & Hget & Hint).
  destruct (incr_holds w _ cur tokens Hh Ht Hc Hct) as (w1 & Hincr & Hh1 & Ht1).
  destruct (expire_holds w1 _ (cur + tokens) 3600 ltac:(lia) Hh1) as (b & w' & Hex & Hh' & Ht' & Httl).
  exists w'. split; [|split; [assumption|split; [by eapply touches_trans|assumption]]].
  unfold budget_guard.check_tokens_per_hour.
  run_pure. run Hget. run Hint.
  destruct (Z.ltb_spec (config.max_tokens_per_hour cfg) (cur + tokens)); [lia|].
  run Hincr. run Hex. reflexivity.
Qed.

Lemma budget_keys_distinct (t : Z) :
  budget_guard.minute_key_at t ≠ budget_guard.hour_key_at t
  ∧ budget_guard.day_key_at t ≠ budget_guard.hour_key_at t
  ∧ budget_guard.day_key_at t ≠ budget_guard.minute_key_at t
  ∧ budget_guard.errors_hour_key_at t ≠ budget_guard.hour_key_at t
  ∧ budget_guard.errors_hour_key_at t ≠ budget_guard.minute_key_at t
  ∧ budget_guard.errors_hour_key_at t ≠ budget_guard.day_key_at t.
Proof.
  unfold budget_guard.minute_key_at, budget_guard.hour_key_at, budget_guard.day_key_at,
    budget_guard.errors_hour_key_at.
  repeat split; simpl; discriminate.
Qed.

Lemma int_or_zero_holds w k n :
  holds w k n → budget_guard.int_or_zero k w = (Ok n, w).
Proof.
  unfold holds, budget_guard.int_or_zero. rewrite bind_unfold. unfold redis.get.
  destruct (redis.peek w k) as [e|].
  - intros ->. unfold py.or_else. rewrite py_facts.truthy_str_of_Z. simpl.
    unfold budget_guard.int. rewrite py_facts.int_of_str_of_Z. reflexivity.
  - intros ->. reflexivity.
Qed.

Lemma check_requests_rejects cfg w cur :
  holds w (budget_guard.minute_key_at (now w)) cur →
  max_requests_per_minute cfg < cur + 1 →
  ∃ w', budget_guard.check_requests_per_minute cfg w = (Ok (false, cur), w')
        ∧ holds w' (budget_guard.minute_key_at (now w)) cur
        ∧ touches (budget_guard.minute_key_at (now w)) w w'.
Proof.
  intros Hh Hlim.
  destruct (get_holds _ _ _ Hh) as (s & Hget & Hint).
  destruct (expire_holds w _ cur 60 ltac:(lia) Hh) as (b & w' & Hex & Hh' & Ht & Httl).
  exists w'. split; [|auto].
  unfold budget_guard.check_requests_per_minute.
  run_pure. run Hget. run Hint.
  destruct (Z.ltb_spec (max_requests_per_minute cfg) (cur + 1)); [|lia].
  run Hex. reflexivity.
Qed.

Lemma check_requests_accepts cfg w cur :
  holds w (budget_guard.minute_key_at (now w)) cur →
  cur + 1 ≤ max_requests_per_minute cfg →
  redis.in_int64 cur = true → redis.in_int64 (cur + 1) = true →
  ∃ w', budget_guard.check_requests_per_minute cfg w = (Ok (true, cur + 1), w')
        ∧ holds w' (budget_guard.minute_key_at (now w)) (cur + 1)
        ∧ touches (budget_guard.minute_key_at (now w)) w w'.
Proof.
  intros Hh Hlim Hc Hct.
  destruct (get_holds _ _ _ Hh) as (s & Hget & Hint).
  destruct (incr_holds w _ cur 1 Hh eq_refl Hc Hct) as (w1 & Hincr & Hh1 & Ht1).
  destruct (expire_holds w1 _ (cur + 1) 60 ltac:(lia) Hh1) as (b & w' & Hex & Hh' & Ht' & Httl).
  exists w'. split; [|split; [assumption|by eapply touches_trans]].
  unfold budget_guard.check_requests_per_minute.
  run_pure. run Hget. run Hint.
  destruct (Z.ltb_spec (max_requests_per_minute cfg) (cur + 1)); [lia|].
  run Hincr. run Hex. reflexivity.
Qed.

Lemma int_float_some x z w :
  py.int_of_float x = Some z → budget_guard.int_float x w = (Ok z, w).
Proof. unfold budget_guard.int_float. intros ->. reflexivity. Qed.

Lemma check_cost_rejects cfg cost w cur cents :
  holds w (budget_guard.day_key_at (now w)) cur →
  py.int_of_float (PrimFloat.mul cost 100) = Some cents →
  py.float_gt (PrimFloat.add (budget_guard.cents_to_usd cur) cost)
    (max_cost_per_day_usd cfg) = true →
  ∃ w', budget_guard.check_cost_per_day cfg cost w
          = (Ok (false, budget_guard.cents_to_usd cur), w')
        ∧ holds w' (budget_guard.day_key_at (now w)) cur
        ∧ touches (budget_guard.day_key_at (now w)) w w'.
Proof.
  intros Hh Hcents Hlim.
  destruct (get_holds _ _ _ Hh) as (s & Hget & Hint).
  destruct (expire_holds w _ cur 86400 ltac:(lia) Hh) as (b & w' & Hex & Hh' & Ht & Httl).
  exists w'. split; [|auto].
  unfold budget_guard.check_cost_per_day.
  run_pure. run (int_float_some _ _ w Hcents). run Hget. run Hint.
  rewrite Hlim. run Hex. reflexivity.
Qed.

Lemma check_cost_accepts cfg cost w cur cents :
  holds w (budget_guard.day_key_at (now w)) cur →
  py.int_of_float (PrimFloat.mul cost 100) = Some cents →
  py.float_gt (PrimFloat.add (budget_guard.cents_to_usd cur) cost)
    (max_cost_per_day_usd cfg) = false →
  redis.in_int64 cents = true → redis.in_int64 cur = true →
  redis.in_int64 (cur + cents) = true →
  ∃ w', budget_guard.check_cost_per_day cfg cost w
          = (Ok (true, budget_guard.cents_to_usd (cur + cents)), w')
        ∧ holds w' (budget_guard.day_key_at (now w)) (cur + cents)
        ∧ touches (budget_guard.day_key_at (now w)) w w'.
Proof.
  intros Hh Hcents Hlim Hi1 Hi2 Hi3.
  destruct (get_holds _ _ _ Hh) as (s & Hget & Hint).
  destruct (incr_holds w _ cur cents Hh Hi1 Hi2 Hi3) as (w1 & Hincr & Hh1 & Ht1).
  destruct (expire_holds w1 _ (cur + cents) 86400 ltac:(lia) Hh1)
    as (b & w' & Hex & Hh' & Ht' & Httl).
  exists w'. split; [|split; [assumption|by eapply touches_trans]].
  unfold budget_guard.check_cost_per_day.
  run_pure. run (int_float_some _ _ w Hcents). run Hget. run Hint.
  rewrite Hlim. run Hincr. run Hex. reflexivity.
Qed.

(** C5.  With the hour bucket reading [cur], [check_tokens_per_hour] refuses
    a request for [tokens] exactly when [cur + tokens] exceeds
    [max_tokens_per_hour]: the answer is then (False, cur), the bucket still
    reads [cur] and only its TTL is refreshed; otherwise the answer is
    (True, cur + tokens) and the bucket reads [cur + tokens].  At the
    default limit of 100000 with the bucket at 99999, a request for 2 is
    refused and leaves 99999, a request for 1 is accepted and leaves
    100000. *)
Theorem check_tokens_boundary (cfg : Settings) (tokens : Z) (w : World) (cur : Z) :
  let key := budget_guard.hour_key_at (now w) in
  holds w key cur →
  (max_tokens_per_hour cfg < cur + tokens →
     ∃ w', budget_guard.check_tokens_per_hour cfg tokens w = (Ok (false, cur), w')
           ∧ holds w' key cur ∧ touches key w w' ∧ ttl_is w' key 3600)
  ∧ (cur + tokens ≤ max_tokens_per_hour cfg →
     redis.in_int64 tokens = true → redis.in_int64 cur = true →
     redis.in_int64 (cur + tokens) = true →
     ∃ w', budget_guard.check_tokens_per_hour cfg tokens w = (Ok (true, cur + tokens), w')
           ∧ holds w' key (cur + tokens) ∧ touches key w w' ∧ ttl_is w' key 3600)
  ∧ (∀ c w', budget_guard.check_tokens_per_hour cfg tokens w = (Ok (false, c), w') →
     max_tokens_per_hour cfg < cur + tokens).
Proof.
  intros key Hh. split; [|split].
  - intros Hlim. by apply check_tokens_rejects.
  - intros Hlim H1 H2 H3. by apply check_tokens_accepts.
  - intros c w' Hrun.
    destruct (Z.lt_ge_cases (max_tokens_per_hour cfg) (cur + tokens)) as [|Hle]; [assumption|].
    exfalso. revert Hrun.
    destruct (get_holds _ _ _ Hh) as (s & Hget & Hint).
    unfold budget_guard.check_tokens_per_hour.
    run_pure. run Hget. run Hint.
    destruct (Z.ltb_spec (max_tokens_per_hour cfg) (cur + tokens)); [lia|].
    rewrite bind_unfold.
    destruct (redis.incr (budget_guard.hour_key_at (now w)) tokens w) as [[n|e] w1];
      [|discriminate].
    destruct (expire_total (budget_guard.hour_key_at (now w)) 3600 w1) as (b & w2 & Hex).
    run Hex. discriminate.
Qed.

(** C6.  [check_all_limits] runs the requests-per-minute, tokens-per-hour
    and cost-per-day checks in that order and stops at the first breach,
    whose reason it returns: a breach of the first leaves the other buckets
    untouched; a breach of the second finds the request counter already
    incremented and leaves it so, the cost bucket untouched; a breach of
    the third finds the request and token counters incremented and leaves
    them so. *)
Theorem check_all_limits_order (cfg : Settings) (tokens : Z) (cost : float)
    (w : World) (r t c : Z) :
  let minute_key := budget_guard.minute_key_at (now w) in
  let hour_key := budget_guard.hour_key_at (now w) in
  let day_key := budget_guard.day_key_at (now w) in
  let over_cost :=
    py.float_gt (PrimFloat.add (budget_guard.cents_to_usd c) cost) (max_cost_per_day_usd cfg) in
  holds w minute_key r → holds w hour_key t → holds w day_key c →
  redis.in_int64 r = true → redis.in_int64 (r + 1) = true →
  redis.in_int64 tokens = true → redis.in_int64 t = true →
  redis.in_int64 (t + tokens) = true →
  (max_requests_per_minute cfg < r + 1 →
     ∃ w', budget_guard.check_all_limits cfg tokens cost w
             = (Ok (false, "MAX_REQUESTS_PER_MINUTE exceeded"), w')
           ∧ holds w' minute_key r ∧ touches minute_key w w')
  ∧ (r + 1 ≤ max_requests_per_minute cfg → max_tokens_per_hour cfg < t + tokens →
     ∃ w', budget_guard.check_all_limits cfg tokens cost w
             = (Ok (false, "MAX_TOKENS_PER_HOUR exceeded"), w')
           ∧ holds w' minute_key (r + 1) ∧ holds w' hour_key t
           ∧ store w' !! day_key = store w !! day_key)
  ∧ (∀ cents, r + 1 ≤ max_requests_per_minute cfg → t + tokens ≤ max_tokens_per_hour cfg →
     py.int_of_float (PrimFloat.mul cost 100) = Some cents → over_cost = true →
     ∃ w', budget_guard.check_all_limits cfg tokens cost w
             = (Ok (false, "MAX_COST_PER_DAY_USD exceeded"), w')
           ∧ holds w' minute_key (r + 1) ∧ holds w' hour_key (t + tokens)
           ∧ holds w' day_key c)
  ∧ (∀ cents, r + 1 ≤ max_requests_per_minute cfg → t + tokens ≤ max_tokens_per_hour cfg →
     py.int_of_float (PrimFloat.mul cost 100) = Some cents → over_cost = false →
     redis.in_int64 cents = true → redis.in_int64 c = true →
     redis.in_int64 (c + cents) = true →
     ∃ w', budget_guard.check_all_limits cfg tokens cost w = (Ok (true, ""), w')
           ∧ holds w' minute_key (r + 1) ∧ holds w' hour_key (t + tokens)
           ∧ holds w' day_key (c + cents)).
Proof.
  intros minute_key hour_key day_key over_cost Hr Ht Hc Ir Ir1 Itok It Itt.
  destruct (budget_keys_distinct (now w)) as (Dmh & Ddh & Ddm & _).
  fold minute_key hour_key day_key in Dmh, Ddh, Ddm.
  assert (Dhm : hour_key ≠ minute_key) by congruence.
  assert (Dhd : hour_key ≠ day_key) by congruence.
  assert (Dmd : minute_key ≠ day_key) by congruence.
  split; [|split; [|split]].
  - intros Hlim.
    destruct (check_requests_rejects cfg w r Hr Hlim) as (w1 & E1 & H1 & T1).
    exists w1. split; [|auto].
    unfold budget_guard.check_all_limits. run E1. reflexivity.
  - intros Hok Hlim.
    destruct (check_requests_accepts cfg w r Hr Hok Ir Ir1) as (w1 & E1 & H1 & T1).
    assert (N1 : now w1 = now w) by apply T1.
    assert (Ht1 : holds w1 (budget_guard.hour_key_at (now w1)) t).
    { rewrite N1. by eapply touches_holds. }
    destruct (check_tokens_rejects cfg tokens w1 t Ht1 Hlim) as (w2 & E2 & H2 & T2 & _).
    rewrite N1 in H2, T2. exists w2. split; [|split; [|split]].
    + unfold budget_guard.check_all_limits. run E1. simpl. run E2. reflexivity.
    + by eapply touches_holds.
    + assumption.
    + rewrite (touches_other _ _ _ _ T2 Ddh). apply (touches_other _ _ _ _ T1 Ddm).
  - intros cents Hok1 Hok2 Hcents Hover.
    destruct (check_requests_accepts cfg w r Hr Hok1 Ir Ir1) as (w1 & E1 & H1 & T1).
    assert (N1 : now w1 = now w) by apply T1.
    assert (Ht1 : holds w1 (budget_guard.hour_key_at (now w1)) t).
    { rewrite N1. by eapply touches_holds. }
    destruct (check_tokens_accepts cfg tokens w1 t Ht1 Hok2 Itok It Itt) as (w2 & E2 & H2 & T2 & _).
    rewrite N1 in H2, T2.
    assert (N2 : now w2 = now w) by (destruct T2; congruence).
    assert (Hc2 : holds w2 (budget_guard.day_key_at (now w2)) c).
    { rewrite N2. eapply touches_holds; [exact T2|assumption|].
      by eapply touches_holds. }
    destruct (check_cost_rejects cfg cost w2 c cents Hc2 Hcents Hover) as (w3 & E3 & H3 & T3).
    rewrite N2 in H3, T3. exists w3. split; [|split; [|split]].
    + unfold budget_guard.check_all_limits. run E1. simpl. run E2. simpl. run E3. reflexivity.
    + eapply touches_holds; [exact T3|assumption|]. by eapply touches_holds.
    + by eapply touches_holds.
    + assumption.
  - intros cents Hok1 Hok2 Hcents Hover Ic Icc Isum.
    destruct (check_requests_accepts cfg w r Hr Hok1 Ir Ir1) as (w1 & E1 & H1 & T1).
    assert (N1 : now w1 = now w) by apply T1.
    assert (Ht1 : holds w1 (budget_guard.hour_key_at (now w1)) t).
    { rewrite N1. by eapply touches_holds. }
    destruct (check_tokens_accepts cfg tokens w1 t Ht1 Hok2 Itok It Itt) as (w2 & E2 & H2 & T2 & _).
    rewrite N1 in H2, T2.
    assert (N2 : now w2 = now w) by (destruct T2; congruence).
    assert (Hc2 : holds w2 (budget_guard.day_key_at (now w2)) c).
    { rewrite N2. eapply touches_holds; [exact T2|assumption|].
      by eapply touches_holds. }
    destruct (check_cost_accepts cfg cost w2 c cents Hc2 Hcents Hover Ic Icc Isum)
      as (w3 & E3 & H3 & T3).
    rewrite N2 in H3, T3. exists w3. split; [|split; [|split]].
    + unfold budget_guard.check_all_limits. run E1. simpl. run E2. simpl. run E3. reflexivity.
    + eapply touches_holds; [exact T3|assumption|]. by eapply touches_holds.
    + by eapply touches_holds.
    + assumption.
Qed.

(** C10.  [is_breached] reads the four counters and answers True as soon
    as one of them is greater than or equal to its limit: the tokens of the
    hour, the cents of the day divided by 100 as a binary64 number against
    the limit in dollars, the requests of the minute, the errors of the
    hour; it answers False when all four are below, and it writes nothing.
    [check_tokens_per_hour] refuses only what would go strictly beyond the
    limit: a request that brings the token bucket exactly to
    [max_tokens_per_hour] is accepted, and [is_breached] is True right
    after it. *)
Theorem is_breached_at_limit (cfg : Settings) (w : World) (t c r e : Z) :
  let hour_key := budget_guard.hour_key_at (now w) in
  let cost_usd := PrimFloat.div (SF2Prim (binary_normalize 53 1024 c 0 false)) 100 in
  holds w hour_key t →
  holds w (budget_guard.day_key_at (now w)) c →
  holds w (budget_guard.minute_key_at (now w)) r →
  holds w (budget_guard.errors_hour_key_at (now w)) e →
  budget_guard.is_breached cfg w
    = (Ok ((max_tokens_per_hour cfg <=? t)
           || PrimFloat.leb (max_cost_per_day_usd cfg) cost_usd
           || (max_requests_per_minute cfg <=? r)
           || (max_errors_per_hour cfg <=? e)), w)
  ∧ (max_tokens_per_hour cfg ≤ t
     ∨ PrimFloat.leb (max_cost_per_day_usd cfg) cost_usd = true
     ∨ max_requests_per_minute cfg ≤ r
     ∨ max_errors_per_hour cfg ≤ e →
     budget_guard.is_breached cfg w = (Ok true, w))
  ∧ (t < max_tokens_per_hour cfg →
     PrimFloat.leb (max_cost_per_day_usd cfg) cost_usd = false →
     r < max_requests_per_minute cfg →
     e < max_errors_per_hour cfg →
     budget_guard.is_breached cfg w = (Ok false, w))
  ∧ (∀ tokens, t + tokens = max_tokens_per_hour cfg →
     redis.in_int64 tokens = true → redis.in_int64 t = true →
     redis.in_int64 (t + tokens) = true →
     ∃ w', budget_guard.check_tokens_per_hour cfg tokens w
             = (Ok (true, max_tokens_per_hour cfg), w')
           ∧ holds w' hour_key (max_tokens_per_hour cfg)
           ∧ budget_guard.is_breached cfg w' = (Ok true, w')).
Proof.
  intros hour_key cost_usd Ht Hc Hr He.
  assert (Hread : ∀ w0 t0 c0 r0 e0,
    holds w0 (budget_guard.hour_key_at (now w0)) t0 →
    holds w0 (budget_guard.day_key_at (now w0)) c0 →
    holds w0 (budget_guard.minute_key_at (now w0)) r0 →
    holds w0 (budget_guard.errors_hour_key_at (now w0)) e0 →
    budget_guard.is_breached cfg w0
    = (Ok ((max_tokens_per_hour cfg <=? t0)
           || PrimFloat.leb (max_cost_per_day_usd cfg)
                (PrimFloat.div (SF2Prim (binary_normalize 53 1024 c0 0 false)) 100)
           || (max_requests_per_minute cfg <=? r0)
           || (max_errors_per_hour cfg <=? e0)), w0)).
  { intros w0 t0 c0 r0 e0 H1 H2 H3 H4. unfold budget_guard.is_breached.
    do 4 run_pure.
    run (int_or_zero_holds _ _ _ H1). run (int_or_zero_holds _ _ _ H2).
    run (int_or_zero_holds _ _ _ H3). run (int_or_zero_holds _ _ _ H4).
    reflexivity. }
  split; [by apply Hread|]. split; [|split].
  - intros Hany. rewrite (Hread w t c r e Ht Hc Hr He). fold cost_usd.
    destruct Hany as [Hany | [Hany | [Hany | Hany]]].
    + apply Z.leb_le in Hany. by rewrite Hany.
    + rewrite Hany. by rewrite orb_true_r.
    + apply Z.leb_le in Hany. rewrite Hany. by rewrite !orb_true_r.
    + apply Z.leb_le in Hany. rewrite Hany. by rewrite !orb_true_r.
  - intros H1 H2 H3 H4. rewrite (Hread w t c r e Ht Hc Hr He). fold cost_usd.
    apply Z.leb_gt in H1, H3, H4. by rewrite H1, H2, H3, H4.
  - intros tokens Hsum I1 I2 I3.
    destruct (check_tokens_accepts cfg tokens w t Ht ltac:(lia) I1 I2 I3)
      as (w' & E & H' & T' & _).
    rewrite Hsum in E, H'. exists w'. split; [assumption|]. split; [assumption|].
    destruct (budget_keys_distinct (now w)) as (Dmh & Ddh & Ddm & Deh & Dem & Ded).
    assert (N : now w' = now w) by apply T'.
    rewrite (Hread w' (max_tokens_per_hour cfg) c r e).
    + rewrite Z.leb_refl. reflexivity.
    + by rewrite N.
    + rewrite N. by eapply touches_holds.
    + rewrite N. by eapply touches_holds.
    + rewrite N. by eapply touches_holds.
Qed.

Lemma bucket_world_holds :
  holds bucket_world (budget_guard.hour_key_at (now bucket_world)) 99999.
Proof. vm_compute. reflexivity. Qed.

Lemma check_tokens_boundary_witness :
  (∃ w', budget_guard.check_tokens_per_hour config.defaults 2 bucket_world
           = (Ok (false, 99999), w')
         ∧ holds w' (budget_guard.hour_key_at (now bucket_world)) 99999
         ∧ touches (budget_guard.hour_key_at (now bucket_world)) bucket_world w'
         ∧ ttl_is w' (budget_guard.hour_key_at (now bucket_world)) 3600)
  ∧ (∃ w', budget_guard.check_tokens_per_hour config.defaults 1 bucket_world
           = (Ok (true, 100000), w')
         ∧ holds w' (budget_guard.hour_key_at (now bucket_world)) 100000
         ∧ touches (budget_guard.hour_key_at (now bucket_world)) bucket_world w'
         ∧ ttl_is w' (budget_guard.hour_key_at (now bucket_world)) 3600).
Proof.
  split.
  - apply (proj1 (check_tokens_boundary config.defaults 2 bucket_world 99999
                    bucket_world_holds)).
    vm_compute; congruence.
  - apply (proj1 (proj2 (check_tokens_boundary config.defaults 1 bucket_world 99999
                    bucket_world_holds))); vm_compute; congruence.
Defined.

Lemma bucket_world_empty k :
  k ≠ budget_guard.hour_key_at (now bucket_world) → holds bucket_world k 0.
Proof.
  intros Hk. unfold holds, redis.peek, bucket_world. simpl store.
  rewrite lookup_singleton_ne by (intros E; exact (Hk (eq_sym E))). reflexivity.
Qed.

Lemma check_all_limits_order_witness :
  ∃ w', budget_guard.check_all_limits config.defaults 2 0.5 bucket_world
          = (Ok (false, "MAX_TOKENS_PER_HOUR exceeded"), w')
        ∧ holds w' (budget_guard.minute_key_at (now bucket_world)) 1
        ∧ holds w' (budget_guard.hour_key_at (now bucket_world)) 99999
        ∧ store w' !! budget_guard.day_key_at (now bucket_world)
          = store bucket_world !! budget_guard.day_key_at (now bucket_world).
Proof.
  destruct (budget_keys_distinct (now bucket_world)) as (Dmh & Ddh & _).
  apply (proj1 (proj2 (check_all_limits_order config.defaults 2 0.5 bucket_world 0 99999 0
    (bucket_world_empty _ Dmh) bucket_world_holds (bucket_world_empty _ Ddh)
    eq_refl eq_refl eq_refl eq_refl eq_refl))); vm_compute; congruence.
Defined.

Lemma spent_world_holds (cents : Z) :
  holds (spent_world cents) (budget_guard.day_key_at (now (spent_world cents))) cents.
Proof.
  unfold holds, redis.peek, spent_world. cbn [store now].
  rewrite lookup_singleton_eq. reflexivity.
Qed.

Lemma spent_world_empty (cents : Z) k :
  k ≠ budget_guard.day_key_at (now (spent_world cents)) → holds (spent_world cents) k 0.
Proof.
  intros Hk. unfold holds, redis.peek, spent_world. simpl store.
  rewrite lookup_singleton_ne by (intros E; exact (Hk (eq_sym E))). reflexivity.
Qed.

(** The token bucket brought to the limit of 100000 by an accepted request;
    the day's cost at 1000 cents, the limit of 10 dollars, and at 999. *)
Lemma is_breached_at_limit_witness :
  (∃ w', budget_guard.check_tokens_per_hour config.defaults 1 bucket_world
           = (Ok (true, 100000), w')
         ∧ holds w' (budget_guard.hour_key_at (now bucket_world)) 100000
         ∧ budget_guard.is_breached config.defaults w' = (Ok true, w'))
  ∧ budget_guard.is_breached config.defaults (spent_world 1000) = (Ok true, spent_world 1000)
  ∧ budget_guard.is_breached config.defaults (spent_world 999) = (Ok false, spent_world 999).
Proof.
  destruct (budget_keys_distinct (now bucket_world)) as (Dmh & Ddh & Ddm & Deh & Dem & Ded).
  split; [|split].
  - apply (proj2 (proj2 (proj2 (is_breached_at_limit config.defaults bucket_world 99999 0 0 0
      bucket_world_holds (bucket_world_empty _ Ddh) (bucket_world_empty _ Dmh)
      (bucket_world_empty _ Deh)))) 1); vm_compute; congruence.
  - apply (proj1 (proj2 (is_breached_at_limit config.defaults (spent_world 1000) 0 1000 0 0
      (spent_world_empty 1000 _ (not_eq_sym Ddh)) (spent_world_holds 1000)
      (spent_world_empty 1000 _ (not_eq_sym Ddm)) (spent_world_empty 1000 _ Ded)))).
    right. left. vm_compute. reflexivity.
  - apply (proj1 (proj2 (proj2 (is_breached_at_limit config.defaults (spent_world 999) 0 999 0 0
      (spent_world_empty 999 _ (not_eq_sym Ddh)) (spent_world_holds 999)
      (spent_world_empty 999 _ (not_eq_sym Ddm)) (spent_world_empty 999 _ Ded))))).
    + vm_compute. reflexivity.
    + vm_compute. reflexivity.
    + vm_compute. reflexivity.
    + vm_compute. reflexivity.
Defined.

End budget_facts.

(** ** The circuit breaker and the retry loop *)

Module breaker_facts.
Import models eff spec circuit_breaker monad_facts.

Lemma record_failure_spec (t : Z) (cb : CircuitBreaker) :
  let cb' := (record_failure t cb).2 in
  failure_threshold cb' = failure_threshold cb
  ∧ timeout_seconds cb' = timeout_seconds cb
  ∧ failure_count cb' = failure_count cb + 1
  ∧ last_failure_time cb' = Some t
  ∧ is_open cb' = is_open cb || (failure_threshold cb <=? failure_count cb + 1).
Proof.
  unfold record_failure. destruct (Z.leb_spec (failure_threshold cb) (failure_count cb + 1)); simpl;
    repeat split; try reflexivity.
  - by rewrite orb_true_r.
  - by rewrite orb_false_r.
Qed.

Lemma fail_times_count (times : list Z) (cb : CircuitBreaker) :
  failure_threshold (fail_times times cb) = failure_threshold cb
  ∧ failure_count (fail_times times cb) = failure_count cb + Z.of_nat (length times).
Proof.
  revert cb. induction times as [|t times IH]; intros cb; simpl.
  - split; [reflexivity|lia].
  - destruct (IH (record_failure t cb).2) as [E1 E2].
    destruct (record_failure_spec t cb) as (F1 & _ & F3 & _).
    unfold fail_times in *. simpl. rewrite E1, E2, F1, F3. split; [reflexivity|lia].
Qed.

Lemma fail_times_open (times : list Z) (cb : CircuitBreaker) :
  is_open cb = false → 0 ≤ failure_count cb →
  is_open (fail_times times cb)
  = bool_decide (times ≠ [] ∧ failure_threshold cb ≤ failure_count cb + Z.of_nat (length times)).
Proof.
  revert cb. induction times as [|t times IH] using rev_ind; intros cb Hc Hz.
  - simpl. rewrite Hc.
    first [reflexivity | symmetry; apply bool_decide_eq_false; intros [? _]; congruence].
  - unfold fail_times. rewrite fold_left_app. simpl. fold (fail_times times cb).
    destruct (record_failure_spec t (fail_times times cb)) as (_ & _ & _ & _ & ->).
    destruct (fail_times_count times cb) as [-> ->]. rewrite (IH cb Hc Hz).
    rewrite length_app. simpl.
    destruct (Z.leb_spec (failure_threshold cb) (failure_count cb + Z.of_nat (length times) + 1)).
    + rewrite orb_true_r. symmetry. apply bool_decide_eq_true. split; [by destruct times|lia].
    + rewrite orb_false_r. apply bool_decide_ext. split.
      * intros [_ ?]. lia.
      * intros [_ ?]. lia.
Qed.

Lemma request_rejected_while_open (w : World) (last : Z) (m e a : string)
    (d : list (string * jv)) :
  is_open (breaker w) = true → last_failure_time (breaker w) = Some last →
  now w - last ≤ timeout_seconds (breaker w) →
  client._request m e a d w = (Raise (RuntimeError "Circuit breaker is open"), w).
Proof.
  destruct w as [t st [T to c lf op] rs sn sl au al]. simpl.
  intros -> -> Hwithin. run_request. decide_leb. reflexivity.
Qed.

Lemma request_succeeds_at_once (w : World) (m e a : string) (d : list (string * jv))
    (r : Reply) (rest : list Reply) (body : Body) :
  (should_attempt (now w) (breaker w)).1 = true →
  replies w = r :: rest → outcome r = Success body →
  ∃ w', client._request m e a d w = (Ok body, w')
        ∧ is_open (breaker w') = false ∧ failure_count (breaker w') = 0
        ∧ sent w' = wire m e a d :: sent w ∧ slept w' = slept w ∧ replies w' = rest.
Proof.
  destruct w as [t st cb rs sn sl au al]. simpl.
  intros Hgo -> Hr. destruct r as [k o]. simpl in Hr. subst o.
  cbv [client._request client.retrying client.request_once mbind M_bind try_except
       client.breaker_should_attempt now breaker].
  destruct (should_attempt t cb) as [go cb'] eqn:Hsa. simpl in Hgo. subst go.
  simpl. eexists. split; [reflexivity|]. simpl. repeat split.
Qed.

Lemma wait_exponential_bounds (n : Z) :
  1 ≤ n → client.wait_exponential n = Z.min (2 ^ (n - 1)) 10
          ∧ 1 ≤ client.wait_exponential n ≤ 10.
Proof.
  intros Hn. unfold client.wait_exponential.
  assert (0 < 2 ^ (n - 1)) by (apply Z.pow_pos_nonneg; lia).
  lia.
Qed.

(** Three attempts that fail, on a closed breaker with room for at least
    two of them. *)
Lemma request_fails_thrice (w : World) (m e a : string) (d : list (string * jv))
    (r1 r2 r3 : Reply) (rest : list Reply) (e1 e2 e3 : exn) :
  is_open (breaker w) = false → failure_threshold (breaker w) = 5 →
  failure_count (breaker w) ≤ 2 →
  replies w = r1 :: r2 :: r3 :: rest →
  failure (outcome r1) = Some e1 → failure (outcome r2) = Some e2 →
  failure (outcome r3) = Some e3 →
  ∃ w', client._request m e a d w = (Raise (RetryError e3), w')
        ∧ sent w' = [wire m e a d; wire m e a d; wire m e a d] ++ sent w
        ∧ slept w' = [2; 1] ++ slept w
        ∧ replies w' = rest
        ∧ failure_count (breaker w') = failure_count (breaker w) + 3
        ∧ is_open (breaker w') = bool_decide (failure_count (breaker w) = 2)
        ∧ last_failure_time (breaker w') = Some (now w')
        ∧ now w' = now w + Z.of_N (took r1) + 1 + Z.of_N (took r2) + 2 + Z.of_N (took r3)
        ∧ failure_threshold (breaker w') = 5
        ∧ timeout_seconds (breaker w') = timeout_seconds (breaker w).
Proof.
  destruct w as [t st [T to c lf op] rs sn sl au al]. simpl.
  intros -> -> Hc -> H1 H2 H3.
  destruct r1 as [k1 [b1|s1 m1|m1|m1]]; try discriminate;
  destruct r2 as [k2 [b2|s2 m2|m2|m2]]; try discriminate;
  destruct r3 as [k3 [b3|s3 m3|m3|m3]]; try discriminate;
  simpl in H1, H2, H3; injection H1 as <-; injection H2 as <-; injection H3 as <-;
  (destruct (decide (c = 2)) as [->|Hne];
   [ eexists; split; [run_request; reflexivity | simpl; repeat split; try reflexivity; lia]
   | eexists; split;
     [ run_request; settle; simpl; settle; simpl; settle; reflexivity
     | simpl; settle; simpl; repeat split; try reflexivity; try lia;
       symmetry; by apply bool_decide_eq_false ] ]).
Qed.

(** With three failures counted, the second failed attempt opens the
    breaker and the third attempt is refused. *)
Lemma request_refused_after_two (w : World) (m e a : string) (d : list (string * jv))
    (r1 r2 : Reply) (rest : list Reply) (e1 e2 : exn) :
  is_open (breaker w) = false → failure_threshold (breaker w) = 5 →
  timeout_seconds (breaker w) = 60 → failure_count (breaker w) = 3 →
  replies w = r1 :: r2 :: rest →
  failure (outcome r1) = Some e1 → failure (outcome r2) = Some e2 →
  ∃ w', client._request m e a d w = (Raise (RuntimeError "Circuit breaker is open"), w')
        ∧ sent w' = [wire m e a d; wire m e a d] ++ sent w
        ∧ slept w' = [2; 1] ++ slept w
        ∧ replies w' = rest
        ∧ failure_count (breaker w') = 5
        ∧ is_open (breaker w') = true.
Proof.
  destruct w as [t st [T to c lf op] rs sn sl au al]. simpl.
  intros -> -> -> -> -> H1 H2.
  destruct r1 as [k1 [b1|s1 m1|m1|m1]]; try discriminate;
  destruct r2 as [k2 [b2|s2 m2|m2|m2]]; try discriminate;
  simpl in H1, H2; injection H1 as <-; injection H2 as <-;
  eexists; (split;
    [ run_request; settle; simpl; settle; reflexivity
    | simpl; repeat split; reflexivity ]).
Qed.

(** With four failures counted, the first failed attempt opens the breaker
    and the second attempt is refused. *)
Lemma request_refused_after_one (w : World) (m e a : string) (d : list (string * jv))
    (r1 : Reply) (rest : list Reply) (e1 : exn) :
  is_open (breaker w) = false → failure_threshold (breaker w) = 5 →
  timeout_seconds (breaker w) = 60 → failure_count (breaker w) = 4 →
  replies w = r1 :: rest →
  failure (outcome r1) = Some e1 →
  ∃ w', client._request m e a d w = (Raise (RuntimeError "Circuit breaker is open"), w')
        ∧ sent w' = [wire m e a d] ++ sent w
        ∧ slept w' = [1] ++ slept w
        ∧ replies w' = rest
        ∧ failure_count (breaker w') = 5
        ∧ is_open (breaker w') = true.
Proof.
  destruct w as [t st [T to c lf op] rs sn sl au al]. simpl.
  intros -> -> -> -> -> H1.
  destruct r1 as [k1 [b1|s1 m1|m1|m1]]; try discriminate;
  simpl in H1; injection H1 as <-;
  eexists; (split;
    [ run_request; settle; simpl; settle; reflexivity
    | simpl; repeat split; reflexivity ]).
Qed.

Lemma request_second_succeeds (w : World) (m e a : string) (d : list (string * jv))
    (r1 r2 : Reply) (rest : list Reply) (e1 : exn) (body : Body) :
  is_open (breaker w) = false → failure_threshold (breaker w) = 5 →
  failure_count (breaker w) ≤ 3 →
  replies w = r1 :: r2 :: rest →
  failure (outcome r1) = Some e1 → outcome r2 = Success body →
  ∃ w', client._request m e a d w = (Ok body, w')
        ∧ sent w' = [wire m e a d; wire m e a d] ++ sent w
        ∧ slept w' = [1] ++ slept w
        ∧ replies w' = rest
        ∧ failure_count (breaker w') = 0
        ∧ is_open (breaker w') = false.
Proof.
  destruct w as [t st [T to c lf op] rs sn sl au al]. simpl.
  intros -> -> Hc -> H1 H2.
  destruct r2 as [k2 o2]. simpl in H2. subst o2.
  destruct r1 as [k1 [b1|s1 m1|m1|m1]]; try discriminate;
  simpl in H1; injection H1 as <-;
  eexists; (split;
    [ run_request; settle; simpl; settle; reflexivity
    | simpl; repeat split; reflexivity ]).
Qed.

Lemma request_third_succeeds (w : World) (m e a : string) (d : list (string * jv))
    (r1 r2 r3 : Reply) (rest : list Reply) (e1 e2 : exn) (body : Body) :
  is_open (breaker w) = false → failure_threshold (breaker w) = 5 →
  failure_count (breaker w) ≤ 2 →
  replies w = r1 :: r2 :: r3 :: rest →
  failure (outcome r1) = Some e1 → failure (outcome r2) = Some e2 →
  outcome r3 = Success body →
  ∃ w', client._request m e a d w = (Ok body, w')
        ∧ sent w' = [wire m e a d; wire m e a d; wire m e a d] ++ sent w
        ∧ slept w' = [2; 1] ++ slept w
        ∧ replies w' = rest
        ∧ failure_count (breaker w') = 0
        ∧ is_open (breaker w') = false.
Proof.
  destruct w as [t st [T to c lf op] rs sn sl au al]. simpl.
  intros -> -> Hc -> H1 H2 H3.
  destruct r3 as [k3 o3]. simpl in H3. subst o3.
  destruct r1 as [k1 [b1|s1 m1|m1|m1]]; try discriminate;
  destruct r2 as [k2 [b2|s2 m2|m2|m2]]; try discriminate;
  simpl in H1, H2; injection H1 as <-; injection H2 as <-;
  eexists; (split;
    [ run_request; settle; simpl; settle; simpl; settle; reflexivity
    | simpl; repeat split; reflexivity ]).
Qed.

Lemma request_once_after_timeout (w : World) (last : Z) (m e a : string)
    (d : list (string * jv)) :
  is_open (breaker w) = true → last_failure_time (breaker w) = Some last →
  timeout_seconds (breaker w) < now w - last →
  client.request_once m e a d w = client.request_once m e a d (reclosed w).
Proof.
  unfold reclosed.
  destruct w as [t st [T to c lf op] rs sn sl au al]. simpl.
  intros -> -> Hafter.
  unfold client.request_once. rewrite !bind_unfold.
  unfold client.breaker_should_attempt, should_attempt, set_breaker. cbn.
  by destruct (Z.ltb_spec to (t - last)); [|lia].
Qed.

Lemma request_after_timeout (w : World) (last : Z) (m e a : string)
    (d : list (string * jv)) :
  is_open (breaker w) = true → last_failure_time (breaker w) = Some last →
  timeout_seconds (breaker w) < now w - last →
  client._request m e a d w = client._request m e a d (reclosed w).
Proof.
  intros Ho Hl Hafter.
  unfold client._request. cbn [client.retrying]. unfold try_except.
  by rewrite (request_once_after_timeout w last m e a d Ho Hl Hafter).
Qed.

(** C2, as the code has it.  The breaker starts closed with nothing
    counted, threshold 5 and timeout 60; a closed breaker is open after
    further recorded failures exactly when they bring its count to five,
    and a recorded success closes it and sets the count to zero.  While the
    breaker is open and no more than 60 seconds have passed since the last
    recorded failure, [_request] raises the breaker-open error and leaves
    the world as it was: nothing is sent.  Once more than 60 seconds have
    passed, the next call closes the breaker and counts from zero before it
    sends.  If the CRM answers, at the first attempt or at a later one, the
    breaker is closed with nothing counted.
    If the three attempts of that call fail, three requests have been sent
    and the breaker has counted three failures, recorded the time of the
    last and is closed: the call after it is sent to the CRM too, and the
    breaker opens again only with the second failure of that later call,
    the fifth counted. *)
Theorem breaker_cycle (w : World) (last : Z) (m e a : string) (d : list (string * jv)) :
  failure_threshold (breaker w) = 5 → timeout_seconds (breaker w) = 60 →
  is_open (breaker w) = true → last_failure_time (breaker w) = Some last →
  new = {| failure_threshold := 5; timeout_seconds := 60; failure_count := 0;
           last_failure_time := None; is_open := false |}
  ∧ (∀ cb times, is_open cb = false → failure_threshold cb = 5 → 0 ≤ failure_count cb →
       is_open (fail_times times cb)
       = bool_decide (times ≠ [] ∧ 5 ≤ failure_count cb + Z.of_nat (length times)))
  ∧ (∀ cb, is_open (record_success cb) = false ∧ failure_count (record_success cb) = 0)
  ∧ (now w - last ≤ 60 →
       client._request m e a d w = (Raise (RuntimeError "Circuit breaker is open"), w))
  ∧ (60 < now w - last →
       (∀ r rest body, replies w = r :: rest → outcome r = Success body →
          ∃ w', client._request m e a d w = (Ok body, w')
            ∧ sent w' = wire m e a d :: sent w
            ∧ is_open (breaker w') = false ∧ failure_count (breaker w') = 0)
       ∧ (∀ r1 r2 rest e1 body, replies w = r1 :: r2 :: rest →
          failure (outcome r1) = Some e1 → outcome r2 = Success body →
          ∃ w', client._request m e a d w = (Ok body, w')
            ∧ sent w' = [wire m e a d; wire m e a d] ++ sent w
            ∧ is_open (breaker w') = false ∧ failure_count (breaker w') = 0)
       ∧ (∀ r1 r2 r3 rest e1 e2 body, replies w = r1 :: r2 :: r3 :: rest →
          failure (outcome r1) = Some e1 → failure (outcome r2) = Some e2 →
          outcome r3 = Success body →
          ∃ w', client._request m e a d w = (Ok body, w')
            ∧ sent w' = [wire m e a d; wire m e a d; wire m e a d] ++ sent w
            ∧ is_open (breaker w') = false ∧ failure_count (breaker w') = 0)
       ∧ (∀ r1 r2 r3 rest e1 e2 e3, replies w = r1 :: r2 :: r3 :: rest →
          failure (outcome r1) = Some e1 → failure (outcome r2) = Some e2 →
          failure (outcome r3) = Some e3 →
          ∃ w', client._request m e a d w = (Raise (RetryError e3), w')
            ∧ sent w' = [wire m e a d; wire m e a d; wire m e a d] ++ sent w
            ∧ is_open (breaker w') = false
            ∧ failure_count (breaker w') = 3
            ∧ last_failure_time (breaker w') = Some (now w')
            ∧ (∀ r4 rest' body, rest = r4 :: rest' → outcome r4 = Success body →
                 ∃ w'', client._request m e a d w' = (Ok body, w'')
                   ∧ sent w'' = wire m e a d :: sent w'
                   ∧ is_open (breaker w'') = false ∧ failure_count (breaker w'') = 0)
            ∧ (∀ r4 r5 rest' e4 e5, rest = r4 :: r5 :: rest' →
                 failure (outcome r4) = Some e4 → failure (outcome r5) = Some e5 →
                 ∃ w'', client._request m e a d w'
                        = (Raise (RuntimeError "Circuit breaker is open"), w'')
                   ∧ sent w'' = [wire m e a d; wire m e a d] ++ sent w'
                   ∧ is_open (breaker w'') = true
                   ∧ failure_count (breaker w'') = 5))).
Proof.
  intros Hth Hto Hopen Hlast.
  split; [reflexivity|]. split; [|split; [|split; [|]]].
  - intros cb times Hc Ht Hz. rewrite fail_times_open by assumption. by rewrite Ht.
  - intros cb. split; reflexivity.
  - intros Hwithin. eapply request_rejected_while_open; [done|done|]. by rewrite Hto.
  - intros Hafter.
    assert (Hre : client._request m e a d w = client._request m e a d (reclosed w)).
    { eapply request_after_timeout; [done|done|]. by rewrite Hto. }
    rewrite Hre. split; [|split; [|split]].
    + intros r rest body Hr Ho.
      destruct (request_succeeds_at_once (reclosed w) m e a d r rest body)
        as (w' & E & O & C & S & _); [reflexivity|assumption|assumption|].
      by exists w'.
    + intros r1 r2 rest e1 body Hr H1 H2.
      destruct (request_second_succeeds (reclosed w) m e a d r1 r2 rest e1 body)
        as (w' & E & S & _ & _ & C & O);
        [reflexivity|exact Hth|simpl; lia|exact Hr|assumption|assumption|].
      by exists w'.
    + intros r1 r2 r3 rest e1 e2 body Hr H1 H2 H3.
      destruct (request_third_succeeds (reclosed w) m e a d r1 r2 r3 rest e1 e2 body)
        as (w' & E & S & _ & _ & C & O);
        [reflexivity|exact Hth|simpl; lia|exact Hr|assumption|assumption|assumption|].
      by exists w'.
    + intros r1 r2 r3 rest e1 e2 e3 Hr H1 H2 H3.
      destruct (request_fails_thrice (reclosed w) m e a d r1 r2 r3 rest e1 e2 e3)
        as (w' & E & S & _ & R & C & O & L & _ & T' & TO');
        [reflexivity|exact Hth|simpl; lia|exact Hr|assumption|assumption|assumption|].
      simpl in C, O, TO'. rewrite Hto in TO'.
      exists w'. split; [exact E|]. split; [exact S|]. split; [exact O|].
      split; [exact C|]. split; [exact L|]. split.
      * intros r4 rest' body -> Ho.
        destruct (request_succeeds_at_once w' m e a d r4 rest' body)
          as (w'' & E' & O' & C' & S' & _);
          [unfold should_attempt; by rewrite O|assumption|assumption|].
        by exists w''.
      * intros r4 r5 rest' e4 e5 -> H4 H5.
        destruct (request_refused_after_two w' m e a d r4 r5 rest' e4 e5)
          as (w'' & E' & S' & _ & _ & C' & O'); try assumption.
        by exists w''.
Qed.

Lemma breaker_cycle_witness :
  client._request "POST" "schedule" "list" [] (tripped_world 0 60 [empty_list_reply])
  = (Raise (RuntimeError "Circuit breaker is open"), tripped_world 0 60 [empty_list_reply])
  ∧ (∃ w', client._request "POST" "schedule" "list" [] (tripped_world 0 61 [empty_list_reply])
           = (Ok (BList []), w')
         ∧ sent w' = [wire "POST" "schedule" "list" []]
         ∧ is_open (breaker w') = false ∧ failure_count (breaker w') = 0)
  ∧ (∃ w' w'',
       client._request "POST" "schedule" "list" []
         (tripped_world 0 61 [refused_reply; refused_reply; refused_reply;
                              refused_reply; refused_reply])
       = (Raise (RetryError (TransportError "All connection attempts failed")), w')
       ∧ length (sent w') = 3%nat
       ∧ is_open (breaker w') = false
       ∧ failure_count (breaker w') = 3
       ∧ last_failure_time (breaker w') = Some 64
       ∧ client._request "POST" "schedule" "list" [] w'
         = (Raise (RuntimeError "Circuit breaker is open"), w'')
       ∧ length (sent w'') = 5%nat
       ∧ is_open (breaker w'') = true
       ∧ failure_count (breaker w'') = 5).
Proof.
  split; [|split].
  - apply (proj1 (proj2 (proj2 (proj2 (breaker_cycle (tripped_world 0 60 [empty_list_reply]) 0
             "POST" "schedule" "list" [] eq_refl eq_refl eq_refl eq_refl))))).
    vm_compute. congruence.
  - destruct (proj2 (proj2 (proj2 (proj2 (breaker_cycle (tripped_world 0 61 [empty_list_reply])
               0 "POST" "schedule" "list" [] eq_refl eq_refl eq_refl eq_refl)))))
      as [H _]; [vm_compute; reflexivity|].
    exact (H empty_list_reply [] (BList []) eq_refl eq_refl).
  - destruct (proj2 (proj2 (proj2 (proj2 (breaker_cycle
               (tripped_world 0 61 [refused_reply; refused_reply; refused_reply;
                                    refused_reply; refused_reply])
               0 "POST" "schedule" "list" [] eq_refl eq_refl eq_refl eq_refl)))))
      as (_ & _ & _ & H); [vm_compute; reflexivity|].
    destruct (H refused_reply refused_reply refused_reply [refused_reply; refused_reply]
                _ _ _ eq_refl eq_refl eq_refl eq_refl)
      as (w' & E & S & O & C & L & _ & H').
    destruct (H' refused_reply refused_reply [] _ _ eq_refl eq_refl eq_refl)
      as (w'' & E' & S' & O' & C').
    exists w', w''. split; [exact E|].
    split; [by rewrite S|]. split; [exact O|]. split; [exact C|].
    split; [rewrite L; pose proof (f_equal snd E) as Ew; cbn [snd] in Ew; by rewrite <- Ew|].
    split; [exact E'|]. split; [by rewrite S', S|]. split; [exact O'|exact C'].
Defined.

(** The claim of C2 fails where it speaks of a single trial call and of a
    breaker that re-opens. *)
Lemma failed_trial_leaves_breaker_closed :
  let w := tripped_world 0 61 [refused_reply; refused_reply; refused_reply; refused_reply] in
  let w1 := (client._request "POST" "schedule" "list" [] w).2 in
  let w2 := (client._request "POST" "schedule" "list" [] w1).2 in
  is_open (breaker w) = true
  ∧ length (sent w1) = 3%nat
  ∧ is_open (breaker w1) = false
  ∧ last_failure_time (breaker w1) = Some (now w1)
  ∧ length (sent w2) = 5%nat.
Proof. vm_compute. repeat split. Qed.

(** C3, as the code has it, for the client's breaker (threshold 5, timeout
    60).  With the breaker closed, [_request] returns the first successful
    answer without pause.  An attempt that fails, by a transport error, a
    timeout or an HTTP status error alike, is recorded by the breaker at
    once and followed by a pause and another attempt: one second after the
    first, two after the second, three attempts at most.  When all three
    fail the call raises, the last failure inside a [RetryError], with
    three requests sent and three failures added to the count.  When the
    count reaches five before the third attempt, the breaker opens and the
    next attempt raises the breaker-open error instead of being sent.  The
    breaker-open error is never retried: on an open breaker the call raises
    it and leaves the world as it was.  The pause after attempt [n] is
    [min (2 ^ (n - 1)) 10] seconds, between 1 and 10. *)
Theorem request_retry (w : World) (m e a : string) (d : list (string * jv)) :
  failure_threshold (breaker w) = 5 → timeout_seconds (breaker w) = 60 →
  (is_open (breaker w) = false →
     (∀ r rest body, replies w = r :: rest → outcome r = Success body →
        ∃ w', client._request m e a d w = (Ok body, w')
              ∧ sent w' = wire m e a d :: sent w ∧ slept w' = slept w
              ∧ replies w' = rest ∧ failure_count (breaker w') = 0)
     ∧ (∀ r1 r2 rest e1 body, failure_count (breaker w) ≤ 3 →
        replies w = r1 :: r2 :: rest →
        failure (outcome r1) = Some e1 → outcome r2 = Success body →
        ∃ w', client._request m e a d w = (Ok body, w')
              ∧ sent w' = [wire m e a d; wire m e a d] ++ sent w
              ∧ slept w' = [1] ++ slept w
              ∧ replies w' = rest ∧ failure_count (breaker w') = 0)
     ∧ (∀ r1 r2 r3 rest e1 e2 body, failure_count (breaker w) ≤ 2 →
        replies w = r1 :: r2 :: r3 :: rest →
        failure (outcome r1) = Some e1 → failure (outcome r2) = Some e2 →
        outcome r3 = Success body →
        ∃ w', client._request m e a d w = (Ok body, w')
              ∧ sent w' = [wire m e a d; wire m e a d; wire m e a d] ++ sent w
              ∧ slept w' = [2; 1] ++ slept w
              ∧ replies w' = rest ∧ failure_count (breaker w') = 0)
     ∧ (∀ r1 r2 r3 rest e1 e2 e3, failure_count (breaker w) ≤ 2 →
        replies w = r1 :: r2 :: r3 :: rest →
        failure (outcome r1) = Some e1 → failure (outcome r2) = Some e2 →
        failure (outcome r3) = Some e3 →
        ∃ w', client._request m e a d w = (Raise (RetryError e3), w')
              ∧ sent w' = [wire m e a d; wire m e a d; wire m e a d] ++ sent w
              ∧ slept w' = [2; 1] ++ slept w
              ∧ replies w' = rest
              ∧ failure_count (breaker w') = failure_count (breaker w) + 3
              ∧ is_open (breaker w') = bool_decide (failure_count (breaker w) = 2))
     ∧ (∀ r1 r2 rest e1 e2, failure_count (breaker w) = 3 →
        replies w = r1 :: r2 :: rest →
        failure (outcome r1) = Some e1 → failure (outcome r2) = Some e2 →
        ∃ w', client._request m e a d w
              = (Raise (RuntimeError "Circuit breaker is open"), w')
              ∧ sent w' = [wire m e a d; wire m e a d] ++ sent w
              ∧ slept w' = [2; 1] ++ slept w
              ∧ replies w' = rest
              ∧ failure_count (breaker w') = 5 ∧ is_open (breaker w') = true)
     ∧ (∀ r1 rest e1, failure_count (breaker w) = 4 →
        replies w = r1 :: rest → failure (outcome r1) = Some e1 →
        ∃ w', client._request m e a d w
              = (Raise (RuntimeError "Circuit breaker is open"), w')
              ∧ sent w' = [wire m e a d] ++ sent w
              ∧ slept w' = [1] ++ slept w
              ∧ replies w' = rest
              ∧ failure_count (breaker w') = 5 ∧ is_open (breaker w') = true))
  ∧ (∀ last, is_open (breaker w) = true → last_failure_time (breaker w) = Some last →
       now w - last ≤ 60 →
       client._request m e a d w = (Raise (RuntimeError "Circuit breaker is open"), w))
  ∧ (∀ n, 1 ≤ n → client.wait_exponential n = Z.min (2 ^ (n - 1)) 10
                  ∧ 1 ≤ client.wait_exponential n ≤ 10).
Proof.
  intros Hth Hto. split; [|split].
  - intros Hclosed. split; [|split; [|split; [|split; [|split]]]].
    + intros r rest body Hr Ho.
      destruct (request_succeeds_at_once w m e a d r rest body)
        as (w' & E & _ & C & S & L & R); [|assumption|assumption|by exists w'].
      unfold should_attempt. by rewrite Hclosed.
    + intros r1 r2 rest e1 body Hc Hr H1 H2.
      destruct (request_second_succeeds w m e a d r1 r2 rest e1 body Hclosed Hth Hc Hr H1 H2)
        as (w' & E & S & L & R & C & _).
      by exists w'.
    + intros r1 r2 r3 rest e1 e2 body Hc Hr H1 H2 H3.
      destruct (request_third_succeeds w m e a d r1 r2 r3 rest e1 e2 body
                  Hclosed Hth Hc Hr H1 H2 H3) as (w' & E & S & L & R & C & _).
      by exists w'.
    + intros r1 r2 r3 rest e1 e2 e3 Hc Hr H1 H2 H3.
      destruct (request_fails_thrice w m e a d r1 r2 r3 rest e1 e2 e3
                  Hclosed Hth Hc Hr H1 H2 H3) as (w' & E & S & L & R & C & O & _).
      by exists w'.
    + intros r1 r2 rest e1 e2 Hc Hr H1 H2.
      destruct (request_refused_after_two w m e a d r1 r2 rest e1 e2
                  Hclosed Hth Hto Hc Hr H1 H2) as (w' & E & S & L & R & C & O).
      by exists w'.
    + intros r1 rest e1 Hc Hr H1.
      destruct (request_refused_after_one w m e a d r1 rest e1
                  Hclosed Hth Hto Hc Hr H1) as (w' & E & S & L & R & C & O).
      by exists w'.
  - intros last Hopen Hlast Hwithin.
    eapply request_rejected_while_open; [done|done|]. by rewrite Hto.
  - apply wait_exponential_bounds.
Qed.

(** A fresh breaker and a CRM that refuses the connection three times; a
    breaker with three failures counted and a CRM that answers 404. *)
Lemma request_retry_witness :
  (∃ w', client._request "POST" "schedule" "list" []
           (fresh_world 0 [refused_reply; refused_reply; refused_reply])
         = (Raise (RetryError (TransportError "All connection attempts failed")), w')
       ∧ sent w' = [wire "POST" "schedule" "list" []; wire "POST" "schedule" "list" [];
                    wire "POST" "schedule" "list" []] ++ []
       ∧ slept w' = [2; 1] ++ []
       ∧ replies w' = []
       ∧ failure_count (breaker w') = 0 + 3
       ∧ is_open (breaker w') = false)
  ∧ (∃ w', client._request "POST" "schedule" "list" []
             (strained_world 0 [not_found_reply; not_found_reply; empty_list_reply])
           = (Raise (RuntimeError "Circuit breaker is open"), w')
         ∧ sent w' = [wire "POST" "schedule" "list" []; wire "POST" "schedule" "list" []] ++ []
         ∧ slept w' = [2; 1] ++ []
         ∧ replies w' = [empty_list_reply]
         ∧ failure_count (breaker w') = 5 ∧ is_open (breaker w') = true).
Proof.
  split.
  - apply (proj1 (proj2 (proj2 (proj2 (proj1 (request_retry
             (fresh_world 0 [refused_reply; refused_reply; refused_reply])
             "POST" "schedule" "list" [] eq_refl eq_refl) eq_refl))))
             refused_reply refused_reply refused_reply [] _ _ _
             ltac:(simpl; lia) eq_refl eq_refl eq_refl eq_refl).
  - apply (proj1 (proj2 (proj2 (proj2 (proj2 (proj1 (request_retry
             (strained_world 0 [not_found_reply; not_found_reply; empty_list_reply])
             "POST" "schedule" "list" [] eq_refl eq_refl) eq_refl)))))
             not_found_reply not_found_reply [empty_list_reply] _ _
             eq_refl eq_refl eq_refl eq_refl).
Defined.

(** The claim of C3 fails on HTTP 4xx answers: they are retried like
    transport errors, and the breaker hears of every failed attempt. *)
Lemma client_error_is_retried :
  let w := fresh_world 0 [not_found_reply; not_found_reply; not_found_reply] in
  let run := client._request "POST" "schedule" "list" [] w in
  run.1 = Raise (RetryError (HTTPStatusError 404 "Client error '404 Not Found'"))
  ∧ length (sent run.2) = 3%nat
  ∧ slept run.2 = [2; 1]
  ∧ failure_count (breaker run.2) = 3.
Proof. vm_compute. repeat split. Qed.

End breaker_facts.

(** ** The key of a cached schedule *)

Module key_facts.
Import models eff spec.


Lemma below_all (n : Z) (P : Z → bool) :
  forallb P (Z.of_nat <$> seq 0 (Z.to_nat n)) = true → ∀ z, 0 ≤ z < n → P z = true.
Proof.
  intros Hall z Hz. rewrite forallb_forall in Hall. apply Hall.
  apply in_map_iff. exists (Z.to_nat z). split; [lia|]. apply in_seq. lia.
Qed.

Lemma pad4_checked : forallb (pad_fixed 4) (Z.of_nat <$> seq 0 (Z.to_nat 10000)) = true.
Proof. vm_compute. reflexivity. Qed.

Lemma pad2_checked : forallb (pad_fixed 2) (Z.of_nat <$> seq 0 (Z.to_nat 100)) = true.
Proof. vm_compute. reflexivity. Qed.

Lemma pad4_fixed (y : Z) :
  0 ≤ y < 10000 →
  String.length (py.pad 4 y) = 4%nat ∧ py.int_of_str (py.pad 4 y) = Some y.
Proof.
  intros Hy.
  pose proof (below_all 10000 (pad_fixed 4) pad4_checked y Hy) as H.
  unfold pad_fixed in H. by apply bool_decide_eq_true_1 in H.
Qed.

Lemma pad2_fixed (z : Z) :
  0 ≤ z < 100 →
  String.length (py.pad 2 z) = 2%nat ∧ py.int_of_str (py.pad 2 z) = Some z.
Proof.
  intros Hz.
  pose proof (below_all 100 (pad_fixed 2) pad2_checked z Hz) as H.
  unfold pad_fixed in H. by apply bool_decide_eq_true_1 in H.
Qed.

Lemma append_inj_length (a a' b b' : string) :
  String.length a = String.length a' → a +:+ b = a' +:+ b' → a = a' ∧ b = b'.
Proof.
  revert a'. induction a as [|c a IH]; intros [|c' a'] Hl E; try discriminate.
  - done.
  - injection Hl as Hl.
    change (String c (a +:+ b) = String c' (a' +:+ b')) in E. injection E as -> E.
    destruct (IH a' Hl E) as [-> ->]. done.
Qed.

Lemma append_assoc (a b c : string) : (a +:+ b) +:+ c = a +:+ (b +:+ c).
Proof.
  induction a as [|x a IH]; [reflexivity|].
  change (String x ((a +:+ b) +:+ c) = String x (a +:+ (b +:+ c))). by rewrite IH.
Qed.

Lemma append_length (a b : string) :
  String.length (a +:+ b) = (String.length a + String.length b)%nat.
Proof.
  induction a as [|x a IH]; [reflexivity|].
  change (S (String.length (a +:+ b)) = S (String.length a + String.length b)).
  by rewrite IH.
Qed.

Lemma date_isoformat_inj (d d' : py.date) :
  valid_date d → valid_date d' → py.date_isoformat d = py.date_isoformat d' → d = d'.
Proof.
  destruct d as [y m dd], d' as [y' m' dd']. unfold valid_date, py.date_isoformat. simpl.
  intros (Hy & Hm & Hd) (Hy' & Hm' & Hd') E.
  destruct (pad4_fixed y ltac:(lia)) as [Ly Iy], (pad4_fixed y' ltac:(lia)) as [Ly' Iy'].
  destruct (pad2_fixed m ltac:(lia)) as [Lm Im], (pad2_fixed m' ltac:(lia)) as [Lm' Im'].
  destruct (pad2_fixed dd ltac:(lia)) as [Ld Id], (pad2_fixed dd' ltac:(lia)) as [Ld' Id'].
  apply append_inj_length in E as [Ey E]; [|congruence].
  apply (append_inj_length "-" "-") in E as [_ E]; [|reflexivity].
  apply append_inj_length in E as [Em E]; [|congruence].
  apply (append_inj_length "-" "-") in E as [_ E]; [|reflexivity].
  rewrite Ey in Iy. rewrite Em in Im. rewrite E in Id.
  congruence.
Qed.

Lemma date_isoformat_length (d : py.date) :
  valid_date d → String.length (py.date_isoformat d) = 10%nat.
Proof.
  destruct d as [y m dd]. unfold valid_date, py.date_isoformat. simpl.
  intros (Hy & Hm & Hd).
  destruct (pad4_fixed y ltac:(lia)) as [Ly _].
  destruct (pad2_fixed m ltac:(lia)) as [Lm _].
  destruct (pad2_fixed dd ltac:(lia)) as [Ld _].
  rewrite !append_length, Ly, Lm, Ld. reflexivity.
Qed.

(** The fifth character of a date is a hyphen. *)
Lemma date_isoformat_hyphen (d : py.date) (rest : string) :
  valid_date d →
  ∃ a rest', String.length a = 4%nat
             ∧ py.date_isoformat d +:+ rest = a +:+ "-" +:+ rest'.
Proof.
  destruct d as [y m dd]. unfold valid_date, py.date_isoformat. simpl.
  intros (Hy & Hm & Hd).
  destruct (pad4_fixed y ltac:(lia)) as [Ly _].
  eexists _, _. split; [exact Ly|]. rewrite append_assoc. reflexivity.
Qed.

Lemma str_opt_date_split (o o' : option py.date) (r r' : string) :
  valid_dates o → valid_dates o' →
  py.str_opt_date o +:+ "_" +:+ r = py.str_opt_date o' +:+ "_" +:+ r' →
  o = o' ∧ r = r'.
Proof.
  destruct o as [d|], o' as [d'|]; simpl; intros V V' E.
  - apply append_inj_length in E as [E1 E2];
      [|by rewrite !date_isoformat_length].
    apply (append_inj_length "_" "_") in E2 as [_ ->]; [|reflexivity].
    by rewrite (date_isoformat_inj d d' V V' E1).
  - destruct (date_isoformat_hyphen d ("_" +:+ r) V) as (a & rest & La & Ea).
    rewrite Ea in E.
    apply (append_inj_length a "None" _ _ La) in E as [_ E]. discriminate.
  - destruct (date_isoformat_hyphen d' ("_" +:+ r') V') as (a & rest & La & Ea).
    rewrite Ea in E. symmetry in E.
    apply (append_inj_length a "None" _ _ La) in E as [_ E]. discriminate.
  - apply (append_inj_length "None_" "None_") in E as [_ ->]; [done|reflexivity].
Qed.

Lemma str_opt_int_inj (g g' : option Z) : py.str_opt_int g = py.str_opt_int g' → g = g'.
Proof.
  destruct g as [z|], g' as [z'|]; simpl; intros E.
  - pose proof (py_facts.int_of_str_of_Z z) as H. rewrite E in H.
    rewrite py_facts.int_of_str_of_Z in H. congruence.
  - pose proof (py_facts.int_of_str_of_Z z) as H. rewrite E in H. discriminate.
  - pose proof (py_facts.int_of_str_of_Z z') as H. rewrite <- E in H. discriminate.
  - reflexivity.
Qed.

Lemma schedule_key_inj (df dt df' dt' : option py.date) (g g' : option Z) :
  valid_dates df → valid_dates dt → valid_dates df' → valid_dates dt' →
  schedule_key df dt g = schedule_key df' dt' g' → df = df' ∧ dt = dt' ∧ g = g'.
Proof.
  intros V1 V2 V1' V2' E.
  unfold schedule_key, cache._get_key, adapter.schedule_cache_key in E.
  cbn [py.join] in E.
  change ("impulse:cache:schedule" +:+ ":" +:+ ?x) with ("impulse:cache:schedule:" +:+ x) in E.
  apply (append_inj_length "impulse:cache:schedule:" "impulse:cache:schedule:") in E as [_ E];
    [|reflexivity].
  apply str_opt_date_split in E as [-> E]; [|assumption|assumption].
  apply str_opt_date_split in E as [-> E]; [|assumption|assumption].
  by rewrite (str_opt_int_inj g g' E).
Qed.

End key_facts.

(** ** The schedule cache *)

Module cache_facts.
Import models eff spec monad_facts redis_facts.

Section cached.
Context {str_lower : py.Lower}.

Lemma request_delivered (w : World) (m e a : string) (d : list (string * jv))
    (r : Reply) (rest : list Reply) (body : Body) :
  breaker_lets_through w → replies w = r :: rest → outcome r = Success body →
  client._request m e a d w = (Ok body, delivered (wire m e a d) w).
Proof.
  unfold breaker_lets_through, delivered.
  destruct w as [t st cb rs sn sl au al]. simpl.
  intros Hgo -> Hr. destruct r as [k o]. simpl in Hr. subst o.
  cbv [client._request client.retrying client.request_once mbind M_bind try_except
       client.breaker_should_attempt now breaker].
  destruct (circuit_breaker.should_attempt t cb) as [go cb'] eqn:Hsa. simpl in Hgo. subst go.
  reflexivity.
Qed.

Lemma list_delivered (w : World) (entity : string) (fields : list string)
    (filters : option (list (string * jv))) (limit : Z)
    (r : Reply) (rest : list Reply) (l : list Item) :
  breaker_lets_through w → replies w = r :: rest → outcome r = Success (BList l) →
  client.list_ entity fields filters limit w
  = (Ok l, delivered (wire "POST" entity "list" (client.list_data fields filters limit)) w).
Proof.
  intros Hgo Hr Ho. unfold client.list_.
  erewrite bind_ok by (by eapply request_delivered). reflexivity.
Qed.

Lemma for_each_schedules (l : list Schedule) (w : World) :
  adapter.for_each adapter.as_schedule (ISchedule <$> l) w = (Ok l, w).
Proof.
  induction l as [|s l IH]; [reflexivity|]. simpl.
  run_pure. run IH. reflexivity.
Qed.

Lemma for_each_groups (l : list Group) (w : World) :
  adapter.for_each adapter.as_group (IGroup <$> l) w = (Ok l, w).
Proof.
  induction l as [|s l IH]; [reflexivity|]. simpl.
  run_pure. run IH. reflexivity.
Qed.

Lemma get_schedule_hit (df dt : option py.date) (g : option Z) (w : World)
    (e : entry) (l : list Schedule) :
  redis.peek w (schedule_key df dt g) = Some e →
  value e = VJson (DList (ISchedule <$> l)) →
  adapter.get_schedule df dt g w = (Ok l, w).
Proof.
  intros Hp Hv. unfold adapter.get_schedule. apply try_ok.
  unfold cache.get. fold (schedule_key df dt g).
  run (get_json_hit _ _ _ _ Hp Hv). simpl. run_pure. apply for_each_schedules.
Qed.

Lemma get_schedule_miss (df dt : option py.date) (g : option Z) (w : World)
    (r : Reply) (rest : list Reply) (l : list Schedule) :
  breaker_lets_through w →
  redis.peek w (schedule_key df dt g) = None →
  replies w = r :: rest → outcome r = Success (BList (ISchedule <$> l)) →
  ∃ rq, rq_url rq = "/schedule/list"
    ∧ adapter.get_schedule df dt g w
      = (Ok l, set_store (insert (schedule_key df dt g)
                                 (cached_schedules l (now w + Z.of_N (took r))))
                 (delivered rq w)).
Proof.
  intros Hgo Hp Hr Ho. eexists. split; last first.
  - unfold adapter.get_schedule. apply try_ok.
    unfold cache.get. fold (schedule_key df dt g).
    run (get_json_miss _ _ Hp).
    run_by ltac:(by eapply list_delivered).
    run (for_each_schedules l).
    unfold cache.set. fold (schedule_key df dt g).
    unfold delivered. rewrite Hr. reflexivity.
  - reflexivity.
Qed.

Lemma schedule_key_matches (df dt : option py.date) (g : option Z) :
  redis.glob_match "impulse:cache:schedule:*" (schedule_key df dt g) = true.
Proof.
  unfold schedule_key, cache._get_key. simpl. apply glob_star_all.
Qed.

Lemma clear_schedule_cache (w : World) :
  ∃ w', cache.clear_entity "schedule" w = (Ok tt, w')
        ∧ now w' = now w ∧ sent w' = sent w ∧ replies w' = replies w
        ∧ breaker w' = breaker w
        ∧ (∀ df dt g, store w' !! schedule_key df dt g = None)
        ∧ (∀ k, redis.glob_match "impulse:cache:schedule:*" k = false →
                store w' !! k = store w !! k).
Proof.
  eexists. split; [reflexivity|]. simpl. repeat split.
  - intros df dt g. apply map_lookup_filter_None. right. intros e _ Hno. simpl in Hno.
    apply Hno, schedule_key_matches.
  - intros k Hk. destruct (store w !! k) as [e|] eqn:He.
    + apply map_lookup_filter_Some. split; [assumption|]. simpl. congruence.
    + apply map_lookup_filter_None. by left.
Qed.

Lemma create_delivered (w : World) (entity : string) (d : list (string * jv))
    (r : Reply) (rest : list Reply) (body : Body) :
  breaker_lets_through w → replies w = r :: rest → outcome r = Success body →
  client.create entity d w = (Ok body, delivered (wire "POST" entity "update" d) w).
Proof. intros. unfold client.create. by eapply request_delivered. Qed.

Lemma create_booking_clears (w : World) (cid : Z) (sid : idempotency.schedule_ref)
    (trace : option string) (r : Reply) (rest : list Reply) (rsv : Reservation) :
  breaker_lets_through w → replies w = r :: rest →
  outcome r = Success (BItem (IReservation rsv)) →
  ∃ w' rq, adapter.create_booking cid sid None None trace w = (Ok rsv, w')
        ∧ rq_url rq = "/reservation/update"
        ∧ sent w' = rq :: sent w ∧ replies w' = rest
        ∧ now w' = now w + Z.of_N (took r)
        ∧ circuit_breaker.is_open (breaker w') = false
        ∧ (∀ df dt g, store w' !! schedule_key df dt g = None)
        ∧ (∀ k, redis.glob_match "impulse:cache:schedule:*" k = false →
                store w' !! k = store w !! k).
Proof.
  intros Hgo Hr Ho.
  set (rq := wire "POST" "reservation" "update"
               [("client_id", JInt cid); ("schedule_id", adapter.ref_jv sid)]).
  destruct (clear_schedule_cache (delivered rq w)) as (w' & Hclear & Hn & Hs & Hrp & Hb & Hgone & Hkeep).
  exists w', rq. split.
  - unfold adapter.create_booking. apply try_ok. simpl.
    run_by ltac:(by eapply create_delivered).
    run Hclear. reflexivity.
  - unfold delivered in Hn, Hs, Hrp, Hb, Hkeep. rewrite Hr in *. simpl in *.
    repeat split; try assumption. by rewrite Hb.
Qed.

Lemma closed_lets_through (w : World) :
  circuit_breaker.is_open (breaker w) = false → breaker_lets_through w.
Proof. unfold breaker_lets_through, circuit_breaker.should_attempt. by intros ->. Qed.

(** C4.  The cache key of [get_schedule] is impulse:cache:schedule:
    followed by its three parameters as [str] writes them, joined by
    underscores; calls with different parameters have different keys.  A
    [get_schedule] that misses the cache asks the CRM, returns its answer
    and stores it under the key of its parameters for 900 seconds; the same
    call at any moment before that deadline returns the stored answer and
    leaves the world as it was, so nothing is sent.  A [create_booking]
    that succeeds leaves no schedule key in the store, for any parameters,
    and the next [get_schedule] goes to the CRM. *)
Theorem schedule_cache_round_trip (df dt : option py.date) (g : option Z) (w : World)
    (r : Reply) (rest : list Reply) (l : list Schedule) :
  breaker_lets_through w →
  redis.peek w (schedule_key df dt g) = None →
  replies w = r :: rest → outcome r = Success (BList (ISchedule <$> l)) →
  schedule_key df dt g
  = "impulse:cache:schedule:"
    +:+ match df with Some d => py.date_isoformat d | None => "None" end
    +:+ "_" +:+ match dt with Some d => py.date_isoformat d | None => "None" end
    +:+ "_" +:+ match g with
                | Some z => NilZero.string_of_int (Z.to_int z)
                | None => "None"
                end
  ∧ (∀ df' dt' g', valid_dates df → valid_dates dt → valid_dates df' → valid_dates dt' →
       schedule_key df dt g = schedule_key df' dt' g' → df = df' ∧ dt = dt' ∧ g = g')
  ∧ (∃ w1 rq, adapter.get_schedule df dt g w = (Ok l, w1)
      ∧ sent w1 = rq :: sent w ∧ rq_url rq = "/schedule/list"
      ∧ store w1 !! schedule_key df dt g
        = Some {| value := VJson (DList (ISchedule <$> l));
                  deadline := Some (now w1 + 900) |}
      ∧ ∀ t, t < now w1 + 900 →
           adapter.get_schedule df dt g (at_time t w1) = (Ok l, at_time t w1))
  ∧ (∀ w' cid sid trace r' rest' rsv,
       breaker_lets_through w' → replies w' = r' :: rest' →
       outcome r' = Success (BItem (IReservation rsv)) →
       ∃ w2 rq, adapter.create_booking cid sid None None trace w' = (Ok rsv, w2)
         ∧ sent w2 = rq :: sent w' ∧ rq_url rq = "/reservation/update"
         ∧ (∀ df' dt' g', store w2 !! schedule_key df' dt' g' = None)
         ∧ ∀ df' dt' g' t r2 rest2 l2,
             replies w2 = r2 :: rest2 → outcome r2 = Success (BList (ISchedule <$> l2)) →
             ∃ w3 rq', adapter.get_schedule df' dt' g' (at_time t w2) = (Ok l2, w3)
               ∧ sent w3 = rq' :: sent w2 ∧ rq_url rq' = "/schedule/list").
Proof.
  intros Hgo Hmiss Hr Ho. split; [by destruct df, dt, g|].
  split; [intros df' dt' g'; apply key_facts.schedule_key_inj|]. split.
  - destruct (get_schedule_miss df dt g w r rest l Hgo Hmiss Hr Ho) as (rq & Hurl & Hrun).
    eexists _, rq. split; [exact Hrun|].
    unfold delivered. rewrite Hr. simpl. split; [reflexivity|]. split; [assumption|].
    split; [apply lookup_insert_eq|].
    intros t Ht.
    apply (get_schedule_hit _ _ _ _ (cached_schedules l (now w + Z.of_N (took r))));
      [|reflexivity].
    unfold redis.peek. simpl. rewrite lookup_insert_eq. unfold redis.live. simpl.
    by destruct (Z.ltb_spec t (now w + Z.of_N (took r) + 900)); [|lia].
  - intros w' cid sid trace r' rest' rsv Hgo' Hr' Ho'.
    destruct (create_booking_clears w' cid sid trace r' rest' rsv Hgo' Hr' Ho')
      as (w2 & rq & Hrun & Hurl & Hsent & Hrep & Hnow & Hclosed & Hgone & _).
    exists w2, rq. split; [assumption|]. split; [assumption|]. split; [assumption|].
    split; [assumption|].
    intros df' dt' g' t r2 rest2 l2 Hr2 Ho2.
    destruct (get_schedule_miss df' dt' g' (at_time t w2) r2 rest2 l2) as (rq' & Hurl' & Hrun');
      [by apply closed_lets_through|by apply peek_absent|assumption|assumption|].
    eexists _, rq'. split; [exact Hrun'|].
    unfold delivered. simpl. rewrite Hr2. simpl. split; [reflexivity|assumption].
Qed.

End cached.

#[local] Existing Instance basic_lower.

(** The classes of 5 March 2024, asked for at 1000 and answered a second
    later; the classes of the next day are kept under another key. *)
Lemma schedule_cache_round_trip_witness :
  schedule_key (Some (py.date_of sample_target)) None None
  = "impulse:cache:schedule:2024-03-05_None_None"
  ∧ (schedule_key (Some (py.date_of sample_target)) None None
     = schedule_key (Some {| py.d_year := 2024; py.d_month := 3; py.d_day := 6 |}) None None →
     False)
  ∧ ∃ w1 rq,
      adapter.get_schedule (Some (py.date_of sample_target)) None None
        (fresh_world 1000 [answer (BList [ISchedule (sample_schedule "2024-03-05")])])
      = (Ok [sample_schedule "2024-03-05"], w1)
      ∧ sent w1 = rq :: [] ∧ rq_url rq = "/schedule/list"
      ∧ store w1 !! "impulse:cache:schedule:2024-03-05_None_None"
        = Some {| value := VJson (DList [ISchedule (sample_schedule "2024-03-05")]);
                  deadline := Some (now w1 + 900) |}
      ∧ ∀ t, t < now w1 + 900 →
          adapter.get_schedule (Some (py.date_of sample_target)) None None (at_time t w1)
          = (Ok [sample_schedule "2024-03-05"], at_time t w1).
Proof.
  pose proof (schedule_cache_round_trip (Some (py.date_of sample_target)) None None
    (fresh_world 1000 [answer (BList [ISchedule (sample_schedule "2024-03-05")])])
    (answer (BList [ISchedule (sample_schedule "2024-03-05")])) []
    [sample_schedule "2024-03-05"] eq_refl eq_refl eq_refl eq_refl) as (Hkey & Hinj & Hrun & _).
  split; [exact Hkey|]. split; [|exact Hrun].
  intros E.
  destruct (Hinj (Some {| py.d_year := 2024; py.d_month := 3; py.d_day := 6 |}) None None)
    as (D & _); [unfold valid_dates, valid_date; simpl; lia| exact I
                |unfold valid_dates, valid_date; simpl; lia| exact I | exact E |].
  discriminate D.
Defined.

End cache_facts.

(** ** What the adapter may write *)

Create HintDb confined.

Module confinement.
Import models eff spec monad_facts redis_facts.

Section confined_code.
Context {str_lower : py.Lower}.

Lemma only_impulse_refl (w : World) : only_impulse w w.
Proof. by intros k _. Qed.

Lemma only_impulse_trans (w1 w2 w3 : World) :
  only_impulse w1 w2 → only_impulse w2 w3 → only_impulse w1 w3.
Proof. intros H12 H23 k Hk. by rewrite H23, H12. Qed.

Lemma only_impulse_same_store (w w' : World) : store w' = store w → only_impulse w w'.
Proof. intros E k _. by rewrite E. Qed.

Lemma confined_ret {A} (a : A) : confined (mret a).
Proof. intros w. apply only_impulse_refl. Qed.

Lemma confined_raise {A} (e : exn) : confined (@raise A e).
Proof. intros w. apply only_impulse_refl. Qed.

Lemma confined_bind {A B} (m : M A) (f : A → M B) :
  confined m → (∀ a, confined (f a)) → confined (m ≫= f).
Proof.
  intros Hm Hf w. rewrite bind_unfold. specialize (Hm w).
  destruct (m w) as [[a|e] w1]; simpl in *; [|assumption].
  eapply only_impulse_trans; [exact Hm|apply Hf].
Qed.

Lemma confined_try {A} (m : M A) (h : exn → M A) :
  confined m → (∀ e, confined (h e)) → confined (try_except m h).
Proof.
  intros Hm Hh w. unfold try_except. specialize (Hm w).
  destruct (m w) as [[a|e] w1]; simpl in *; [assumption|].
  eapply only_impulse_trans; [exact Hm|apply Hh].
Qed.

Lemma confined_same_store {A} (m : M A) :
  (∀ w, store (m w).2 = store w) → confined m.
Proof. intros H w. apply only_impulse_same_store, H. Qed.

Lemma confined_insert (w : World) (k : string) (e : entry) :
  String.prefix "impulse:" k = true → only_impulse w (set_store (insert k e) w).
Proof.
  intros Hk k' Hk'. simpl. apply lookup_insert_ne. congruence.
Qed.

Lemma cleared_keys_are_impulse (k : string) :
  String.prefix "impulse:" k = false →
  redis.glob_match "impulse:cache:schedule:*" k = false.
Proof.
  intros Hk. destruct (redis.glob_match "impulse:cache:schedule:*" k) eqn:Hm; [|done].
  apply (literal_prefix_of_match "impulse:" "cache:schedule:*") in Hm; [congruence|].
  repeat constructor; discriminate.
Qed.

Lemma confined_get_json (k : string) : confined (redis.get_json k).
Proof.
  apply confined_same_store. intros w. unfold redis.get_json.
  destruct (redis.peek w k) as [[[s|d|l] dl]|]; simpl; try reflexivity.
  by destruct (py.int_of_str s).
Qed.


Lemma confined_lpush (k : string) (i : FallbackItem) :
  String.prefix "impulse:" k = true → confined (redis.lpush k i).
Proof.
  intros Hk w. unfold redis.lpush.
  destruct (redis.peek w k) as [[[s|d|l] dl]|]; simpl;
    first [by apply confined_insert | apply only_impulse_refl].
Qed.

Lemma confined_clear_schedule : confined (redis.scan_delete "impulse:cache:schedule:*").
Proof.
  intros w k Hk. apply cleared_keys_are_impulse in Hk.
  unfold redis.scan_delete, set_store. cbn [snd store].
  destruct (store w !! k) as [e|] eqn:He.
  - apply map_lookup_filter_Some. split; [assumption|]. cbn [fst]. rewrite Hk. discriminate.
  - apply map_lookup_filter_None. by left.
Qed.

Lemma confined_clock : confined clock.
Proof. by apply confined_same_store. Qed.
Lemma confined_sleep (d : Z) : confined (sleep d).
Proof. by apply confined_same_store. Qed.
Lemma confined_exchange (rq : Request) : confined (exchange rq).
Proof. apply confined_same_store. intros w. unfold exchange. by destruct (replies w). Qed.
Lemma confined_notify (i : FallbackItem) : confined (notify_admin i).
Proof. by apply confined_same_store. Qed.
Lemma confined_should_attempt : confined client.breaker_should_attempt.
Proof.
  apply confined_same_store. intros w. unfold client.breaker_should_attempt.
  by destruct (circuit_breaker.should_attempt (now w) (breaker w)).
Qed.
Lemma confined_record_success : confined client.breaker_record_success.
Proof. by apply confined_same_store. Qed.
Lemma confined_record_failure : confined client.breaker_record_failure.
Proof.
  apply confined_same_store. intros w. unfold client.breaker_record_failure.
  by destruct (circuit_breaker.record_failure (now w) (breaker w)).
Qed.

#[local] Hint Resolve confined_ret confined_raise confined_get_json confined_clock
  confined_sleep confined_exchange confined_notify confined_should_attempt
  confined_record_success confined_record_failure confined_clear_schedule : confined.

Ltac confine :=
  repeat first
    [ solve [auto with confined]
    | apply confined_bind; [|intros ?]
    | apply confined_try; [|intros ?]
    | match goal with
      | |- confined (match ?x with _ => _ end) => destruct x
      | |- confined (if ?b then _ else _) => destruct b
      | |- confined (let '(_, _) := ?x in _) => destruct x
      end ].

Lemma confined_send (rq : Request) : confined (client.send rq).
Proof. unfold client.send. confine. Qed.
#[local] Hint Resolve confined_send : confined.

Lemma confined_request_once (m e a : string) (d : list (string * jv)) :
  confined (client.request_once m e a d).
Proof. unfold client.request_once. confine. Qed.

Lemma confined_retrying {A} (budget : nat) (n : Z) (body : M A) :
  confined body → confined (client.retrying budget n body).
Proof.
  intros Hb. revert n. induction budget as [|budget IH]; intros n; simpl; confine.
Qed.

Lemma confined_request (m e a : string) (d : list (string * jv)) :
  confined (client._request m e a d).
Proof. apply confined_retrying, confined_request_once. Qed.
#[local] Hint Resolve confined_request : confined.

Lemma confined_list (entity : string) (fields : list string)
    (filters : option (list (string * jv))) (limit : Z) :
  confined (client.list_ entity fields filters limit).
Proof. unfold client.list_. confine. Qed.

Lemma confined_create (entity : string) (d : list (string * jv)) :
  confined (client.create entity d).
Proof. apply confined_request. Qed.

Lemma confined_push_fallback (i : FallbackItem) : confined (redis.lpush fallback.QUEUE_KEY i).
Proof. by apply confined_lpush. Qed.
#[local] Hint Resolve confined_list confined_create confined_push_fallback : confined.

Lemma confined_enqueue (action : string) (d : list (string * jv)) (err : string)
    (trace : option string) : confined (fallback.enqueue action d err trace).
Proof. unfold fallback.enqueue. confine. Qed.
#[local] Hint Resolve confined_enqueue : confined.

Lemma confined_on_error {A} (action : string) (d : list (string * jv))
    (trace : option string) (e : exn) : confined (@adapter.on_error _ A action d trace e).
Proof. unfold adapter.on_error. confine. Qed.
#[local] Hint Resolve confined_on_error : confined.






Lemma confined_create_booking (cid : Z) (sid : idempotency.schedule_ref) (st : option Z)
    (notes trace : option string) : confined (adapter.create_booking cid sid st notes trace).
Proof.
  unfold adapter.create_booking, adapter.as_reservation, cache.clear_entity. confine.
Qed.

End confined_code.
End confinement.

(** ** The booking flow *)

Module flow_facts.
Import models eff spec monad_facts redis_facts cache_facts confinement.

Section flow.
Context `{Sha256} {str_lower : py.Lower}.

Lemma transition_allowed (cfg : config.Settings) (s : Session) (T : ConversationState)
    (w : World) :
  fsm.can_transition (state s) T = true →
  conversation.transition_state cfg s T w
  = (Ok (true, moved cfg s T (now w)),
     set_store (insert (session_key s)
                  (session_entry (moved cfg s T (now w)) (session_ttl cfg T) (now w))) w).
Proof.
  intros Hok. unfold conversation.transition_state. rewrite Hok. reflexivity.
Qed.

Lemma resolve_client_run {B} (sl : SlotValues) (trace : string) (w1 : World) (c : Client)
    (w2 : World) (k : Client → M B) :
  client_resolved sl trace w1 c w2 →
  (adapter.find_client (client_phone sl)
   ≫= λ found,
        match found with
        | Some c0 => mret c0
        | None =>
            adapter.create_client (py.or_else (client_name sl) "Клиент") (client_phone sl)
              None (Some trace)
        end ≫= k) w1
  = k c w2.
Proof.
  intros [Hfound | (w' & Hnone & Hcreate)].
  - run Hfound. reflexivity.
  - run Hnone. run Hcreate. reflexivity.
Qed.


Lemma acquire_free (phone : string) (sid : idempotency.schedule_ref) (w : World) :
  redis.peek w (lock_key phone sid) = None →
  idempotency.acquire_booking_lock phone sid w
  = (Ok (true, ""), set_store (insert (lock_key phone sid) (lock_entry (now w))) w).
Proof.
  intros Hfree. unfold idempotency.acquire_booking_lock.
  rewrite bind_unfold. unfold redis.setnx. fold (lock_key phone sid). rewrite Hfree.
  reflexivity.
Qed.

Lemma acquire_held (phone : string) (sid : idempotency.schedule_ref) (w : World) (e : entry) :
  redis.peek w (lock_key phone sid) = Some e →
  idempotency.acquire_booking_lock phone sid w
  = (Ok (false, idempotency.already_booked), w).
Proof.
  intros Hheld. unfold idempotency.acquire_booking_lock.
  rewrite bind_unfold. unfold redis.setnx. fold (lock_key phone sid). rewrite Hheld.
  reflexivity.
Qed.


Lemma truthy_pinned (o : option string) :
  booking_flow.truthy_ref (idempotency.SidStr <$> o) = py.truthy o.
Proof. by destruct o. Qed.


Lemma lock_key_not_impulse (phone : string) (sid : idempotency.schedule_ref) :
  String.prefix "impulse:" (lock_key phone sid) = false.
Proof. reflexivity. Qed.


Lemma lock_key_not_session (phone : string) (sid : idempotency.schedule_ref) (s : Session) :
  session_key s ≠ lock_key phone sid.
Proof. unfold session_key, lock_key. simpl. discriminate. Qed.

Lemma already_booked_path (self : booking_flow.BookingFlow) (session : Session)
    (trace : string) (w : World) (c : Client) (s : Schedule) (w4 : World) (e : entry) :
  reaches_lock self session trace w c s w4 →
  redis.peek w4 (lock_key (py.str_opt (client_phone (slots session)))
                   (idempotency.SidInt (sch_id s))) = Some e →
  booking_flow.confirm_booking self session trace w
  = (Ok (idempotency.already_booked,
         moved (booking_flow.settings self)
           (moved (booking_flow.settings self) session BOOKING_IN_PROGRESS (now w))
           IDLE (now w4)),
     set_store (insert (session_key session)
        (session_entry
           (moved (booking_flow.settings self)
              (moved (booking_flow.settings self) session BOOKING_IN_PROGRESS (now w))
              IDLE (now w4))
           (session_ttl (booking_flow.settings self) IDLE) (now w4))) w4).
Proof.
  intros (Hst & Hpin & Hid & g & target & w2 & groups & w3 & schedules
          & Hg & Hne & Hdt & Hclient & Hgroups & Hsched & Hfind) Hheld.
  assert (Htr : py.truthy (group (slots session)) = true).
  { rewrite Hg. simpl. by apply negb_true_iff, String.eqb_neq. }
  rewrite transition_allowed in Hclient by (by rewrite Hst). cbn [snd] in Hclient.
  unfold booking_flow.confirm_booking. cbv zeta.
  rewrite Htr, Hdt. cbn [negb orb].
  replace (bool_decide (is_Some (Some target))) with true by reflexivity. cbn [negb orb].
  run_by ltac:(apply transition_allowed; by rewrite Hst).
  apply try_ok.
  rewrite (resolve_client_run _ _ _ _ _ _ Hclient).
  rewrite truthy_pinned, Hpin, Hg. cbn [default from_option id].
  rewrite !bind_assoc. run Hgroups. rewrite ret_bind.
  rewrite !bind_assoc. run Hsched. rewrite Hfind.
  rewrite ret_bind. cbn [booking_flow.truthy_ref default from_option id].
  destruct (Z.eqb_spec (sch_id s) 0) as [|_]; [done|]. cbn [negb].
  run (acquire_held _ _ _ _ Hheld). cbn [negb].
  run_by ltac:(by apply transition_allowed). reflexivity.
Qed.


Lemma booked_path (self : booking_flow.BookingFlow) (session : Session)
    (trace : string) (w : World) (c : Client) (s : Schedule) (w4 : World)
    (r : Reply) (rest : list Reply) (rsv : Reservation) :
  reaches_lock self session trace w c s w4 →
  redis.peek w4 (lock_key (py.str_opt (client_phone (slots session)))
                   (idempotency.SidInt (sch_id s))) = None →
  breaker_lets_through w4 → replies w4 = r :: rest →
  outcome r = Success (BItem (IReservation rsv)) →
  ∃ text s' w' rq,
    booking_flow.confirm_booking self session trace w = (Ok (text, s'), w')
    ∧ state s' = BOOKING_DONE
    ∧ sent w' = rq :: sent w4 ∧ rq_url rq = "/reservation/update"
    ∧ store w' !! lock_key (py.str_opt (client_phone (slots session)))
                    (idempotency.SidInt (sch_id s))
      = Some (lock_entry (now w4)).
Proof.
  intros (Hst & Hpin & Hid & g & target & w2 & groups & w3 & schedules
          & Hg & Hne & Hdt & Hclient & Hgroups & Hsched & Hfind) Hfree Hgo Hr Ho.
  assert (Htr : py.truthy (group (slots session)) = true).
  { rewrite Hg. simpl. by apply negb_true_iff, String.eqb_neq. }
  rewrite transition_allowed in Hclient by (by rewrite Hst). cbn [snd] in Hclient.
  set (key := lock_key (py.str_opt (client_phone (slots session)))
                (idempotency.SidInt (sch_id s))) in *.
  set (wa := set_store (insert key (lock_entry (now w4))) w4).
  destruct (create_booking_clears wa (cl_id c) (idempotency.SidInt (sch_id s)) (Some trace)
              r rest rsv Hgo Hr Ho)
    as (w5 & rq & Hbook & Hurl & Hsent & _ & _ & _ & _ & Hkeep).
  eexists _, _, _, rq. split.
  - unfold booking_flow.confirm_booking. cbv zeta.
    rewrite Htr, Hdt. cbn [negb orb].
    replace (bool_decide (is_Some (Some target))) with true by reflexivity. cbn [negb orb].
    run_by ltac:(apply transition_allowed; by rewrite Hst).
    apply try_ok.
    rewrite (resolve_client_run _ _ _ _ _ _ Hclient).
    rewrite truthy_pinned, Hpin, Hg. cbn [default from_option id].
    rewrite !bind_assoc. run Hgroups. rewrite ret_bind.
    rewrite !bind_assoc. run Hsched. rewrite Hfind.
    rewrite ret_bind. cbn [booking_flow.truthy_ref default from_option id].
    destruct (Z.eqb_spec (sch_id s) 0) as [|_]; [contradiction|]. cbn [negb].
    run (acquire_free _ _ _ Hfree). cbn [negb].
    apply try_ok. fold key. fold wa.
    run Hbook. run_by ltac:(by apply transition_allowed). run_pure. reflexivity.
  - split; [reflexivity|]. simpl. split; [assumption|]. split; [assumption|].
    rewrite lookup_insert_ne by apply lock_key_not_session.
    rewrite Hkeep by apply cleared_keys_are_impulse, lock_key_not_impulse.
    apply lookup_insert_eq.
Qed.

Lemma acquire_each_held (phone : string) (sid : idempotency.schedule_ref)
    (t0 : Z) (later : list Z) (w : World) :
  store w !! lock_key phone sid = Some (lock_entry t0) →
  Forall (λ t, t < t0 + 600) later →
  ∃ w', acquire_each phone sid later w
        = (repeat (Ok (false, idempotency.already_booked)) (length later), w')
      ∧ store w' = store w.
Proof.
  intros Hst Hall. revert w Hst.
  induction Hall as [|t later Ht _ IH]; intros w Hst; [by exists w|].
  simpl. rewrite (acquire_held phone sid (at_time t w) (lock_entry t0)).
  - destruct (IH (at_time t w) Hst) as (w' & -> & Hs). by exists w'.
  - unfold redis.peek. simpl. rewrite Hst. unfold redis.live. simpl.
    by destruct (Z.ltb_spec t (t0 + 600)); [|lia].
Qed.




(** C1.  The lock of a (phone, schedule) pair is the key idempotency:
    followed by the hex digest of the phone with the schedule identifier
    appended, an [int] identifier in its decimal writing.  Among the
    acquisitions for one pair that fall within ten minutes of the first,
    with the key free at the first and no release in between, the first
    sets that key to 1 for 600 seconds and answers (True, empty string);
    each later one answers (False, already booked) and leaves the store as
    it was.  A confirmation that reaches a held lock answers already
    booked, goes to idle and sends nothing more to the CRM; one that
    reaches a free lock takes it and sends the one reservation request. *)
Theorem one_booking_per_fingerprint (phone : string) (sid : idempotency.schedule_ref)
    (t0 : Z) (later : list Z) (w0 : World) :
  redis.peek (at_time t0 w0) (lock_key phone sid) = None →
  Forall (λ t, t < t0 + 600) later →
  lock_key phone sid
  = "idempotency:"
    +:+ hexdigest (phone +:+ match sid with
                             | idempotency.SidStr s => s
                             | idempotency.SidInt z => NilZero.string_of_int (Z.to_int z)
                             end)
  ∧ (∃ w', acquire_each phone sid (t0 :: later) w0
           = (Ok (true, "") :: repeat (Ok (false, idempotency.already_booked)) (length later),
              w')
         ∧ store w'
           = <[lock_key phone sid := {| value := VStr "1"; deadline := Some (t0 + 600) |}]>
               (store w0))
  ∧ (∀ self session trace w c s w4,
       reaches_lock self session trace w c s w4 →
       py.str_opt (client_phone (slots session)) = phone →
       idempotency.SidInt (sch_id s) = sid →
       (∀ e, redis.peek w4 (lock_key phone sid) = Some e →
          ∃ s' w', booking_flow.confirm_booking self session trace w
                   = (Ok (idempotency.already_booked, s'), w')
            ∧ state s' = IDLE ∧ sent w' = sent w4 ∧ audit w' = audit w4
            ∧ store w' !! lock_key phone sid = store w4 !! lock_key phone sid)
       ∧ (redis.peek w4 (lock_key phone sid) = None →
          ∀ r rest rsv, breaker_lets_through w4 → replies w4 = r :: rest →
          outcome r = Success (BItem (IReservation rsv)) →
          ∃ text s' w' rq, booking_flow.confirm_booking self session trace w
                           = (Ok (text, s'), w')
            ∧ state s' = BOOKING_DONE
            ∧ sent w' = rq :: sent w4 ∧ rq_url rq = "/reservation/update"
            ∧ store w' !! lock_key phone sid
              = Some {| value := VStr "1"; deadline := Some (now w4 + 600) |})).
Proof.
  intros Hfree Hall. split; [by destruct sid|]. split.
  - simpl. rewrite (acquire_free phone sid (at_time t0 w0) Hfree).
    destruct (acquire_each_held phone sid t0 later
                (set_store (insert (lock_key phone sid) (lock_entry (now (at_time t0 w0))))
                   (at_time t0 w0))) as (w' & -> & Hs); [apply lookup_insert_eq|assumption|].
    by exists w'.
  - intros self session trace w c s w4 Hreach <- <-. split.
    + intros e Hheld. eexists _, _. split; [by eapply already_booked_path|].
      simpl. repeat split. apply lookup_insert_ne, lock_key_not_session.
    + intros Hfree4 r rest rsv Hgo Hr Ho. by eapply booked_path.
Qed.

End flow.

#[local] Existing Instance basic_lower.

(** Three more attempts within the ten minutes that follow the first. *)
Lemma one_booking_per_fingerprint_witness :
  @lock_key plain_digest "89990001122" (idempotency.SidInt 11) = "idempotency:8999000112211"
  ∧ ∃ w', @acquire_each plain_digest "89990001122" (idempotency.SidInt 11)
            [1000; 1001; 1300; 1599] (quiet_world 0)
          = ([Ok (true, ""); Ok (false, "Вы уже записаны на это занятие ✅");
              Ok (false, "Вы уже записаны на это занятие ✅");
              Ok (false, "Вы уже записаны на это занятие ✅")],
             w')
        ∧ store w'
          = <["idempotency:8999000112211" := {| value := VStr "1"; deadline := Some 1600 |}]>
              ∅.
Proof.
  split.
  - apply (proj1 (@one_booking_per_fingerprint plain_digest basic_lower "89990001122"
             (idempotency.SidInt 11) 1000 [1001; 1300; 1599] (quiet_world 0) eq_refl
             ltac:(repeat constructor))).
  - apply (proj1 (proj2 (@one_booking_per_fingerprint plain_digest basic_lower "89990001122"
             (idempotency.SidInt 11) 1000 [1001; 1300; 1599] (quiet_world 0) eq_refl
             ltac:(repeat constructor)))).
Defined.


End flow_facts.

(** ** The receipt *)

Module receipt_facts.
Import models eff spec.

Lemma starts_with_length (p s : py.text) :
  py.starts_with p s = true → (length p ≤ length s)%nat.
Proof.
  revert s. induction p as [|a p IH]; intros [|b s]; simpl; try lia; try discriminate.
  intros Hs. apply andb_true_iff in Hs as [_ Hs]. apply IH in Hs. lia.
Qed.

Lemma replace_from_length (old new : py.text) (k : nat) (s : py.text) :
  (length new ≤ length old)%nat →
  (length (py.replace_from old new k s) ≤ length s - k)%nat.
Proof.
  intros Hlen. revert k. induction s as [|c s IH]; intros k; [simpl; lia|].
  destruct k as [|k]; simpl.
  - destruct (py.starts_with old (c :: s)) eqn:Hs.
    + apply starts_with_length in Hs. simpl in Hs.
      rewrite length_app. specialize (IH (length old - 1)%nat). lia.
    + simpl. specialize (IH 0%nat). lia.
  - apply IH.
Qed.

Lemma replace_from_shrinks (old new : py.text) (s : py.text) :
  old ≠ [] → (length new ≤ length old)%nat → py.contains s old = true →
  (length (py.replace_from old new 0 s) + (length old - length new) ≤ length s)%nat.
Proof.
  intros Hne Hlen. induction s as [|c s IH]; intros Hin.
  - simpl in Hin. destruct old; [done|discriminate].
  - simpl. simpl in Hin. destruct (py.starts_with old (c :: s)) eqn:Hs.
    + apply starts_with_length in Hs. simpl in Hs. rewrite length_app.
      pose proof (replace_from_length old new (length old - 1) s Hlen).
      destruct old; [done|]. simpl in *. lia.
    + simpl in Hin. simpl. specialize (IH Hin). lia.
Qed.

Lemma contains_length (s p : py.text) : py.contains s p = true → (length p ≤ length s)%nat.
Proof.
  induction s as [|c s IH]; simpl.
  - destruct p; [simpl; lia|discriminate].
  - intros Hin. apply orb_true_iff in Hin as [Hs|Hin].
    + apply starts_with_length in Hs. simpl in Hs. lia.
    + apply IH in Hin. lia.
Qed.

(** Whatever the fields hold, a receipt in which the address occurs leaves
    [cap] with at most 300 characters. *)
Lemma cap_within_limit (receipt address : py.text) :
  py.contains receipt address = true →
  (length (booking_flow.cap receipt address) ≤ 300)%nat.
Proof.
  intros Hin. pose proof (contains_length _ _ Hin) as Hle.
  unfold booking_flow.cap.
  destruct (Nat.ltb_spec 300 (length receipt)) as [Hlong|]; [|lia].
  destruct (Z.ltb_spec 0 (300 - (Z.of_nat (length receipt) - Z.of_nat (length address)) - 3))
    as [Hroom|_].
  - set (n := 300 - (Z.of_nat (length receipt) - Z.of_nat (length address)) - 3) in *.
    assert (Hne : address ≠ []).
    { intros ->. simpl in *. lia. }
    assert (Htr : length (py.slice_to n address ++ booking_flow.dots) = (Z.to_nat n + 3)%nat).
    { rewrite length_app. unfold py.slice_to. rewrite length_take. 
      change (length booking_flow.dots) with 3%nat. lia. }
    unfold py.replace. destruct address as [|a address]; [done|].
    pose proof (replace_from_shrinks (a :: address)
                  (py.slice_to n (a :: address) ++ booking_flow.dots) receipt Hne) as Hs.
    rewrite Htr in Hs. specialize (Hs ltac:(lia) Hin). lia.
  - rewrite length_app. unfold py.slice_to. rewrite length_take.
    change (length booking_flow.dots) with 3%nat. lia.
Qed.

Lemma starts_with_self (p s : py.text) : py.starts_with p (p ++ s) = true.
Proof. induction p as [|a p IH]; [reflexivity|]. simpl. by rewrite N.eqb_refl. Qed.

Lemma replace_from_skip (old new : py.text) (k : nat) (s : py.text) :
  py.replace_from old new k s = py.replace_from old new 0 (drop k s).
Proof.
  revert k. induction s as [|c s IH]; intros [|k]; try reflexivity.
  simpl. apply IH.
Qed.

Lemma replace_from_absent (old new : py.text) (s : py.text) :
  py.contains s old = false → py.replace_from old new 0 s = s.
Proof.
  induction s as [|c s IH]; [reflexivity|]. simpl. intros Hin.
  apply orb_false_iff in Hin as [-> Hin]. by rewrite IH.
Qed.

Lemma replace_from_passes (old new : py.text) (pre rest : py.text) :
  (∀ i, (i < length pre)%nat → py.starts_with old (drop i (pre ++ rest)) = false) →
  py.replace_from old new 0 (pre ++ rest) = pre ++ py.replace_from old new 0 rest.
Proof.
  induction pre as [|c pre IH]; intros Hno; [reflexivity|].
  change ((c :: pre) ++ rest) with (c :: (pre ++ rest)).
  cbn [py.replace_from].
  pose proof (Hno 0%nat ltac:(simpl; lia)) as H0.
  change (py.starts_with old (c :: (pre ++ rest)) = false) in H0. rewrite H0.
  rewrite IH; [reflexivity|].
  intros i Hi. apply (Hno (S i)). simpl. lia.
Qed.

(** When the text of the address occurs in the receipt nowhere but in the
    address field and the other fields leave room, [cap] shortens that field
    and nothing else. *)
Lemma cap_shortens_address_only (pre address post : py.text) :
  (∀ i, (i < length pre)%nat →
        py.starts_with address (drop i (pre ++ address ++ post)) = false) →
  py.contains post address = false →
  (300 < length (pre ++ address ++ post))%nat →
  (length pre + length post < 297)%nat →
  booking_flow.cap (pre ++ address ++ post) address
  = pre ++ (take (297 - length pre - length post) address ++ booking_flow.dots) ++ post.
Proof.
  intros Hpre Hpost Hlong Hroom. unfold booking_flow.cap.
  rewrite !length_app in Hlong.
  destruct (Nat.ltb_spec 300 (length (pre ++ address ++ post))) as [_|Hshort];
    [|rewrite !length_app in Hshort; lia].
  rewrite !length_app.
  destruct (Z.ltb_spec 0 (300 - (Z.of_nat (length pre + (length address + length post))
                                 - Z.of_nat (length address)) - 3)) as [_|]; [|lia].
  unfold py.slice_to.
  replace (Z.to_nat (300 - (Z.of_nat (length pre + (length address + length post))
                            - Z.of_nat (length address)) - 3))
    with (297 - length pre - length post)%nat by lia.
  destruct address as [|a address]; [simpl in *; lia|].
  unfold py.replace. rewrite replace_from_passes by assumption. f_equal.
  change ((a :: address) ++ post) with (a :: (address ++ post)).
  cbn [py.replace_from].
  change (a :: address ++ post) with ((a :: address) ++ post).
  rewrite starts_with_self. f_equal.
  rewrite replace_from_skip.
  replace (length (a :: address) - 1)%nat with (length address) by (simpl; lia).
  rewrite drop_app_length. by apply replace_from_absent.
Qed.

(** C8 fails on this input: the receipt as rendered has 335 characters, 246
    of them outside the address, so the address is what makes it too long;
    the capped receipt fits in 300 characters and keeps the direction, the
    date and time and the phone, but the client's name, which contains the
    text of the address, has been cut along with the address. *)
Lemma receipt_cuts_name_with_address :
  let naive :=
    booking_flow.render "Хип-хоп" (py.strftime_dmY_HM sample_target)
      (cl_name namesake_client) (cl_phone namesake_client) long_address "501" in
  let without_address :=
    booking_flow.render "Хип-хоп" (py.strftime_dmY_HM sample_target)
      (cl_name namesake_client) (cl_phone namesake_client) "" "501" in
  let receipt :=
    booking_flow._generate_booking_receipt long_address_flow sample_reservation
      namesake_client sample_session in
  py.len naive = 335 ∧ py.len without_address = 246
  ∧ py.len receipt = 265
  ∧ py.str_in "Хип-хоп" receipt = true
  ∧ py.str_in "05.03.2024 19:00" receipt = true
  ∧ py.str_in (cl_phone namesake_client) receipt = true
  ∧ py.str_in (cl_name namesake_client) receipt = false.
Proof. vm_compute. repeat split. Qed.

End receipt_facts.


